(** * Bitcoin tracker (TM4C123): threshold selection, line framing and alert loop

    Shallow embedding of [src/build/main.c].  The program is one [main]:
    a start-up phase in which the operator picks a price threshold with a
    push button, then an endless loop that reads UART bytes, frames them
    into lines, parses each line with [sscanf] and drives a 16x2 LCD, a
    two-colour LED and a buzzer.

    The environment is given as two input tapes: the bytes that
    [UART1_Input_Character] returns, and the results of the successive
    calls of [PushButton_Pressed].  Every call the program makes to a
    peripheral is appended to a call log.

    The arrays have their declared sizes: [uart_buffer] is written
    through [index], [line2] and [priceStr] by [sprintf], and a store that
    would fall outside its array ends the run.  The display shows two rows
    of sixteen columns. *)

From Stdlib Require Import ZArith List Ascii String Bool Lia QArith.
From Stdlib Require Import SpecFloat DecimalString.
Import ListNotations.

Local Open Scope string_scope.
Local Open Scope list_scope.
Local Open Scope Z_scope.

(** ** C [float]: IEEE-754 binary32 *)

Module C32.

Definition prec : Z := 24.
Definition emax : Z := 128.

(** A [float]: the numbers of [spec_float], and a NaN with its sign bit,
    which [printf] shows. *)
Variant float :=
| Zero (s : bool)
| Infinity (s : bool)
| NaN (s : bool)
| Finite (s : bool) (m : positive) (e : Z).

Definition to_spec (x : float) : spec_float :=
  match x with
  | Zero s => S754_zero s
  | Infinity s => S754_infinity s
  | NaN _ => S754_nan
  | Finite s m e => S754_finite s m e
  end.

Definition of_spec (x : spec_float) : float :=
  match x with
  | S754_zero s => Zero s
  | S754_infinity s => Infinity s
  | S754_nan => NaN false
  | S754_finite s m e => Finite s m e
  end.

Definition zero : float := Zero false.

(** [(float) z] for an [int] z: round to nearest, ties to even. *)
Definition of_int (z : Z) : float :=
  of_spec (binary_normalize prec emax z 0 false).

(** [x < y] and [x >= y]; both are false when an operand is a NaN. *)
Definition ltb (x y : float) : bool := SFltb (to_spec x) (to_spec y).
Definition geb (x y : float) : bool := SFleb (to_spec y) (to_spec x).

(** The value of a decimal literal [(-1)^neg * m * 10^e10], rounded once
    to binary32 (what a correctly rounding [strtof] returns). *)
Definition of_decimal (neg : bool) (m : N) (e10 : Z) : float :=
  match m with
  | N0 => Zero neg
  | Npos p =>
      match e10 with
      | Zneg q =>
          let '(mz, ez, lz) :=
            SFdiv_core_binary prec emax (Zpos p) 0 (Zpos (Pos.pow 10 q)) 0 in
          of_spec (binary_round_aux prec emax neg mz ez lz)
      | Z0 => of_spec (binary_round prec emax neg p 0)
      | Zpos q => of_spec (binary_round prec emax neg (p * Pos.pow 10 q) 0)
      end
  end.

(** The value of a hexadecimal literal [(-1)^neg * m * 2^e2], rounded once
    to binary32. *)
Definition of_binary (neg : bool) (m : N) (e2 : Z) : float :=
  match m with
  | N0 => Zero neg
  | Npos p => of_spec (binary_round prec emax neg p e2)
  end.

Definition INT_MAX : Z := 2147483647.
Definition INT_MIN : Z := -2147483648.

(** [(int) x]: truncation toward zero.  C leaves the conversion undefined
    when the value does not fit an [int]; the Cortex-M4F of the board
    (VCVT) saturates and turns a NaN into 0, which is what is modelled. *)
Definition to_int (x : float) : Z :=
  match x with
  | Zero _ => 0
  | NaN _ => 0
  | Infinity s => if s then INT_MIN else INT_MAX
  | Finite s m e =>
      let mag := match e with
                 | Zneg k => Z.shiftr (Zpos m) (Zpos k)
                 | _ => Z.shiftl (Zpos m) e
                 end in
      let v := if s then - mag else mag in
      Z.max INT_MIN (Z.min INT_MAX v)
  end.

(** The exact rational value of a finite float. *)
Definition to_Q (x : float) : option Q :=
  match x with
  | Zero _ => Some (0 # 1)
  | Finite s m e =>
      let n := if s then Zneg m else Zpos m in
      Some (match e with
            | Zneg k => n # Pos.pow 2 k
            | _ => (n * 2 ^ e) # 1
            end)
  | _ => None
  end.

(** [round(|x| * 100)] to the nearest integer, ties to even, for a finite
    [x = m * 2^e]: the digits that [%.2f] prints. *)
Definition hundredths (m : positive) (e : Z) : Z :=
  match e with
  | Zneg k =>
      let d := Z.pow 2 (Zpos k) in
      let n := Zpos m * 100 in
      let q := n / d in
      let r := n mod d in
      match 2 * r ?= d with
      | Lt => q
      | Gt => q + 1
      | Eq => if Z.even q then q else q + 1
      end
  | _ => Z.shiftl (Zpos m) e * 100
  end.

End C32.

Abbreviation float := C32.float.

(** ** The parts of <stdio.h> that [main] uses *)

Module Stdio.

Definition LF : ascii := "010"%char.
Definition CR : ascii := "013"%char.
Definition NUL : ascii := "000"%char.

(** [isspace] in the C locale. *)
Definition isspace (c : ascii) : bool :=
  let n := N_of_ascii c in
  (n =? 32)%N || ((9 <=? n)%N && (n <=? 13)%N).

Definition digit_of (c : ascii) : option N :=
  let n := N_of_ascii c in
  if ((48 <=? n)%N && (n <=? 57)%N)%bool then Some (n - 48)%N else None.

(** The C string held in an array: the bytes before the first NUL. *)
Fixpoint cstring (buf : list ascii) : list ascii :=
  match buf with
  | [] => []
  | c :: rest => if Ascii.eqb c NUL then [] else c :: cstring rest
  end.

Fixpoint skip_ws (inp : list ascii) : list ascii :=
  match inp with
  | c :: rest => if isspace c then skip_ws rest else inp
  | [] => []
  end.

(** A run of decimal digits: the number read so far, how many digits were
    read, and the input that follows them. *)
Fixpoint read_digits (inp : list ascii) (acc : N) (cnt : Z)
  : N * Z * list ascii :=
  match inp with
  | c :: rest =>
      match digit_of c with
      | Some d => read_digits rest (10 * acc + d)%N (cnt + 1)
      | None => (acc, cnt, inp)
      end
  | [] => (acc, cnt, [])
  end.

Definition read_sign (inp : list ascii) : bool * list ascii :=
  match inp with
  | "-"%char :: rest => (true, rest)
  | "+"%char :: rest => (false, rest)
  | _ => (false, inp)
  end.

(** [tolower] in the C locale. *)
Definition lower (c : ascii) : ascii :=
  let n := N_of_ascii c in
  if ((65 <=? n)%N && (n <=? 90)%N)%bool then ascii_of_N (n + 32) else c.

Definition hex_digit_of (c : ascii) : option N :=
  let n := N_of_ascii (lower c) in
  if ((48 <=? n)%N && (n <=? 57)%N)%bool then Some (n - 48)%N
  else if ((97 <=? n)%N && (n <=? 102)%N)%bool then Some (n - 87)%N
  else None.

Fixpoint read_hex_digits (inp : list ascii) (acc : N) (cnt : Z)
  : N * Z * list ascii :=
  match inp with
  | c :: rest =>
      match hex_digit_of c with
      | Some d => read_hex_digits rest (16 * acc + d)%N (cnt + 1)
      | None => (acc, cnt, inp)
      end
  | [] => (acc, cnt, [])
  end.

(** A digit, a letter or an underscore: what may stand between the
    parentheses of [nan(...)]. *)
Definition is_nchar (c : ascii) : bool :=
  let n := N_of_ascii (lower c) in
  ((48 <=? n)%N && (n <=? 57)%N) || ((97 <=? n)%N && (n <=? 122)%N)
  || (n =? 95)%N.

Fixpoint skip_nchars (inp : list ascii) : list ascii :=
  match inp with
  | c :: rest => if is_nchar c then skip_nchars rest else inp
  | [] => []
  end.

(** How many characters of the input spell, in either case, the start of
    [word], and the input behind them. *)
Fixpoint spelled (word inp : list ascii) : nat * list ascii :=
  match word, inp with
  | w :: word', c :: inp' =>
      if Ascii.eqb (lower c) w
      then let '(k, rest) := spelled word' inp' in (S k, rest)
      else (O, inp)
  | _, _ => (O, inp)
  end.

(** An exponent part behind its letter: an optional sign and at least one
    decimal digit. *)
Definition read_exponent (inp : list ascii) : option (Z * list ascii) :=
  let '(eneg, r1) := read_sign inp in
  let '(ev, n, r2) := read_digits r1 0%N 0 in
  if n =? 0 then None
  else Some (if eneg then - Z.of_N ev else Z.of_N ev, r2).

(** [[+-]digits[.digits][(e|E)[+-]digits]] behind the sign, with at least
    one digit in the mantissa. *)
Definition read_decimal (neg : bool) (inp : list ascii)
  : option (float * list ascii) :=
  let '(ip, n1, i2) := read_digits inp 0%N 0 in
  let '(m, n2, i3) :=
    match i2 with
    | "."%char :: r => read_digits r ip 0
    | _ => (ip, 0, i2)
    end in
  if n1 + n2 =? 0 then None
  else
    let exponent r :=
      match read_exponent r with
      | Some (e, r2) => Some (C32.of_decimal neg m (e - n2), r2)
      | None => None
      end in
    match i3 with
    | "e"%char :: r => exponent r
    | "E"%char :: r => exponent r
    | _ => Some (C32.of_decimal neg m (- n2), i3)
    end.

(** [0x] and hexadecimal digits with an optional point, at least one
    digit, and an optional binary exponent [(p|P)[+-]digits]; [inp] is the
    input behind [0x]. *)
Definition read_hexadecimal (neg : bool) (inp : list ascii)
  : option (float * list ascii) :=
  let '(ip, n1, i2) := read_hex_digits inp 0%N 0 in
  let '(m, n2, i3) :=
    match i2 with
    | "."%char :: r => read_hex_digits r ip 0
    | _ => (ip, 0, i2)
    end in
  if n1 + n2 =? 0 then None
  else
    let exponent r :=
      match read_exponent r with
      | Some (e, r2) => Some (C32.of_binary neg m (e - 4 * n2), r2)
      | None => None
      end in
    match i3 with
    | "p"%char :: r => exponent r
    | "P"%char :: r => exponent r
    | _ => Some (C32.of_binary neg m (- (4 * n2)), i3)
    end.

(** [inf] or [infinity], in either case. *)
Definition read_infinity (neg : bool) (inp : list ascii)
  : option (float * list ascii) :=
  match spelled (list_ascii_of_string "infinity") inp with
  | (8%nat, rest) => Some (C32.Infinity neg, rest)
  | (3%nat, rest) => Some (C32.Infinity neg, rest)
  | _ => None
  end.

(** [nan] or [nan(n-char-sequence)], in either case. *)
Definition read_nan (neg : bool) (inp : list ascii)
  : option (float * list ascii) :=
  match spelled (list_ascii_of_string "nan") inp with
  | (3%nat, "("%char :: rest) =>
      match skip_nchars rest with
      | ")"%char :: rest' => Some (C32.NaN neg, rest')
      | _ => None
      end
  | (3%nat, rest) => Some (C32.NaN neg, rest)
  | _ => None
  end.

(** The input item of a [%f] conversion and its value: the subject
    sequences of [strtod] (C99 7.20.1.3), an optional sign and then a
    decimal number, a hexadecimal number, INF, INFINITY, NAN or
    NAN(n-char-sequence).  As C prescribes for [scanf] (7.19.6.2), the item
    is the longest prefix of the input that is a prefix of such a sequence,
    and the conversion fails when that prefix is not itself one: an
    exponent letter without digits, [0x] without a hexadecimal digit,
    [infi], or [nan(] without its closing parenthesis, are matching
    failures. *)
Definition read_float (inp : list ascii) : option (float * list ascii) :=
  let '(neg, i1) := read_sign inp in
  match i1 with
  | [] => None
  | c :: r =>
      if Ascii.eqb (lower c) "i"%char then read_infinity neg i1
      else if Ascii.eqb (lower c) "n"%char then read_nan neg i1
      else
        match c, r with
        | "0"%char, x :: r' =>
            if Ascii.eqb (lower x) "x"%char then read_hexadecimal neg r'
            else read_decimal neg i1
        | _, _ => read_decimal neg i1
        end
  end.

(** Directives of a [scanf] format, as far as [main]'s format needs them. *)
Inductive directive :=
| D_space                 (* white space: skips any white space *)
| D_char (c : ascii)      (* an ordinary character: must match *)
| D_float                 (* %f *)
| D_percent.              (* %% *)

Fixpoint directives (fmt : list ascii) : list directive :=
  match fmt with
  | [] => []
  | "%"%char :: "f"%char :: rest => D_float :: directives rest
  | "%"%char :: "%"%char :: rest => D_percent :: directives rest
  | c :: rest =>
      (if isspace c then D_space else D_char c) :: directives rest
  end.

Inductive scan_end := Completed | Matching_failure | Input_failure.

(** Runs the directives over the input; [got] are the values assigned so
    far, in order. *)
Fixpoint scan (ds : list directive) (inp : list ascii) (got : list float)
  : list float * scan_end :=
  match ds with
  | [] => (got, Completed)
  | D_space :: ds' => scan ds' (skip_ws inp) got
  | D_char c :: ds' =>
      match inp with
      | [] => (got, Input_failure)
      | x :: inp' =>
          if Ascii.eqb x c then scan ds' inp' got
          else (got, Matching_failure)
      end
  | D_float :: ds' =>
      match skip_ws inp with
      | [] => (got, Input_failure)
      | i1 =>
          match read_float i1 with
          | Some (v, rest) => scan ds' rest (got ++ [v])
          | None => (got, Matching_failure)
          end
      end
  | D_percent :: ds' =>
      match skip_ws inp with
      | [] => (got, Input_failure)
      | x :: inp' =>
          if Ascii.eqb x "%"%char then scan ds' inp' got
          else (got, Matching_failure)
      end
  end.

Definition EOF : Z := -1.

(** [sscanf(s, fmt, ...)]: the values assigned and the returned count
    (EOF when the input ends before the first conversion). *)
Definition sscanf (s : list ascii) (fmt : string) : Z * list float :=
  match scan (directives (list_ascii_of_string fmt)) s [] with
  | ([], Input_failure) => (EOF, [])
  | (got, _) => (Z.of_nat (List.length got), got)
  end.

(** [%d] *)
Definition fmt_d (z : Z) : string := NilZero.string_of_int (Z.to_int z).

Fixpoint fill (c : ascii) (n : nat) : string :=
  match n with
  | O => EmptyString
  | S k => String c (fill c k)
  end.

(** [%0<w>d]: the sign first, then zeros up to the width, then digits. *)
Definition fmt_0d (w : nat) (z : Z) : string :=
  let digits := NilZero.string_of_uint (N.to_uint (Z.to_N (Z.abs z))) in
  if z <? 0
  then String "-" (fill "0" (w - 1 - String.length digits) ++ digits)%string
  else (fill "0" (w - String.length digits) ++ digits)%string.

(** [%-<w>d]: left-justified, padded with spaces on the right. *)
Definition fmt_left_d (w : nat) (z : Z) : string :=
  let s := fmt_d z in (s ++ fill " " (w - String.length s))%string.

(** [%+.2f] of a [float] (promoted to [double] without change of value):
    a sign always, the value rounded to two decimals.  C leaves the style
    of an infinity ([inf] or [infinity]) and of a NaN to the
    implementation; the short ones are taken. *)
Definition fmt_plus_2f (x : float) : string :=
  match x with
  | C32.NaN s => ((if s then "-" else "+") ++ "nan")%string
  | C32.Infinity s => ((if s then "-" else "+") ++ "inf")%string
  | C32.Zero s => ((if s then "-" else "+") ++ "0.00")%string
  | C32.Finite s m e =>
      let h := C32.hundredths m e in
      ((if s then "-" else "+") ++ fmt_d (h / 100) ++ "."
         ++ fmt_0d 2 (h mod 100))%string
  end.

End Stdio.

(** ** The board: LCD, LED port and buzzer

    [tracker.h] and the drivers behind it are not in [src/]; [main] only
    calls them.  Each call is logged as a [call], and its effect on the
    peripheral is modelled from the header comment of [main.c] and the
    specification. *)

Inductive call :=
| Ev_PushButton_Init
| Ev_RGB_LED_Init
| Ev_Buzzer_Init
| Ev_LCD_Init
| Ev_UART1_Init
| Ev_LCD_Clear
| Ev_LCD_Set_Cursor (col row : Z)
| Ev_LCD_Display_String (s : string)
| Ev_DelayMs (ms : Z)
| Ev_RGB_LED_Flash_Yellow
| Ev_RGB_LED_Set_Normal (change : float)
| Ev_Buzzer_Toggle
| Ev_Buzzer_Off
| Ev_GPIOD_DATA (v : Z).

Module Board.

(** Modelled from the spec: the display sink, two rows of sixteen columns
    and a cursor; a write puts the string at the cursor and moves the cursor
    past it, clearing empties both rows. *)
Record LCD := mkLCD { cur_col : Z; cur_row : Z; row0 : string; row1 : string }.

Definition COLUMNS : nat := 16.

Fixpoint drop (n : nat) (s : string) : string :=
  match n, s with
  | S k, String _ r => drop k r
  | _, _ => s
  end.

Fixpoint overlay (col : nat) (s row : string) : string :=
  match col with
  | O => (s ++ drop (String.length s) row)%string
  | S k =>
      match row with
      | EmptyString => String " " (overlay k s EmptyString)
      | String x r => String x (overlay k s r)
      end
  end.

(** The first [n] characters of a text. *)
Fixpoint clip (n : nat) (s : string) : string :=
  match n, s with
  | S k, String x r => String x (clip k r)
  | _, _ => EmptyString
  end.

(** Modelled from the spec: [LCD_Clear] empties both rows (the cursor goes
    home). *)
Definition clear : LCD := mkLCD 0 0 "" "".

(** Modelled from the spec: [LCD_Set_Cursor] gives the origin of the next
    write. *)
Definition set_cursor (col row : Z) (d : LCD) : LCD :=
  mkLCD col row (row0 d) (row1 d).

(** Modelled from the spec: [LCD_Display_String] writes over the row of
    the cursor from its column on, without wrapping: what would come after
    the sixteenth column is not shown. *)
Definition display (s : string) (d : LCD) : LCD :=
  let col' := cur_col d + Z.of_nat (String.length s) in
  if cur_row d =? 0
  then mkLCD col' (cur_row d)
         (clip COLUMNS (overlay (Z.to_nat (cur_col d)) s (row0 d))) (row1 d)
  else mkLCD col' (cur_row d) (row0 d)
         (clip COLUMNS (overlay (Z.to_nat (cur_col d)) s (row1 d))).

(** The LED sits on port D: red on PD0, green on PD1 (header comment of
    [main.c]). *)
Definition RED : Z := 1.
Definition GREEN : Z := 2.

(** Modelled from the spec: [RGB_LED_Flash_Yellow] toggles red and green
    together. *)
Definition flash_yellow (data : Z) : Z := Z.lxor data (Z.lor RED GREEN).

(** Modelled from the spec: [RGB_LED_Set_Normal] shows green only for a
    positive change, red only for a negative one, and nothing otherwise. *)
Definition set_normal (change : float) (data : Z) : Z :=
  let off := Z.land data (Z.lnot (Z.lor RED GREEN)) in
  if C32.ltb C32.zero change then Z.lor off GREEN
  else if C32.ltb change C32.zero then Z.lor off RED
  else off.

End Board.

(** ** Program state *)

Record State := mkState {
  (* locals of [main] *)
  uart_buffer : list ascii;        (* char uart_buffer[BUFFER_SIZE] *)
  index : Z;                       (* uint8_t *)
  price : float;
  change : float;
  line2 : string;                  (* char line2[17] *)
  adjustable_index : Z;            (* int *)
  threshStr : string;              (* char threshStr[17] *)
  elapsed : Z;                     (* uint32_t *)
  (* globals of tracker.h *)
  local_threshold : float;
  alarmStopped : Z;
  (* peripherals *)
  GPIOD_DATA : Z;                  (* GPIOD->DATA *)
  buzzer : bool;
  lcd : Board.LCD;
  (* every call made so far, oldest first *)
  calls : list call
}.

Definition set_uart_buffer v st :=
  mkState v (index st) (price st) (change st) (line2 st) (adjustable_index st)
    (threshStr st) (elapsed st) (local_threshold st) (alarmStopped st)
    (GPIOD_DATA st) (buzzer st) (lcd st) (calls st).
Definition set_index v st :=
  mkState (uart_buffer st) v (price st) (change st) (line2 st) (adjustable_index st)
    (threshStr st) (elapsed st) (local_threshold st) (alarmStopped st)
    (GPIOD_DATA st) (buzzer st) (lcd st) (calls st).
Definition set_price v st :=
  mkState (uart_buffer st) (index st) v (change st) (line2 st) (adjustable_index st)
    (threshStr st) (elapsed st) (local_threshold st) (alarmStopped st)
    (GPIOD_DATA st) (buzzer st) (lcd st) (calls st).
Definition set_change v st :=
  mkState (uart_buffer st) (index st) (price st) v (line2 st) (adjustable_index st)
    (threshStr st) (elapsed st) (local_threshold st) (alarmStopped st)
    (GPIOD_DATA st) (buzzer st) (lcd st) (calls st).
Definition set_line2 v st :=
  mkState (uart_buffer st) (index st) (price st) (change st) v (adjustable_index st)
    (threshStr st) (elapsed st) (local_threshold st) (alarmStopped st)
    (GPIOD_DATA st) (buzzer st) (lcd st) (calls st).
Definition set_adjustable_index v st :=
  mkState (uart_buffer st) (index st) (price st) (change st) (line2 st) v
    (threshStr st) (elapsed st) (local_threshold st) (alarmStopped st)
    (GPIOD_DATA st) (buzzer st) (lcd st) (calls st).
Definition set_threshStr v st :=
  mkState (uart_buffer st) (index st) (price st) (change st) (line2 st)
    (adjustable_index st) v (elapsed st) (local_threshold st) (alarmStopped st)
    (GPIOD_DATA st) (buzzer st) (lcd st) (calls st).
Definition set_elapsed v st :=
  mkState (uart_buffer st) (index st) (price st) (change st) (line2 st)
    (adjustable_index st) (threshStr st) v (local_threshold st) (alarmStopped st)
    (GPIOD_DATA st) (buzzer st) (lcd st) (calls st).
Definition set_local_threshold v st :=
  mkState (uart_buffer st) (index st) (price st) (change st) (line2 st)
    (adjustable_index st) (threshStr st) (elapsed st) v (alarmStopped st)
    (GPIOD_DATA st) (buzzer st) (lcd st) (calls st).
Definition set_alarmStopped v st :=
  mkState (uart_buffer st) (index st) (price st) (change st) (line2 st)
    (adjustable_index st) (threshStr st) (elapsed st) (local_threshold st) v
    (GPIOD_DATA st) (buzzer st) (lcd st) (calls st).
Definition set_GPIOD_DATA v st :=
  mkState (uart_buffer st) (index st) (price st) (change st) (line2 st)
    (adjustable_index st) (threshStr st) (elapsed st) (local_threshold st)
    (alarmStopped st) v (buzzer st) (lcd st) (calls st).
Definition set_buzzer v st :=
  mkState (uart_buffer st) (index st) (price st) (change st) (line2 st)
    (adjustable_index st) (threshStr st) (elapsed st) (local_threshold st)
    (alarmStopped st) (GPIOD_DATA st) v (lcd st) (calls st).
Definition set_lcd v st :=
  mkState (uart_buffer st) (index st) (price st) (change st) (line2 st)
    (adjustable_index st) (threshStr st) (elapsed st) (local_threshold st)
    (alarmStopped st) (GPIOD_DATA st) (buzzer st) v (calls st).
Definition log (e : call) st :=
  mkState (uart_buffer st) (index st) (price st) (change st) (line2 st)
    (adjustable_index st) (threshStr st) (elapsed st) (local_threshold st)
    (alarmStopped st) (GPIOD_DATA st) (buzzer st) (lcd st) (calls st ++ [e]).

(** ** The calls of [tracker.h] *)

(** Modelled from the spec: the five initialisations set up the
    peripherals; they are logged and leave the modelled state alone. *)
Definition PushButton_Init (st : State) : State := log Ev_PushButton_Init st.
Definition RGB_LED_Init (st : State) : State := log Ev_RGB_LED_Init st.
Definition Buzzer_Init (st : State) : State := log Ev_Buzzer_Init st.
Definition LCD_Init (st : State) : State := log Ev_LCD_Init st.
Definition UART1_Init (st : State) : State := log Ev_UART1_Init st.

Definition LCD_Clear (st : State) : State :=
  log Ev_LCD_Clear (set_lcd Board.clear st).
Definition LCD_Set_Cursor (col row : Z) (st : State) : State :=
  log (Ev_LCD_Set_Cursor col row) (set_lcd (Board.set_cursor col row (lcd st)) st).
Definition LCD_Display_String (s : string) (st : State) : State :=
  log (Ev_LCD_Display_String s) (set_lcd (Board.display s (lcd st)) st).
(** Modelled from the spec: [DelayMs] blocks for the given time and
    changes nothing; the call is logged with its duration. *)
Definition DelayMs (ms : Z) (st : State) : State := log (Ev_DelayMs ms) st.
Definition RGB_LED_Flash_Yellow (st : State) : State :=
  log Ev_RGB_LED_Flash_Yellow
    (set_GPIOD_DATA (Board.flash_yellow (GPIOD_DATA st)) st).
Definition RGB_LED_Set_Normal (ch : float) (st : State) : State :=
  log (Ev_RGB_LED_Set_Normal ch)
    (set_GPIOD_DATA (Board.set_normal ch (GPIOD_DATA st)) st).

(** Modelled from the spec: [Buzzer_Toggle] inverts the buzzer output and
    [Buzzer_Off] switches it off. *)
Definition Buzzer_Toggle (st : State) : State :=
  log Ev_Buzzer_Toggle (set_buzzer (negb (buzzer st)) st).
Definition Buzzer_Off (st : State) : State :=
  log Ev_Buzzer_Off (set_buzzer false st).

(** ** Outcomes

    A run is cut off where the environment stops answering: [Done] when
    it reached the point asked for (with the button polls not yet used),
    [Starved] when a polling loop needs one more answer from the button
    than the tape holds (the program is still inside that loop), [Fault]
    when a store falls outside the array it is meant for: C gives the
    program no behaviour from there on, and the run ends with the state as
    it was before that store. *)

(** The arrays of [main] that are stored into through an index or by
    [sprintf] with a text that depends on the input. *)
Variant array := Uart_buffer | Line2 | PriceStr.

Inductive outcome :=
| Done (st : State) (polls : list bool)
| Starved (st : State)
| Fault (st : State) (a : array).

Definition state_of (o : outcome) : State :=
  match o with Done st _ => st | Starved st => st | Fault st _ => st end.

Definition bind (o : outcome) (k : list bool -> State -> outcome) : outcome :=
  match o with
  | Done st polls => k polls st
  | Starved st => Starved st
  | Fault st a => Fault st a
  end.

Notation "'do' ( p , s ) <- o ; k" := (bind o (fun p s => k))
  (at level 10, p name, s name, o at level 100, k at level 200,
   format "'[v' 'do'  ( p ,  s )  <-  o ; '/' k ']'").

(** ** Threshold selection (main.c, lines 69-120) *)

Definition thresholds : list Z :=
  [10000; 20000; 30000; 40000; 50000; 60000;
   70000; 80000; 90000; 100000; 110000; 120000].

Definition total_thresholds : Z := Z.of_nat (List.length thresholds).

(** [thresholds[i]] *)
Definition threshold_at (i : Z) : Z := nth (Z.to_nat i) thresholds 0.

(** [sprintf(threshStr, "$%-7d", thresholds[adjustable_index])] and the two
    LCD calls that show it.  The text has 8 characters for every entry of
    the menu ([threshold_text_length]) and [threshStr] holds 17 bytes. *)
Definition show_threshold (st : State) : State :=
  let st := set_threshStr
              ("$" ++ Stdio.fmt_left_d 7 (threshold_at (adjustable_index st)))%string
              st in
  let st := LCD_Set_Cursor 0 1 st in
  LCD_Display_String (threshStr st) st.

(** The body of [if (PushButton_Pressed())]. *)
Definition on_press (st : State) : State :=
  let st := set_adjustable_index
              (Z.rem (adjustable_index st + 1) total_thresholds) st in
  let st := show_threshold st in
  let st := set_elapsed 0 st in
  DelayMs 300 st.

(** [DelayMs(100); elapsed += 100;] *)
Definition tick (st : State) : State :=
  let st := DelayMs 100 st in
  set_elapsed ((elapsed st + 100) mod 2 ^ 32) st.

(** [while (elapsed < 4000) { ... }] *)
Fixpoint threshold_loop (polls : list bool) (st : State) : outcome :=
  if elapsed st <? 4000 then
    match polls with
    | [] => Starved st
    | pressed :: polls' =>
        threshold_loop polls' (tick (if pressed then on_press st else st))
    end
  else Done st polls.

(** Lines 112-120: lock the threshold and announce it. *)
Definition lock_threshold (st : State) : State :=
  let st := set_local_threshold
              (C32.of_int (threshold_at (adjustable_index st))) st in
  let st := LCD_Clear st in
  let st := LCD_Set_Cursor 0 0 st in
  let st := LCD_Display_String "Threshold Saved" st in
  let st := DelayMs 3000 st in
  LCD_Clear st.

(** Lines 63-93: the locals, the initialisation of the peripherals and the
    prompt.  [boot] is the machine as [main] finds it: its globals and
    peripherals, and whatever the stack holds where [uart_buffer] lands. *)
Definition startup (boot : State) : State :=
  let st := set_index 0 boot in
  let st := set_price C32.zero (set_change C32.zero st) in
  let st := set_line2 "" st in
  let st := set_adjustable_index 0 st in
  let st := set_threshStr "" st in
  let st := set_elapsed 0 st in
  let st := PushButton_Init st in
  let st := RGB_LED_Init st in
  let st := Buzzer_Init st in
  let st := LCD_Init st in
  let st := UART1_Init st in
  let st := LCD_Clear st in
  let st := LCD_Set_Cursor 0 0 st in
  let st := LCD_Display_String "Set min val:" st in
  show_threshold st.

Definition threshold_phase (polls : list bool) (boot : State) : outcome :=
  do (polls, st) <- threshold_loop polls (startup boot);
  Done (lock_threshold st) polls.

(** ** The main loop (main.c, lines 123-179) *)

(** [buf[i] = c] for an array: outside the array there is nothing to
    store into. *)
Definition store (buf : list ascii) (i : Z) (c : ascii) : option (list ascii) :=
  if (0 <=? i) && (i <? Z.of_nat (List.length buf))
  then Some (firstn (Z.to_nat i) buf ++ c :: skipn (S (Z.to_nat i)) buf)
  else None.

Definition FORMAT : string := "BTC Price: $%f, 24h Change: %f%%".

(** [sprintf] stores the text and a NUL behind it: an array of [size]
    bytes holds a text of fewer than [size] characters. *)
Definition fits (size : nat) (text : string) : bool :=
  (String.length text <? size)%nat.

(** The text of [sprintf(priceStr, "$%d,%03d", thousands, remainder)]. *)
Definition sprintf_price (thousands remainder : Z) : string :=
  ("$" ++ Stdio.fmt_d thousands ++ "," ++ Stdio.fmt_0d 3 remainder)%string.

(** The text of [sprintf(line2, "$%d,%03d  %+.2f%%", thousands, remainder,
    change)]. *)
Definition sprintf_line2 (thousands remainder : Z) (ch : float) : string :=
  (sprintf_price thousands remainder ++ "  " ++ Stdio.fmt_plus_2f ch ++ "%")%string.

(** [sscanf] stores what it converts, in order: [&price] then [&change]. *)
Definition assign (got : list float) (st : State) : State :=
  match got with
  | [] => st
  | [p] => set_price p st
  | p :: ch :: _ => set_change ch (set_price p st)
  end.

(** The body of the alarm loop, lines 141-150, when the text fits
    [priceStr]. *)
Definition alarm_body (thousands remainder : Z) (st : State) : State :=
  let st := LCD_Clear st in
  let priceStr := sprintf_price thousands remainder in
  let st := LCD_Set_Cursor 0 0 st in
  let st := LCD_Display_String priceStr st in
  let st := LCD_Set_Cursor 0 1 st in
  let st := LCD_Display_String "BUY NOW" st in
  let st := RGB_LED_Flash_Yellow st in
  let st := Buzzer_Toggle st in
  DelayMs 150 st.

(** [while (price < local_threshold && !PushButton_Pressed()) { ... }]:
    the button is polled only when the comparison holds.  [priceStr] holds
    17 bytes (line 142); the [sprintf] of line 143 comes after the
    [LCD_Clear] of line 141. *)
Fixpoint alarm_loop (thousands remainder : Z) (polls : list bool) (st : State)
  : outcome :=
  if C32.ltb (price st) (local_threshold st) then
    match polls with
    | [] => Starved st
    | true :: polls' => Done st polls'
    | false :: polls' =>
        if fits 17 (sprintf_price thousands remainder)
        then alarm_loop thousands remainder polls'
               (alarm_body thousands remainder st)
        else Fault (LCD_Clear st) PriceStr
    end
  else Done st polls.

(** Lines 160-166. *)
Definition render_normal (st : State) : State :=
  let st := LCD_Clear st in
  let st := LCD_Set_Cursor 0 0 st in
  let st := LCD_Display_String "BTC Price:" st in
  let st := LCD_Set_Cursor 0 1 st in
  let st := LCD_Display_String (line2 st) st in
  let st := RGB_LED_Set_Normal (change st) st in
  Buzzer_Off st.

(** Lines 131-166: a line that [sscanf] converted in full.  [line2] holds
    17 bytes (line 66). *)
Definition on_update (polls : list bool) (st : State) : outcome :=
  let intPrice := C32.to_int (price st) in
  let thousands := Z.quot intPrice 1000 in
  let remainder := Z.rem intPrice 1000 in
  let text := sprintf_line2 thousands remainder (change st) in
  if fits 17 text then
    let st := set_line2 text st in
    do (polls, st) <-
      (if C32.ltb (price st) (local_threshold st) then
         do (polls, st) <- alarm_loop thousands remainder polls st;
         let st := set_alarmStopped 1 st in
         Done (Buzzer_Off st) polls
       else Done st polls);
    let st := if C32.geb (price st) (local_threshold st)
              then set_alarmStopped 0 st else st in
    Done (render_normal st) polls
  else Fault st Line2.

(** Lines 169-173: any other line. *)
Definition on_mismatch (st : State) : State :=
  let st := LCD_Clear st in
  let st := LCD_Set_Cursor 0 0 st in
  let st := LCD_Display_String "Loading..." st in
  (* GPIOD->DATA &= ~0x03, on a 32-bit register *)
  let v := Z.land (GPIOD_DATA st) (Z.lnot 3 mod 2 ^ 32) in
  let st := log (Ev_GPIOD_DATA v) (set_GPIOD_DATA v st) in
  Buzzer_Off st.

(** Lines 129-174: the terminated line goes through [sscanf] and one of
    the two branches runs. *)
Definition on_line (polls : list bool) (st : State) : outcome :=
  let '(n, got) := Stdio.sscanf (Stdio.cstring (uart_buffer st)) FORMAT in
  let st := assign got st in
  if n =? 2 then on_update polls st else Done (on_mismatch st) polls.

Section MainLoop.

(** [BUFFER_SIZE] comes from [tracker.h], which is not in [src/]. *)
Variable BUFFER_SIZE : Z.

(** The condition of line 126. *)
Definition line_ends (c : ascii) (st : State) : bool :=
  Ascii.eqb c Stdio.LF || Ascii.eqb c Stdio.CR || (index st >=? BUFFER_SIZE - 1).

(** One turn of [while (1)], for the byte [c] that
    [UART1_Input_Character] returned. *)
Definition main_iteration (c : ascii) (polls : list bool) (st : State)
  : outcome :=
  if line_ends c st then
    match store (uart_buffer st) (index st) Stdio.NUL with
    | None => Fault st Uart_buffer
    | Some buf =>
        let st := set_uart_buffer buf st in
        do (polls, st) <- on_line polls st;
        Done (set_index 0 st) polls
    end
  else
    match store (uart_buffer st) (index st) c with
    | None => Fault st Uart_buffer
    | Some buf =>
        let st := set_uart_buffer buf st in
        Done (set_index ((index st + 1) mod 256) st) polls
    end.

(** The loop, for as long as the UART delivers bytes. *)
Fixpoint main_loop (bytes : list ascii) (polls : list bool) (st : State)
  : outcome :=
  match bytes with
  | [] => Done st polls
  | c :: bytes' =>
      do (polls, st) <- main_iteration c polls st;
      main_loop bytes' polls st
  end.

Definition main (bytes : list ascii) (polls : list bool) (boot : State)
  : outcome :=
  do (polls, st) <- threshold_phase polls boot;
  main_loop bytes polls st.

(** What holds between two turns of the loop: the array has its declared
    size and the cursor points into it. *)
Definition framed (st : State) : Prop :=
  Z.of_nat (List.length (uart_buffer st)) = BUFFER_SIZE
  /\ 0 <= index st <= BUFFER_SIZE - 1.

End MainLoop.

(** The turns of a run that end a line: those for which the condition of
    line 126 holds, and [sscanf] is called. *)
Fixpoint flushes (B : Z) (bytes : list ascii) (polls : list bool) (st : State)
  : nat :=
  match bytes with
  | [] => O
  | c :: bytes' =>
      ((if line_ends B c st then 1 else 0)
       + match main_iteration B c polls st with
         | Done st' polls' => flushes B bytes' polls' st'
         | _ => O
         end)%nat
  end.

(** The bytes stored since the cursor was last reset, and the C string
    they make once a NUL is put behind them. *)
Definition gathered (st : State) : list ascii :=
  firstn (Z.to_nat (index st)) (uart_buffer st).

Definition line_text (st : State) : list ascii := Stdio.cstring (gathered st).

(** Button polls that report a press. *)
Definition presses (polls : list bool) : Z :=
  Z.of_nat (count_occ bool_dec polls true).

(** The polls a run left unused. *)
Definition unused (o : outcome) : list bool :=
  match o with Done _ polls => polls | _ => [] end.

Definition faulted (o : outcome) : bool :=
  match o with Fault _ _ => true | _ => false end.

(** The run ended with a store outside the array [a]. *)
Definition overran (a : array) (o : outcome) : bool :=
  match o, a with
  | Fault _ Uart_buffer, Uart_buffer => true
  | Fault _ Line2, Line2 => true
  | Fault _ PriceStr, PriceStr => true
  | _, _ => false
  end.

Definition finished (o : outcome) : bool :=
  match o with Done _ _ => true | _ => false end.

Definition map_outcome (f : State -> State) (o : outcome) : outcome :=
  match o with
  | Done st polls => Done (f st) polls
  | Starved st => Starved (f st)
  | Fault st a => Fault (f st) a
  end.

(** Two states that differ at most in [alarmStopped]. *)
Definition same_but_alarmStopped (s1 s2 : State) : Prop :=
  set_alarmStopped 0 s1 = set_alarmStopped 0 s2.

(** A byte that does not end a line by itself. *)
Definition plain (c : ascii) : Prop := c <> Stdio.LF /\ c <> Stdio.CR.

(** The calls of one turn of the alarm loop. *)
Definition alarm_calls (thousands remainder : Z) : list call :=
  [Ev_LCD_Clear; Ev_LCD_Set_Cursor 0 0;
   Ev_LCD_Display_String (sprintf_price thousands remainder);
   Ev_LCD_Set_Cursor 0 1; Ev_LCD_Display_String "BUY NOW";
   Ev_RGB_LED_Flash_Yellow; Ev_Buzzer_Toggle; Ev_DelayMs 150].

(** The calls of lines 160-166. *)
Definition normal_calls (text : string) (ch : float) : list call :=
  [Ev_LCD_Clear; Ev_LCD_Set_Cursor 0 0; Ev_LCD_Display_String "BTC Price:";
   Ev_LCD_Set_Cursor 0 1; Ev_LCD_Display_String text;
   Ev_RGB_LED_Set_Normal ch; Ev_Buzzer_Off].

(** A machine at power-on with a 64-byte line buffer holding stack
    garbage, for examples. *)
Definition boot64 : State :=
  mkState (repeat "x"%char 64) 7 C32.zero C32.zero "" 0 "" 0
    C32.zero 0 0 false Board.clear [].

Definition line (s : string) : list ascii :=
  list_ascii_of_string s ++ [Stdio.LF].

(** What one turn of the alarm loop leaves on the display. *)
Definition alarm_lcd (thousands remainder : Z) : Board.LCD :=
  Board.mkLCD 7 1
    (Board.clip Board.COLUMNS (sprintf_price thousands remainder)) "BUY NOW".

(** The state after [k] turns of the alarm loop. *)
Definition alarm_turns (k : nat) (t r : Z) (st : State) : State :=
  Nat.iter k (alarm_body t r) st.

(** [thousands] and [remainder] of lines 131-133, for a parsed price. *)
Definition thousands_of (p : float) : Z := Z.quot (C32.to_int p) 1000.
Definition remainder_of (p : float) : Z := Z.rem (C32.to_int p) 1000.

(** The text of [line2] for a parsed price and change. *)
Definition update_text (p ch : float) : string :=
  sprintf_line2 (thousands_of p) (remainder_of p) ch.

(** The calls of lines 169-173, for the value [v] written to the port. *)
Definition mismatch_calls (v : Z) : list call :=
  [Ev_LCD_Clear; Ev_LCD_Set_Cursor 0 0; Ev_LCD_Display_String "Loading...";
   Ev_GPIOD_DATA v; Ev_Buzzer_Off].

(** The parts of the state that handling a line leaves alone. *)
Definition line_frame (s1 s2 : State) : Prop :=
  uart_buffer s2 = uart_buffer s1 /\ index s2 = index s1
  /\ local_threshold s2 = local_threshold s1.

(** Two runs that agree on everything but the values of [alarmStopped]. *)
Definition alike (o1 o2 : outcome) : Prop :=
  map_outcome (set_alarmStopped 0) o1 = map_outcome (set_alarmStopped 0) o2.

(** A machine in the main loop with a 64-byte line buffer, the threshold
    locked at 70000 and [alarmStopped] as given, for examples. *)
Definition armed64 (flag : Z) : State :=
  mkState (repeat "x"%char 64) 0 C32.zero C32.zero "" 6 "$70000  " 4000
    (C32.of_int 70000) flag 0 false Board.clear [].

(** What [sscanf] makes of the gathered line: whether it converts both
    fields, and the two values. *)
Definition parses (st : State) : bool :=
  fst (Stdio.sscanf (line_text st) FORMAT) =? 2.

Definition parsed_price (st : State) : float :=
  nth 0 (snd (Stdio.sscanf (line_text st) FORMAT)) C32.zero.

Definition parsed_change (st : State) : float :=
  nth 1 (snd (Stdio.sscanf (line_text st) FORMAT)) C32.zero.

(** The line of the specification's example, and its two values. *)
Definition sample_text : list ascii :=
  list_ascii_of_string "BTC Price: $63250.50, 24h Change: -1.25%".

(** A line whose text for row 2 has 17 characters. *)
Definition long_text : list ascii :=
  list_ascii_of_string "BTC Price: $100000, 24h Change: 10%".

Definition sample_price : float := C32.Finite false 16192128 (-8).
Definition sample_change : float := C32.Finite true 10485760 (-23).

(** A machine in the main loop with a 64-byte line buffer that has gathered
    [text], the threshold locked at [thr], for examples. *)
Definition holding64 (text : list ascii) (thr flag : Z) : State :=
  mkState (text ++ repeat "x"%char (64 - List.length text))
    (Z.of_nat (List.length text)) C32.zero C32.zero "" 0 "" 4000
    (C32.of_int thr) flag 0 false Board.clear [].

(** The time spent in [DelayMs], in ms, over a call log. *)
Fixpoint delay_total (cs : list call) : Z :=
  match cs with
  | [] => 0
  | Ev_DelayMs ms :: rest => ms + delay_total rest
  | _ :: rest => delay_total rest
  end.

(** Polls as the operator makes them: for each [k] of the list, [k] polls
    without a press and then one with a press. *)
Definition press_after (gaps : list nat) : list bool :=
  flat_map (fun k => repeat false k ++ [true]) gaps.

(** The text shown for the menu entry [i]. *)
Definition threshold_text (i : Z) : string :=
  ("$" ++ Stdio.fmt_left_d 7 (threshold_at i))%string.

(** The format of line 129 without its last directive. *)
Definition FORMAT_numbers : string := "BTC Price: $%f, 24h Change: %f".

(** How many [%f] a list of directives holds. *)
Fixpoint conversions (ds : list Stdio.directive) : nat :=
  match ds with
  | [] => O
  | Stdio.D_float :: ds' => S (conversions ds')
  | _ :: ds' => conversions ds'
  end.

(** A state with the three scratch locals of a line blanked. *)
Definition scrub (st : State) : State :=
  set_line2 "" (set_change C32.zero (set_price C32.zero st)).

(** What the selection keeps on the display. *)
Definition menu_shown (st : State) : Prop :=
  0 <= adjustable_index st < 12
  /\ threshStr st = threshold_text (adjustable_index st)
  /\ Board.row0 (lcd st) = "Set min val:"
  /\ Board.row1 (lcd st) = threshStr st.

(** Two runs that agree on everything but the scratch locals. *)
Definition scratch_alike (o1 o2 : outcome) : Prop :=
  map_outcome scrub o1 = map_outcome scrub o2.

(** * Properties *)

(** ** Threshold selection *)

Lemma total_thresholds_12 : total_thresholds = 12.
Proof. reflexivity. Qed.

Lemma presses_cons (b : bool) (l : list bool) :
  presses (b :: l) = (if b then 1 else 0) + presses l.
Proof.
  unfold presses. destruct b.
  - rewrite count_occ_cons_eq by reflexivity. lia.
  - rewrite count_occ_cons_neq by discriminate. lia.
Qed.

Lemma next_index_in_range (i : Z) :
  0 <= i < 12 -> 0 <= Z.rem (i + 1) total_thresholds < 12.
Proof.
  intros Hi. rewrite total_thresholds_12, Z.rem_mod_nonneg by lia.
  apply Z.mod_pos_bound. lia.
Qed.

(** The loop invariant of the selection: the index is the number of
    presses sampled so far, modulo the length of the menu. *)
Lemma threshold_loop_counts (polls : list bool) :
  forall st, 0 <= adjustable_index st < 12 ->
  exists seen,
    polls = seen ++ unused (threshold_loop polls st)
    /\ adjustable_index (state_of (threshold_loop polls st))
       = (adjustable_index st + presses seen) mod total_thresholds.
Proof.
  rewrite total_thresholds_12.
  induction polls as [|b polls IH]; intros st Hi; simpl;
    destruct (elapsed st <? 4000).
  - exists []. simpl. split; [reflexivity|].
    unfold presses; simpl. rewrite Z.add_0_r, Z.mod_small; lia.
  - exists []. simpl. split; [reflexivity|].
    unfold presses; simpl. rewrite Z.add_0_r, Z.mod_small; lia.
  - destruct (IH (tick (if b then on_press st else st))) as (seen & Hsplit & Hidx).
    + destruct b; cbn; [apply next_index_in_range|]; assumption.
    + exists (b :: seen). split.
      * simpl. now rewrite <- Hsplit.
      * rewrite Hidx, presses_cons. destruct b.
        -- change (adjustable_index (tick (on_press st)))
             with (Z.rem (adjustable_index st + 1) total_thresholds).
           rewrite total_thresholds_12, Z.rem_mod_nonneg by lia.
           rewrite Zplus_mod_idemp_l. f_equal. lia.
        -- change (adjustable_index (tick st)) with (adjustable_index st).
           f_equal.
  - exists []. simpl. split; [reflexivity|].
    unfold presses; simpl. rewrite Z.add_0_r, Z.mod_small; lia.
Qed.

Lemma tick_elapsed (st : State) :
  0 <= elapsed st < 4000 -> elapsed (tick st) = elapsed st + 100.
Proof.
  intros H. cbn. apply Z.mod_small. lia.
Qed.

Lemma iter_tick_index (n : nat) (st : State) :
  adjustable_index (Nat.iter n tick st) = adjustable_index st.
Proof.
  induction n as [|n IH]; [reflexivity|]. simpl. exact IH.
Qed.

(** With [n] ticks left in the window, [n] polls without a press end the
    loop and use up exactly those polls. *)
Lemma idle_window_done (n : nat) :
  forall st rest,
    (n <= 40)%nat -> elapsed st = 4000 - 100 * Z.of_nat n ->
    threshold_loop (repeat false n ++ rest) st = Done (Nat.iter n tick st) rest.
Proof.
  induction n as [|n IH]; intros st rest Hn He.
  - simpl. destruct rest; simpl;
      (replace (elapsed st <? 4000) with false by (symmetry; apply Z.ltb_ge; lia));
      reflexivity.
  - cbn [repeat app threshold_loop].
    replace (elapsed st <? 4000) with true by (symmetry; apply Z.ltb_lt; lia).
    rewrite IH.
    + now rewrite <- Nat.iter_succ_r.
    + lia.
    + rewrite tick_elapsed; lia.
Qed.

(** Fewer polls than ticks left: the loop is still waiting. *)
Lemma idle_window_starved (k : nat) :
  forall n st,
    (k < n <= 40)%nat -> elapsed st = 4000 - 100 * Z.of_nat n ->
    threshold_loop (repeat false k) st = Starved (Nat.iter k tick st).
Proof.
  induction k as [|k IH]; intros n st Hn He.
  - simpl. replace (elapsed st <? 4000) with true by (symmetry; apply Z.ltb_lt; lia).
    reflexivity.
  - cbn [repeat threshold_loop].
    replace (elapsed st <? 4000) with true by (symmetry; apply Z.ltb_lt; lia).
    rewrite (IH (pred n)).
    + now rewrite <- Nat.iter_succ_r.
    + lia.
    + rewrite tick_elapsed; lia.
Qed.

Lemma idle_window (n k : nat) (st : State) :
  (n <= 40)%nat -> elapsed st = 4000 - 100 * Z.of_nat n ->
  finished (threshold_loop (repeat false k) st) = (n <=? k)%nat.
Proof.
  intros Hn He. destruct (Nat.leb_spec n k) as [Hle|Hlt].
  - replace k with (n + (k - n))%nat by lia.
    rewrite repeat_app, idle_window_done by assumption. reflexivity.
  - rewrite (idle_window_starved k n) by (try assumption; lia). reflexivity.
Qed.

(** C2: during the selection, after any polls of the button, the selected
    index is the number of presses sampled modulo the length of the menu,
    counted from index 0.  A press sets [elapsed] to 0, so the whole 4000 ms
    lie ahead again: whatever had elapsed before, the loop then makes the
    tick of that turn and needs 39 more polls without a press to end, 40
    ticks of 100 ms in all, as many as from the start. *)
Theorem threshold_cycling :
  forall (polls : list bool) (boot st : State) (k : nat),
    (exists seen,
        polls = seen ++ unused (threshold_loop polls (startup boot))
        /\ adjustable_index (state_of (threshold_loop polls (startup boot)))
           = presses seen mod total_thresholds)
    /\ elapsed (on_press st) = 0
    /\ 4000 - elapsed (on_press st) = 4000
    /\ finished (threshold_loop (repeat false k) (tick (on_press st)))
       = (39 <=? k)%nat
    /\ finished (threshold_loop (repeat false k) (startup boot))
       = (40 <=? k)%nat.
Proof.
  intros polls boot st k. split; [|split; [|split; [|split]]].
  - destruct (threshold_loop_counts polls (startup boot)) as (seen & H1 & H2).
    + cbn. lia.
    + exists seen. split; [exact H1|]. rewrite H2. reflexivity.
  - reflexivity.
  - reflexivity.
  - apply idle_window; [lia|reflexivity].
  - apply idle_window; [lia|reflexivity].
Qed.

Lemma lock_threshold_index (st : State) :
  adjustable_index (lock_threshold st) = adjustable_index st.
Proof. reflexivity. Qed.

Lemma lock_threshold_value (st : State) :
  local_threshold (lock_threshold st)
  = C32.of_int (threshold_at (adjustable_index st)).
Proof. reflexivity. Qed.

(** C3: when none of the polls of the selection window reports a press
    (the window is 40 polls long then), the loop ends with index 0 and the
    threshold locked is the first entry of the menu, 10000. *)
Theorem lock_default_threshold :
  forall (rest : list bool) (boot : State),
    exists st,
      threshold_phase (repeat false 40 ++ rest) boot = Done st rest
      /\ adjustable_index st = 0
      /\ local_threshold st = C32.of_int (nth 0 thresholds 0)
      /\ nth 0 thresholds 0 = 10000.
Proof.
  intros rest boot. unfold threshold_phase.
  rewrite (idle_window_done 40) by (try reflexivity; lia).
  eexists. split; [reflexivity|].
  rewrite lock_threshold_index, lock_threshold_value, iter_tick_index.
  repeat split.
Qed.

(** ** Comparisons of [float] *)

Lemma SFcompare_swap (x y : spec_float) :
  SFcompare y x = option_map CompOpp (SFcompare x y).
Proof.
  destruct x as [sx|sx| |sx mx ex], y as [sy|sy| |sy my ey]; simpl;
    try destruct sx; try destruct sy; try reflexivity;
    rewrite (Z.compare_antisym ex ey); destruct (ex ?= ey); simpl;
    try reflexivity; f_equal;
    change (Pos.compare_cont Eq my mx) with (Pos.compare my mx);
    change (Pos.compare_cont Eq mx my) with (Pos.compare mx my);
    rewrite (Pos.compare_antisym mx my); reflexivity.
Qed.

Lemma lt_not_ge (x y : float) : C32.ltb x y = true -> C32.geb x y = false.
Proof.
  unfold C32.ltb, C32.geb, SFltb, SFleb.
  rewrite (SFcompare_swap (C32.to_spec x) (C32.to_spec y)).
  destruct (SFcompare (C32.to_spec x) (C32.to_spec y)) as [[]|]; simpl;
    congruence.
Qed.

Lemma ge_not_lt (x y : float) : C32.geb x y = true -> C32.ltb x y = false.
Proof.
  intros H. destruct (C32.ltb x y) eqn:E; [|reflexivity].
  apply lt_not_ge in E. congruence.
Qed.

(** ** The display *)

Lemma append_empty (s : string) : (s ++ "")%string = s.
Proof.
  induction s as [|c s IH]; simpl; [reflexivity|now rewrite IH].
Qed.

Lemma overlay_blank (s : string) : Board.overlay 0 s "" = s.
Proof.
  simpl. destruct (String.length s); simpl; apply append_empty.
Qed.

Lemma clip_short (s : string) :
  forall n, (String.length s <= n)%nat -> Board.clip n s = s.
Proof.
  induction s as [|c s IH]; intros n H.
  - now destruct n.
  - destruct n as [|n]; cbn [String.length] in H; [lia|].
    cbn [Board.clip]. rewrite IH by lia. reflexivity.
Qed.

Lemma clip_length (s : string) :
  forall n, (String.length (Board.clip n s) <= n)%nat.
Proof.
  induction s as [|c s IH]; intros n.
  - destruct n; cbn; lia.
  - destruct n as [|n]; cbn [Board.clip String.length]; [lia|].
    specialize (IH n). lia.
Qed.

Lemma append_length (a b : string) :
  String.length (a ++ b) = (String.length a + String.length b)%nat.
Proof.
  induction a as [|c a IH]; cbn [append String.length]; [reflexivity|].
  now rewrite IH.
Qed.

Lemma fits_spec (size : nat) (text : string) :
  fits size text = true <-> (String.length text < size)%nat.
Proof. unfold fits. apply Nat.ltb_lt. Qed.

Lemma fits_clip (text : string) :
  fits 17 text = true -> Board.clip Board.COLUMNS text = text.
Proof.
  intros H. apply fits_spec in H. apply clip_short. unfold Board.COLUMNS. lia.
Qed.

Lemma append_assoc (a b c : string) :
  ((a ++ b) ++ c)%string = (a ++ b ++ c)%string.
Proof.
  induction a as [|x a IH]; cbn [append]; [reflexivity|now rewrite IH].
Qed.

(** The text of line 135, piece by piece. *)
Lemma sprintf_line2_pieces (t r : Z) (ch : float) :
  sprintf_line2 t r ch
  = ("$" ++ Stdio.fmt_d t ++ "," ++ Stdio.fmt_0d 3 r ++ "  "
     ++ Stdio.fmt_plus_2f ch ++ "%")%string.
Proof.
  unfold sprintf_line2, sprintf_price. now rewrite !append_assoc.
Qed.

(** The text of line 143 is the start of the text of line 135: it fits
    [priceStr] whenever that one fitted [line2]. *)
Lemma sprintf_price_fits (t r : Z) (ch : float) :
  fits 17 (sprintf_line2 t r ch) = true -> fits 17 (sprintf_price t r) = true.
Proof.
  rewrite !fits_spec. unfold sprintf_line2. rewrite append_length. lia.
Qed.

(** ** The alarm loop *)

(** Projections of states given by setters and calls. *)
Ltac fields :=
  cbn [uart_buffer index price change line2 adjustable_index threshStr
       elapsed local_threshold alarmStopped GPIOD_DATA buzzer lcd calls
       LCD_Clear LCD_Set_Cursor LCD_Display_String DelayMs
       RGB_LED_Flash_Yellow RGB_LED_Set_Normal Buzzer_Toggle Buzzer_Off
       log set_uart_buffer set_index set_price set_change set_line2
       set_adjustable_index set_threshStr set_elapsed set_local_threshold
       set_alarmStopped set_GPIOD_DATA set_buzzer set_lcd
       state_of unused finished faulted bind map_outcome] in *.

(** A sequence of calls on a state: the state is split into its fields
    and the calls are run innermost first. *)
Ltac run_calls st :=
  destruct st;
  cbv [LCD_Clear LCD_Set_Cursor LCD_Display_String DelayMs
       RGB_LED_Flash_Yellow RGB_LED_Set_Normal Buzzer_Toggle Buzzer_Off
       log set_uart_buffer set_index set_price set_change set_line2
       set_adjustable_index set_threshStr set_elapsed set_local_threshold
       set_alarmStopped set_GPIOD_DATA set_buzzer set_lcd
       uart_buffer index price change line2 adjustable_index threshStr
       elapsed local_threshold alarmStopped GPIOD_DATA buzzer lcd calls].

Lemma alarm_body_eq (t r : Z) (st : State) :
  alarm_body t r st
  = mkState (uart_buffer st) (index st) (price st) (change st) (line2 st)
      (adjustable_index st) (threshStr st) (elapsed st) (local_threshold st)
      (alarmStopped st) (Board.flash_yellow (GPIOD_DATA st)) (negb (buzzer st))
      (alarm_lcd t r) (calls st ++ alarm_calls t r).
Proof.
  unfold alarm_body, alarm_lcd, alarm_calls. run_calls st.
  unfold Board.display, Board.set_cursor, Board.clear.
  cbn [Board.cur_row Board.cur_col Board.row0 Board.row1 Z.eqb Z.to_nat].
  rewrite !overlay_blank. repeat rewrite <- app_assoc. reflexivity.
Qed.

Lemma alarm_turns_S (k : nat) (t r : Z) (st : State) :
  alarm_turns (S k) t r st = alarm_turns k t r (alarm_body t r st).
Proof. unfold alarm_turns. apply Nat.iter_succ_r. Qed.

(** The alarm loop touches the display, the LED, the buzzer and the call
    log, and nothing else. *)
Lemma alarm_turns_eq (k : nat) (t r : Z) :
  forall st,
    alarm_turns k t r st
    = mkState (uart_buffer st) (index st) (price st) (change st) (line2 st)
        (adjustable_index st) (threshStr st) (elapsed st) (local_threshold st)
        (alarmStopped st)
        (Nat.iter k Board.flash_yellow (GPIOD_DATA st))
        (Nat.iter k negb (buzzer st))
        (match k with O => lcd st | S _ => alarm_lcd t r end)
        (calls st ++ List.concat (repeat (alarm_calls t r) k)).
Proof.
  induction k as [|k IH]; intros st.
  - unfold alarm_turns. simpl. rewrite app_nil_r. now destruct st.
  - rewrite alarm_turns_S, IH, alarm_body_eq. fields.
    rewrite <- !Nat.iter_succ_r. cbn [repeat List.concat].
    rewrite <- app_assoc. destruct k; reflexivity.
Qed.

(** The loop runs one turn for each poll without a press and leaves at
    the first press; without a press it does not leave. *)
Lemma alarm_loop_pressed (k : nat) (t r : Z) :
  forall st rest,
    fits 17 (sprintf_price t r) = true ->
    C32.ltb (price st) (local_threshold st) = true ->
    alarm_loop t r (repeat false k ++ true :: rest) st
    = Done (alarm_turns k t r st) rest.
Proof.
  induction k as [|k IH]; intros st rest Hfit Hlt; cbn [repeat app alarm_loop];
    rewrite Hlt.
  - reflexivity.
  - rewrite Hfit, alarm_turns_S. apply IH; [exact Hfit|].
    rewrite alarm_body_eq. exact Hlt.
Qed.

Lemma alarm_loop_unpressed (k : nat) (t r : Z) :
  forall st,
    fits 17 (sprintf_price t r) = true ->
    C32.ltb (price st) (local_threshold st) = true ->
    alarm_loop t r (repeat false k) st = Starved (alarm_turns k t r st).
Proof.
  induction k as [|k IH]; intros st Hfit Hlt; cbn [repeat alarm_loop];
    rewrite Hlt.
  - reflexivity.
  - rewrite Hfit, alarm_turns_S. apply IH; [exact Hfit|].
    rewrite alarm_body_eq. exact Hlt.
Qed.

Lemma polls_split (polls : list bool) :
  (exists k rest, polls = repeat false k ++ true :: rest)
  \/ (exists k, polls = repeat false k).
Proof.
  induction polls as [|b polls [(k & rest & ->)|(k & ->)]].
  - right. now exists O.
  - left. destruct b; [now exists O, (repeat false k ++ true :: rest)|].
    now exists (S k), rest.
  - destruct b; [left; now exists O, (repeat false k)|].
    right. now exists (S k).
Qed.

Lemma alarm_loop_skipped (t r : Z) (polls : list bool) (st : State) :
  C32.ltb (price st) (local_threshold st) = false ->
  alarm_loop t r polls st = Done st polls.
Proof.
  intros H. destruct polls; cbn [alarm_loop]; now rewrite H.
Qed.

(** ** The two branches of a terminated line *)

Lemma render_normal_eq (st : State) :
  render_normal st
  = mkState (uart_buffer st) (index st) (price st) (change st) (line2 st)
      (adjustable_index st) (threshStr st) (elapsed st) (local_threshold st)
      (alarmStopped st) (Board.set_normal (change st) (GPIOD_DATA st)) false
      (Board.mkLCD (0 + Z.of_nat (String.length (line2 st))) 1
         "BTC Price:" (Board.clip Board.COLUMNS (line2 st)))
      (calls st ++ normal_calls (line2 st) (change st)).
Proof.
  unfold render_normal, normal_calls. run_calls st.
  unfold Board.display, Board.set_cursor, Board.clear.
  cbn [Board.cur_row Board.cur_col Board.row0 Board.row1 Z.eqb Z.to_nat].
  rewrite !overlay_blank. repeat rewrite <- app_assoc. reflexivity.
Qed.

Lemma on_mismatch_eq (st : State) :
  on_mismatch st
  = mkState (uart_buffer st) (index st) (price st) (change st) (line2 st)
      (adjustable_index st) (threshStr st) (elapsed st) (local_threshold st)
      (alarmStopped st) (Z.land (GPIOD_DATA st) (Z.lnot 3 mod 2 ^ 32)) false
      (Board.mkLCD 10 0 "Loading..." "")
      (calls st ++ mismatch_calls (Z.land (GPIOD_DATA st) (Z.lnot 3 mod 2 ^ 32))).
Proof.
  unfold on_mismatch, mismatch_calls. run_calls st.
  repeat rewrite <- app_assoc. reflexivity.
Qed.

Lemma alarm_turns_price (k : nat) (t r : Z) (st : State) :
  price (alarm_turns k t r st) = price st.
Proof. now rewrite alarm_turns_eq. Qed.

Lemma alarm_turns_threshold (k : nat) (t r : Z) (st : State) :
  local_threshold (alarm_turns k t r st) = local_threshold st.
Proof. now rewrite alarm_turns_eq. Qed.

Ltac open_on_update st :=
  unfold on_update; cbv zeta;
  change (Z.quot (C32.to_int (price st)) 1000) with (thousands_of (price st));
  change (Z.rem (C32.to_int (price st)) 1000) with (remainder_of (price st));
  change (sprintf_line2 (thousands_of (price st)) (remainder_of (price st))
            (change st))
    with (update_text (price st) (change st));
  change (price (set_line2 (update_text (price st) (change st)) st))
    with (price st);
  change (local_threshold (set_line2 (update_text (price st) (change st)) st))
    with (local_threshold st).

(** A text too long for [line2]: the run ends at line 135. *)
Lemma on_update_overrun (polls : list bool) (st : State) :
  fits 17 (update_text (price st) (change st)) = false ->
  on_update polls st = Fault st Line2.
Proof.
  intros Hfit. open_on_update st. rewrite Hfit. reflexivity.
Qed.

Lemma update_text_price_fits (p ch : float) :
  fits 17 (update_text p ch) = true ->
  fits 17 (sprintf_price (thousands_of p) (remainder_of p)) = true.
Proof. apply sprintf_price_fits. Qed.

Lemma on_update_normal (polls : list bool) (st : State) :
  fits 17 (update_text (price st) (change st)) = true ->
  C32.ltb (price st) (local_threshold st) = false ->
  on_update polls st
  = Done (render_normal
            (if C32.geb (price st) (local_threshold st)
             then set_alarmStopped 0
                    (set_line2 (update_text (price st) (change st)) st)
             else set_line2 (update_text (price st) (change st)) st)) polls.
Proof.
  intros Hfit Hlt. open_on_update st. rewrite Hfit, Hlt. reflexivity.
Qed.

Lemma on_update_acknowledged (k : nat) (rest : list bool) (st : State) :
  fits 17 (update_text (price st) (change st)) = true ->
  C32.ltb (price st) (local_threshold st) = true ->
  on_update (repeat false k ++ true :: rest) st
  = Done (render_normal
            (Buzzer_Off
               (set_alarmStopped 1
                  (alarm_turns k (thousands_of (price st)) (remainder_of (price st))
                     (set_line2 (update_text (price st) (change st)) st)))))
      rest.
Proof.
  intros Hfit Hlt. open_on_update st.
  rewrite Hfit, Hlt.
  rewrite alarm_loop_pressed
    by (first [exact Hlt | exact (update_text_price_fits _ _ Hfit)]).
  cbv [bind].
  match goal with
  | |- context [C32.geb (price ?s) (local_threshold ?s)] =>
      change (price s)
        with (price (alarm_turns k (thousands_of (price st))
                       (remainder_of (price st))
                       (set_line2 (update_text (price st) (change st)) st)));
      change (local_threshold s)
        with (local_threshold
                (alarm_turns k (thousands_of (price st))
                   (remainder_of (price st))
                   (set_line2 (update_text (price st) (change st)) st)))
  end.
  rewrite alarm_turns_price, alarm_turns_threshold.
  change (price (set_line2 (update_text (price st) (change st)) st))
    with (price st).
  change (local_threshold (set_line2 (update_text (price st) (change st)) st))
    with (local_threshold st).
  rewrite (lt_not_ge _ _ Hlt). reflexivity.
Qed.

Lemma on_update_unacknowledged (k : nat) (st : State) :
  fits 17 (update_text (price st) (change st)) = true ->
  C32.ltb (price st) (local_threshold st) = true ->
  on_update (repeat false k) st
  = Starved (alarm_turns k (thousands_of (price st)) (remainder_of (price st))
               (set_line2 (update_text (price st) (change st)) st)).
Proof.
  intros Hfit Hlt. open_on_update st.
  rewrite Hfit, Hlt.
  rewrite alarm_loop_unpressed
    by (first [exact Hlt | exact (update_text_price_fits _ _ Hfit)]).
  reflexivity.
Qed.

Lemma line_frame_trans (s1 s2 s3 : State) :
  line_frame s1 s2 -> line_frame s2 s3 -> line_frame s1 s3.
Proof.
  unfold line_frame. intros (A1 & A2 & A3) (B1 & B2 & B3).
  repeat split; congruence.
Qed.

(** How a line that parsed can go: its text does not fit [line2], or the
    price is not below the threshold, or the alarm is acknowledged after
    [k] turns, or it still runs when the polls are used up. *)
Lemma on_update_cases (polls : list bool) (st : State) :
  (fits 17 (update_text (price st) (change st)) = false
   /\ on_update polls st = Fault st Line2)
  \/ (fits 17 (update_text (price st) (change st)) = true
      /\ C32.ltb (price st) (local_threshold st) = false
      /\ on_update polls st
         = Done (render_normal
                   (if C32.geb (price st) (local_threshold st)
                    then set_alarmStopped 0
                           (set_line2 (update_text (price st) (change st)) st)
                    else set_line2 (update_text (price st) (change st)) st))
             polls)
  \/ (fits 17 (update_text (price st) (change st)) = true
      /\ C32.ltb (price st) (local_threshold st) = true
      /\ exists k rest,
           polls = repeat false k ++ true :: rest
           /\ on_update polls st
              = Done (render_normal
                        (Buzzer_Off
                           (set_alarmStopped 1
                              (alarm_turns k (thousands_of (price st))
                                 (remainder_of (price st))
                                 (set_line2
                                    (update_text (price st) (change st)) st)))))
                  rest)
  \/ (fits 17 (update_text (price st) (change st)) = true
      /\ C32.ltb (price st) (local_threshold st) = true
      /\ exists k,
           polls = repeat false k
           /\ on_update polls st
              = Starved (alarm_turns k (thousands_of (price st))
                           (remainder_of (price st))
                           (set_line2 (update_text (price st) (change st)) st))).
Proof.
  destruct (fits 17 (update_text (price st) (change st))) eqn:Hfit.
  - right. destruct (C32.ltb (price st) (local_threshold st)) eqn:Hlt.
    + right. destruct (polls_split polls) as [(k & rest & ->)|(k & ->)].
      * left. split; [reflexivity|]. split; [reflexivity|].
        exists k, rest. split; [reflexivity|].
        now apply on_update_acknowledged.
      * right. split; [reflexivity|]. split; [reflexivity|].
        exists k. split; [reflexivity|]. now apply on_update_unacknowledged.
    + left. split; [reflexivity|]. split; [reflexivity|].
      now apply on_update_normal.
  - left. split; [reflexivity|]. now apply on_update_overrun.
Qed.

Lemma on_update_frame (polls : list bool) (st : State) :
  line_frame st (state_of (on_update polls st)).
Proof.
  destruct (on_update_cases polls st)
    as [(_ & ->)|[(_ & _ & ->)|[(_ & _ & k & rest & _ & ->)|(_ & _ & k & _ & ->)]]].
  - repeat split.
  - rewrite render_normal_eq. cbn zeta.
    destruct (C32.geb (price st) (local_threshold st)); repeat split.
  - rewrite render_normal_eq, alarm_turns_eq. repeat split.
  - rewrite alarm_turns_eq. repeat split.
Qed.

Lemma assign_frame (got : list float) (st : State) :
  line_frame st (assign got st).
Proof.
  destruct got as [|p [|ch got]]; repeat split.
Qed.

Lemma on_line_frame (polls : list bool) (st : State) :
  line_frame st (state_of (on_line polls st)).
Proof.
  unfold on_line.
  destruct (Stdio.sscanf (Stdio.cstring (uart_buffer st)) FORMAT) as [n got].
  apply line_frame_trans with (assign got st); [apply assign_frame|].
  destruct (n =? 2).
  - apply on_update_frame.
  - cbn [state_of]. rewrite on_mismatch_eq. repeat split.
Qed.

(** ** The locked threshold *)

Lemma threshold_loop_threshold (polls : list bool) :
  forall st,
    local_threshold (state_of (threshold_loop polls st)) = local_threshold st.
Proof.
  induction polls as [|b polls IH]; intros st; simpl;
    destruct (elapsed st <? 4000); try reflexivity.
  rewrite IH. now destruct b.
Qed.

Lemma main_iteration_threshold (B : Z) (c : ascii) (polls : list bool) (st : State) :
  local_threshold (state_of (main_iteration B c polls st)) = local_threshold st.
Proof.
  unfold main_iteration.
  destruct (line_ends B c st).
  - destruct (store (uart_buffer st) (index st) Stdio.NUL) as [buf|]; [|reflexivity].
    destruct (on_line_frame polls (set_uart_buffer buf st)) as (_ & _ & H).
    destruct (on_line polls (set_uart_buffer buf st)); exact H.
  - destruct (store (uart_buffer st) (index st) c); reflexivity.
Qed.

Lemma main_loop_threshold (B : Z) (bytes : list ascii) :
  forall polls st,
    local_threshold (state_of (main_loop B bytes polls st)) = local_threshold st.
Proof.
  induction bytes as [|c bytes IH]; intros polls st; [reflexivity|].
  cbn [main_loop].
  pose proof (main_iteration_threshold B c polls st) as H.
  destruct (main_iteration B c polls st) as [st' polls'|st'|st']; cbn [bind];
    [rewrite IH|..]; exact H.
Qed.

(** C9: [local_threshold] is not written while the selection loop runs, it
    is written when the selection ends (line 113), and no turn of the main
    loop changes it: its value after a turn, and after any number of turns,
    is its value before. *)
Theorem local_threshold_set_once :
  forall (B : Z) (c : ascii) (bytes : list ascii) (polls : list bool)
         (boot st : State),
    local_threshold (state_of (threshold_loop polls (startup boot)))
    = local_threshold boot
    /\ local_threshold (lock_threshold st)
       = C32.of_int (nth (Z.to_nat (adjustable_index st)) thresholds 0)
    /\ local_threshold (state_of (main_iteration B c polls st))
       = local_threshold st
    /\ local_threshold (state_of (main_loop B bytes polls st))
       = local_threshold st.
Proof.
  intros B c bytes polls boot st. split; [|split; [|split]].
  - rewrite threshold_loop_threshold. reflexivity.
  - reflexivity.
  - apply main_iteration_threshold.
  - apply main_loop_threshold.
Qed.

(** ** [alarmStopped] does not flow anywhere *)

Lemma same_but_alarmStopped_set (s1 s2 : State) :
  same_but_alarmStopped s1 s2 -> s2 = set_alarmStopped (alarmStopped s2) s1.
Proof.
  destruct s1, s2. unfold same_but_alarmStopped, set_alarmStopped. cbn.
  intros H. injection H as <- <- <- <- <- <- <- <- <- <- <- <- <-.
  reflexivity.
Qed.

Lemma alike_states (o1 o2 : outcome) :
  alike o1 o2 ->
  same_but_alarmStopped (state_of o1) (state_of o2)
  /\ unused o1 = unused o2
  /\ finished o1 = finished o2
  /\ faulted o1 = faulted o2.
Proof.
  unfold alike, same_but_alarmStopped.
  destruct o1 as [s1 p1|s1|s1 a1], o2 as [s2 p2|s2|s2 a2]; cbn [map_outcome];
    intros H; try discriminate H; cbn [state_of unused finished faulted].
  - assert (Hp : p1 = p2) by congruence.
    assert (Hs : set_alarmStopped 0 s1 = set_alarmStopped 0 s2) by congruence.
    auto.
  - assert (Hs : set_alarmStopped 0 s1 = set_alarmStopped 0 s2) by congruence.
    auto.
  - assert (Hs : set_alarmStopped 0 s1 = set_alarmStopped 0 s2) by congruence.
    auto.
Qed.

Lemma on_update_flag (v : Z) (polls : list bool) (st : State) :
  alike (on_update polls st) (on_update polls (set_alarmStopped v st)).
Proof.
  destruct (fits 17 (update_text (price st) (change st))) eqn:Hfit.
  - destruct (C32.ltb (price st) (local_threshold st)) eqn:Hlt.
    + destruct (polls_split polls) as [(k & rest & ->)|(k & ->)].
      * rewrite !on_update_acknowledged, !render_normal_eq, !alarm_turns_eq
          by (first [exact Hfit | exact Hlt]).
        reflexivity.
      * rewrite !on_update_unacknowledged, !alarm_turns_eq
          by (first [exact Hfit | exact Hlt]).
        reflexivity.
    + rewrite !on_update_normal, !render_normal_eq
        by (first [exact Hfit | exact Hlt]).
      cbn zeta.
      change (price (set_alarmStopped v st)) with (price st).
      change (local_threshold (set_alarmStopped v st)) with (local_threshold st).
      destruct (C32.geb (price st) (local_threshold st)); reflexivity.
  - rewrite !on_update_overrun by exact Hfit. reflexivity.
Qed.

Lemma on_line_flag (v : Z) (polls : list bool) (st : State) :
  alike (on_line polls st) (on_line polls (set_alarmStopped v st)).
Proof.
  unfold on_line.
  change (uart_buffer (set_alarmStopped v st)) with (uart_buffer st).
  destruct (Stdio.sscanf (Stdio.cstring (uart_buffer st)) FORMAT) as [n got].
  replace (assign got (set_alarmStopped v st))
    with (set_alarmStopped v (assign got st))
    by (destruct got as [|p [|ch got]]; reflexivity).
  destruct (n =? 2).
  - apply on_update_flag.
  - unfold alike. cbn [map_outcome]. rewrite !on_mismatch_eq. reflexivity.
Qed.

Lemma main_iteration_flag (B v : Z) (c : ascii) (polls : list bool) (st : State) :
  alike (main_iteration B c polls st)
        (main_iteration B c polls (set_alarmStopped v st)).
Proof.
  unfold main_iteration.
  change (line_ends B c (set_alarmStopped v st)) with (line_ends B c st).
  change (uart_buffer (set_alarmStopped v st)) with (uart_buffer st).
  change (index (set_alarmStopped v st)) with (index st).
  destruct (line_ends B c st).
  - destruct (store (uart_buffer st) (index st) Stdio.NUL) as [buf|];
      [|reflexivity].
    pose proof (on_line_flag v polls (set_uart_buffer buf st)) as H.
    change (set_uart_buffer buf (set_alarmStopped v st))
      with (set_alarmStopped v (set_uart_buffer buf st)).
    unfold alike in *.
    destruct (on_line polls (set_uart_buffer buf st)) as [t1 p1|t1|t1],
             (on_line polls (set_alarmStopped v (set_uart_buffer buf st)))
               as [t2 p2|t2|t2];
      cbn [map_outcome bind] in *; try discriminate H; try exact H.
    assert (Hp : p1 = p2) by congruence.
    assert (Hs : set_alarmStopped 0 t1 = set_alarmStopped 0 t2) by congruence.
    rewrite Hp. f_equal.
    apply (f_equal (set_index 0)) in Hs. exact Hs.
  - destruct (store (uart_buffer st) (index st) c); reflexivity.
Qed.

Lemma main_loop_flag (B : Z) (bytes : list ascii) :
  forall polls s1 s2,
    same_but_alarmStopped s1 s2 ->
    alike (main_loop B bytes polls s1) (main_loop B bytes polls s2).
Proof.
  induction bytes as [|c bytes IH]; intros polls s1 s2 H.
  - unfold alike. cbn [main_loop map_outcome]. f_equal. exact H.
  - cbn [main_loop]. rewrite (same_but_alarmStopped_set s1 s2 H).
    pose proof (main_iteration_flag B (alarmStopped s2) c polls s1) as Hstep.
    destruct (main_iteration B c polls s1) as [t1 p1|t1|t1],
             (main_iteration B c polls (set_alarmStopped (alarmStopped s2) s1))
               as [t2 p2|t2|t2];
      unfold alike in Hstep; cbn [map_outcome bind] in *;
      try discriminate Hstep; try exact Hstep.
    assert (Hp : p1 = p2) by congruence.
    assert (Hs : set_alarmStopped 0 t1 = set_alarmStopped 0 t2) by congruence.
    rewrite Hp. apply IH. exact Hs.
Qed.

(** C10: [alarmStopped] is written and never read.  Two runs of the main
    loop from states that differ at most in [alarmStopped], on the same
    bytes and the same button polls, make the same calls (every LCD write,
    LED setting, buzzer action and delay, in the same order), leave the same
    display, LED port and buzzer, use the same polls and stop the same
    way; their states still differ at most in [alarmStopped]. *)
Theorem alarmStopped_never_read :
  forall (B : Z) (bytes : list ascii) (polls : list bool) (s1 s2 : State),
    same_but_alarmStopped s1 s2 ->
    calls (state_of (main_loop B bytes polls s1))
    = calls (state_of (main_loop B bytes polls s2))
    /\ lcd (state_of (main_loop B bytes polls s1))
       = lcd (state_of (main_loop B bytes polls s2))
    /\ GPIOD_DATA (state_of (main_loop B bytes polls s1))
       = GPIOD_DATA (state_of (main_loop B bytes polls s2))
    /\ buzzer (state_of (main_loop B bytes polls s1))
       = buzzer (state_of (main_loop B bytes polls s2))
    /\ same_but_alarmStopped (state_of (main_loop B bytes polls s1))
         (state_of (main_loop B bytes polls s2))
    /\ unused (main_loop B bytes polls s1) = unused (main_loop B bytes polls s2)
    /\ finished (main_loop B bytes polls s1)
       = finished (main_loop B bytes polls s2)
    /\ faulted (main_loop B bytes polls s1)
       = faulted (main_loop B bytes polls s2).
Proof.
  intros B bytes polls s1 s2 H.
  destruct (alike_states _ _ (main_loop_flag B bytes polls s1 s2 H))
    as (Hs & Hu & Hf & Hx).
  repeat split; try assumption.
  - apply (f_equal calls) in Hs. exact Hs.
  - apply (f_equal lcd) in Hs. exact Hs.
  - apply (f_equal GPIOD_DATA) in Hs. exact Hs.
  - apply (f_equal buzzer) in Hs. exact Hs.
Qed.

Lemma alarmStopped_never_read_witness :
  same_but_alarmStopped (armed64 0) (armed64 1)
  /\ calls (state_of (main_loop 64
              (line "BTC Price: $65000.00, 24h Change: -1.25%")
              [false; true] (armed64 0)))
     = calls (state_of (main_loop 64
                (line "BTC Price: $65000.00, 24h Change: -1.25%")
                [false; true] (armed64 1))).
Proof.
  split; [reflexivity|].
  apply (alarmStopped_never_read 64
           (line "BTC Price: $65000.00, 24h Change: -1.25%")
           [false; true] (armed64 0) (armed64 1)).
  reflexivity.
Defined.

(** ** Line framing *)

Lemma store_inside (buf : list ascii) (i : Z) (c : ascii) :
  0 <= i < Z.of_nat (List.length buf) ->
  store buf i c
  = Some (firstn (Z.to_nat i) buf ++ c :: skipn (S (Z.to_nat i)) buf).
Proof.
  intros H. unfold store.
  replace (0 <=? i) with true by (symmetry; apply Z.leb_le; lia).
  replace (i <? Z.of_nat (List.length buf)) with true
    by (symmetry; apply Z.ltb_lt; lia).
  reflexivity.
Qed.

Lemma stored_length (buf : list ascii) (n : nat) (c : ascii) :
  (n < List.length buf)%nat ->
  List.length (firstn n buf ++ c :: skipn (S n) buf) = List.length buf.
Proof.
  intros H. rewrite length_app, length_firstn. cbn [List.length].
  rewrite length_skipn. lia.
Qed.

Lemma stored_prefix (buf : list ascii) (n : nat) (c : ascii) :
  (n < List.length buf)%nat ->
  firstn (S n) (firstn n buf ++ c :: skipn (S n) buf) = firstn n buf ++ [c].
Proof.
  intros H.
  assert (Hn : List.length (firstn n buf) = n) by (rewrite length_firstn; lia).
  rewrite firstn_app, Hn.
  rewrite firstn_all2 by lia.
  replace (S n - n)%nat with 1%nat by lia. reflexivity.
Qed.

Lemma cstring_before_NUL (a b : list ascii) :
  Stdio.cstring (a ++ Stdio.NUL :: b) = Stdio.cstring a.
Proof.
  induction a as [|c a IH]; simpl.
  - reflexivity.
  - destruct (Ascii.eqb c Stdio.NUL); [reflexivity|now rewrite IH].
Qed.

Lemma line_ends_spec (B : Z) (c : ascii) (st : State) :
  line_ends B c st = true
  <-> c = Stdio.LF \/ c = Stdio.CR \/ index st >= B - 1.
Proof.
  unfold line_ends. rewrite !orb_true_iff, !Ascii.eqb_eq, Z.geb_le.
  assert (H : index st >= B - 1 <-> B - 1 <= index st) by lia.
  tauto.
Qed.

Lemma line_ends_plain (B : Z) (c : ascii) (st : State) :
  plain c -> index st < B - 1 -> line_ends B c st = false.
Proof.
  intros [H1 H2] Hi. destruct (line_ends B c st) eqn:E; [|reflexivity].
  apply line_ends_spec in E. destruct E as [E|[E|E]]; [contradiction..|lia].
Qed.

Lemma line_ends_false (B : Z) (c : ascii) (st : State) :
  line_ends B c st = false -> index st < B - 1.
Proof.
  intros H. destruct (Z_lt_le_dec (index st) (B - 1)) as [Hlt|Hge];
    [exact Hlt|].
  assert (E : line_ends B c st = true) by (apply line_ends_spec; lia).
  congruence.
Qed.

(** Handling a line stores nothing into [uart_buffer], and [priceStr]
    holds every text it is given: the one array the line can overrun is
    [line2]. *)
Lemma on_line_overrun (polls : list bool) (st : State) :
  overran Uart_buffer (on_line polls st) = false
  /\ overran PriceStr (on_line polls st) = false.
Proof.
  unfold on_line.
  destruct (Stdio.sscanf (Stdio.cstring (uart_buffer st)) FORMAT) as [n got].
  destruct (n =? 2); [|split; reflexivity].
  destruct (on_update_cases polls (assign got st))
    as [(_ & ->)|[(_ & _ & ->)|[(_ & _ & k & rest & _ & ->)|(_ & _ & k & _ & ->)]]];
    split; reflexivity.
Qed.

(** A byte that ends the line: the NUL goes behind the gathered bytes and
    the text in front of it is what [sscanf] reads. *)
Lemma main_iteration_flush (B : Z) (c : ascii) (polls : list bool) (st : State) :
  framed B st -> line_ends B c st = true ->
  exists buf,
    Z.of_nat (List.length buf) = B
    /\ Stdio.cstring buf = line_text st
    /\ main_iteration B c polls st
       = (do (polls, st) <- on_line polls (set_uart_buffer buf st);
          Done (set_index 0 st) polls).
Proof.
  intros [Hlen Hidx] Hend. unfold main_iteration. rewrite Hend.
  rewrite store_inside by lia.
  eexists. split; [|split; [|reflexivity]].
  - rewrite stored_length by lia. exact Hlen.
  - apply cstring_before_NUL.
Qed.

(** Any other byte is stored at the cursor, which moves on by one. *)
Lemma main_iteration_append (B : Z) (c : ascii) (polls : list bool) (st : State) :
  B <= 256 -> framed B st -> line_ends B c st = false ->
  exists buf,
    Z.of_nat (List.length buf) = B
    /\ firstn (S (Z.to_nat (index st))) buf = gathered st ++ [c]
    /\ main_iteration B c polls st
       = Done (set_index (index st + 1) (set_uart_buffer buf st)) polls.
Proof.
  intros HB [Hlen Hidx] Hend. unfold main_iteration. rewrite Hend.
  assert (Hi : index st < B - 1) by (apply (line_ends_false B c), Hend).
  rewrite store_inside by lia.
  eexists. split; [|split].
  3: { fields. rewrite Z.mod_small by lia. reflexivity. }
  - rewrite stored_length by lia. exact Hlen.
  - apply stored_prefix. lia.
Qed.

Lemma main_iteration_framed (B : Z) (c : ascii) (polls : list bool) (st : State) :
  1 <= B <= 256 -> framed B st ->
  overran Uart_buffer (main_iteration B c polls st) = false
  /\ overran PriceStr (main_iteration B c polls st) = false
  /\ framed B (state_of (main_iteration B c polls st)).
Proof.
  intros HB Hfr. destruct (line_ends B c st) eqn:Hend.
  - destruct (main_iteration_flush B c polls st Hfr Hend) as (buf & Hlen & _ & ->).
    destruct (on_line_overrun polls (set_uart_buffer buf st)) as [Hu Hp].
    destruct (on_line_frame polls (set_uart_buffer buf st)) as (Hb & Hi & _).
    destruct Hfr as [_ Hidx].
    destruct (on_line polls (set_uart_buffer buf st)) as [s p|s|s a];
      cbn [bind state_of] in *;
      (split; [first [reflexivity | exact Hu]|]);
      (split; [first [reflexivity | exact Hp]|]); unfold framed; fields.
    + rewrite Hb. split; [exact Hlen|lia].
    + rewrite Hb, Hi. split; [exact Hlen|exact Hidx].
    + rewrite Hb, Hi. split; [exact Hlen|exact Hidx].
  - destruct (main_iteration_append B c polls st) as (buf & Hlen & _ & ->);
      try assumption; try lia.
    split; [reflexivity|]. split; [reflexivity|]. unfold framed; fields.
    split; [exact Hlen|].
    apply line_ends_false in Hend. destruct Hfr as [_ Hidx]. lia.
Qed.

Lemma main_loop_framed (B : Z) (bytes : list ascii) :
  forall polls st,
    1 <= B <= 256 -> framed B st ->
    overran Uart_buffer (main_loop B bytes polls st) = false
    /\ overran PriceStr (main_loop B bytes polls st) = false
    /\ framed B (state_of (main_loop B bytes polls st)).
Proof.
  induction bytes as [|c bytes IH]; intros polls st HB Hfr.
  - split; [reflexivity|]. split; [reflexivity|exact Hfr].
  - cbn [main_loop].
    destruct (main_iteration_framed B c polls st HB Hfr) as (Hu & Hp & Hfr').
    destruct (main_iteration B c polls st) as [s p|s|s a];
      cbn [bind state_of] in *.
    + apply IH; assumption.
    + split; [reflexivity|]. split; [reflexivity|exact Hfr'].
    + split; [exact Hu|]. split; [exact Hp|exact Hfr'].
Qed.

Lemma main_loop_app (B : Z) (a b : list ascii) :
  forall polls st,
    main_loop B (a ++ b) polls st
    = (do (polls, st) <- main_loop B a polls st; main_loop B b polls st).
Proof.
  induction a as [|c a IH]; intros polls st; [reflexivity|].
  cbn [app main_loop].
  destruct (main_iteration B c polls st) as [s p|s|s]; cbn [bind];
    [apply IH|reflexivity..].
Qed.

(** Bytes that do not end a line pile up behind the cursor. *)
Lemma feed_plain (B : Z) (l : list ascii) :
  forall polls st,
    B <= 256 -> framed B st -> Forall plain l ->
    index st + Z.of_nat (List.length l) <= B - 1 ->
    exists buf,
      Z.of_nat (List.length buf) = B
      /\ firstn (Z.to_nat (index st) + List.length l) buf = gathered st ++ l
      /\ main_loop B l polls st
         = Done (set_index (index st + Z.of_nat (List.length l))
                   (set_uart_buffer buf st)) polls.
Proof.
  induction l as [|c l IH]; intros polls st HB Hfr Hpl Hroom.
  - exists (uart_buffer st). destruct Hfr as [Hlen Hidx].
    split; [exact Hlen|]. split.
    + rewrite Nat.add_0_r, app_nil_r. reflexivity.
    + cbn [main_loop List.length Z.of_nat]. rewrite Z.add_0_r.
      now destruct st.
  - apply Forall_cons_iff in Hpl. destruct Hpl as [Hc Hpl].
    cbn [List.length] in Hroom. rewrite Nat2Z.inj_succ in Hroom.
    assert (Hidx : 0 <= index st) by (destruct Hfr; lia).
    destruct (main_iteration_append B c polls st) as (buf1 & Hlen1 & Hpre1 & Hrun);
      try assumption.
    { apply line_ends_plain; [exact Hc|lia]. }
    set (st1 := set_index (index st + 1) (set_uart_buffer buf1 st)) in *.
    destruct (IH polls st1) as (buf2 & Hlen2 & Hpre2 & Hrun2); try assumption.
    { split; [exact Hlen1|]. subst st1. cbn [index set_index]. lia. }
    { subst st1. cbn [index set_index]. lia. }
    exists buf2. split; [exact Hlen2|]. split.
    + replace (Z.to_nat (index st) + List.length (c :: l))%nat
        with (Z.to_nat (index st1) + List.length l)%nat
        by (subst st1; cbn [index set_index List.length]; lia).
      rewrite Hpre2. unfold gathered at 1. subst st1.
      cbn [index set_index uart_buffer set_uart_buffer].
      replace (Z.to_nat (index st + 1)) with (S (Z.to_nat (index st))) by lia.
      rewrite Hpre1, <- app_assoc. reflexivity.
    + cbn [main_loop]. rewrite Hrun. cbn [bind]. rewrite Hrun2.
      subst st1. unfold set_index, set_uart_buffer. cbn.
      do 2 f_equal. cbn [List.length]. lia.
Qed.

(** A whole line: its bytes, then a line feed or carriage return.  What
    [sscanf] reads is the text of this line and nothing older. *)
Lemma feed_line (B : Z) (l : list ascii) (c : ascii) (polls : list bool)
      (st : State) :
  1 <= B <= 256 -> framed B st -> index st = 0 -> Forall plain l ->
  Z.of_nat (List.length l) <= B - 1 -> c = Stdio.LF \/ c = Stdio.CR ->
  exists buf,
    Z.of_nat (List.length buf) = B
    /\ Stdio.cstring buf = Stdio.cstring l
    /\ main_loop B (l ++ [c]) polls st
       = (do (polls, st) <- on_line polls
                              (set_uart_buffer buf
                                 (set_index (Z.of_nat (List.length l)) st));
          Done (set_index 0 st) polls).
Proof.
  intros HB Hfr Hi0 Hpl Hroom Hc.
  destruct (feed_plain B l polls st) as (buf1 & Hlen1 & Hpre1 & Hrun1);
    try assumption; try lia.
  rewrite Hi0 in *. cbn [Z.to_nat Nat.add Z.add] in *.
  unfold gathered in Hpre1. rewrite Hi0 in Hpre1. cbn [Z.to_nat firstn app] in Hpre1.
  set (st1 := set_index (Z.of_nat (List.length l)) (set_uart_buffer buf1 st)) in *.
  assert (Hfr1 : framed B st1).
  { split; [exact Hlen1|]. subst st1. cbn [index set_index]. lia. }
  destruct (main_iteration_flush B c polls st1 Hfr1) as (buf2 & Hlen2 & Htxt & Hrun2).
  { apply line_ends_spec. tauto. }
  exists buf2. split; [exact Hlen2|]. split.
  - rewrite Htxt. unfold line_text, gathered. subst st1.
    cbn [index set_index uart_buffer set_uart_buffer].
    rewrite Nat2Z.id, Hpre1. reflexivity.
  - rewrite main_loop_app, Hrun1. cbn [bind main_loop]. rewrite Hrun2.
    subst st1.
    destruct (on_line polls _) as [s p|s|s]; reflexivity.
Qed.

(** [sscanf] returns 2 exactly when it stored two values. *)
Lemma sscanf_two (s : list ascii) (fmt : string) :
  fst (Stdio.sscanf s fmt) = 2 ->
  exists p ch, Stdio.sscanf s fmt = (2, [p; ch]).
Proof.
  unfold Stdio.sscanf.
  destruct (Stdio.scan _ s []) as [got e].
  assert (H : forall r : Z * list float,
             r = (Z.of_nat (List.length got), got) -> fst r = 2 ->
             exists p ch, r = (2, [p; ch])).
  { intros r -> Hr. cbn [fst] in Hr.
    destruct got as [|p [|ch [|x got]]]; cbn [List.length] in Hr; try lia.
    now exists p, ch. }
  destruct got as [|p got]; [destruct e|]; try (apply H; reflexivity).
  cbn. discriminate.
Qed.

Lemma on_line_parsed (polls : list bool) (st : State) (p ch : float) :
  Stdio.sscanf (Stdio.cstring (uart_buffer st)) FORMAT = (2, [p; ch]) ->
  on_line polls st = on_update polls (set_change ch (set_price p st)).
Proof.
  intros H. unfold on_line. rewrite H. reflexivity.
Qed.

Lemma on_line_mismatch (polls : list bool) (st : State) :
  fst (Stdio.sscanf (Stdio.cstring (uart_buffer st)) FORMAT) <> 2 ->
  exists got, on_line polls st = Done (on_mismatch (assign got st)) polls.
Proof.
  intros H. unfold on_line.
  destruct (Stdio.sscanf (Stdio.cstring (uart_buffer st)) FORMAT) as [n got].
  cbn [fst] in H. exists got.
  replace (n =? 2) with false by (symmetry; apply Z.eqb_neq; exact H).
  reflexivity.
Qed.

Lemma parses_true (st : State) :
  parses st = true -> fst (Stdio.sscanf (line_text st) FORMAT) = 2.
Proof.
  unfold parses. intros H. apply Z.eqb_eq. exact H.
Qed.

Lemma parses_false (st : State) :
  parses st = false -> fst (Stdio.sscanf (line_text st) FORMAT) <> 2.
Proof.
  unfold parses. intros H. apply Z.eqb_neq. exact H.
Qed.

Lemma parsed_values (st : State) :
  parses st = true ->
  Stdio.sscanf (line_text st) FORMAT = (2, [parsed_price st; parsed_change st]).
Proof.
  intros H. apply parses_true in H. unfold parsed_price, parsed_change.
  destruct (sscanf_two _ _ H) as (p & ch & ->).
  reflexivity.
Qed.

(** A terminated line that parses: the turn of the loop is [on_update] on
    the two values. *)
Lemma main_iteration_parsed (B : Z) (c : ascii) (polls : list bool) (st : State) :
  framed B st -> line_ends B c st = true -> parses st = true ->
  exists buf,
    main_iteration B c polls st
    = (do (polls, st) <-
         on_update polls
           (set_change (parsed_change st)
              (set_price (parsed_price st) (set_uart_buffer buf st)));
       Done (set_index 0 st) polls).
Proof.
  intros Hfr Hend Hp.
  destruct (main_iteration_flush B c polls st Hfr Hend) as (buf & _ & Htxt & ->).
  exists buf. erewrite on_line_parsed; [reflexivity|].
  change (uart_buffer (set_uart_buffer buf st)) with buf.
  rewrite Htxt. apply parsed_values, Hp.
Qed.

(** A terminated line that does not parse: the turn is [on_mismatch]. *)
Lemma main_iteration_mismatch (B : Z) (c : ascii) (polls : list bool) (st : State) :
  framed B st -> line_ends B c st = true -> parses st = false ->
  exists buf got,
    Z.of_nat (List.length buf) = B
    /\ main_iteration B c polls st
       = Done (set_index 0 (on_mismatch (assign got (set_uart_buffer buf st))))
           polls.
Proof.
  intros Hfr Hend Hp.
  destruct (main_iteration_flush B c polls st Hfr Hend) as (buf & Hlen & Htxt & ->).
  destruct (on_line_mismatch polls (set_uart_buffer buf st)) as (got & ->).
  { change (uart_buffer (set_uart_buffer buf st)) with buf.
    rewrite Htxt. apply parses_false, Hp. }
  exists buf, got. split; [exact Hlen|reflexivity].
Qed.

Lemma land_clears_leds (v : Z) :
  Z.testbit (Z.land v (Z.lnot 3 mod 2 ^ 32)) 0 = false
  /\ Z.testbit (Z.land v (Z.lnot 3 mod 2 ^ 32)) 1 = false.
Proof.
  rewrite !Z.land_spec.
  change (Z.lnot 3 mod 2 ^ 32) with 4294967292.
  change (Z.testbit 4294967292 0) with false.
  change (Z.testbit 4294967292 1) with false.
  now rewrite !andb_false_r.
Qed.

(** Bytes that pile up behind the cursor end no line. *)
Lemma flushes_plain (B : Z) (l : list ascii) :
  forall polls st,
    B <= 256 -> framed B st -> Forall plain l ->
    index st + Z.of_nat (List.length l) <= B - 1 ->
    flushes B l polls st = 0%nat.
Proof.
  induction l as [|c l IH]; intros polls st HB Hfr Hpl Hroom; [reflexivity|].
  apply Forall_cons_iff in Hpl. destruct Hpl as [Hc Hpl].
  cbn [List.length] in Hroom. rewrite Nat2Z.inj_succ in Hroom.
  assert (Hidx : 0 <= index st) by (destruct Hfr; lia).
  assert (Hend : line_ends B c st = false) by (apply line_ends_plain; [exact Hc|lia]).
  destruct (main_iteration_append B c polls st HB Hfr Hend)
    as (buf & Hlen & _ & Hrun).
  cbn [flushes]. rewrite Hend, Hrun. cbn [Nat.add]. apply IH; try assumption.
  - split; [exact Hlen|]. cbn [index set_index]. lia.
  - cbn [index set_index]. lia.
Qed.

Lemma flushes_app (B : Z) (a b : list ascii) :
  forall polls st,
    flushes B (a ++ b) polls st
    = (flushes B a polls st
       + match main_loop B a polls st with
         | Done st' polls' => flushes B b polls' st'
         | _ => O
         end)%nat.
Proof.
  induction a as [|c a IH]; intros polls st; [reflexivity|].
  cbn [app flushes main_loop].
  destruct (main_iteration B c polls st) as [s p|s|s x]; cbn [bind].
  - rewrite IH. lia.
  - lia.
  - lia.
Qed.

(** C6, as the code has it: with a buffer of 1 to 256 bytes, whatever bytes
    arrive and however the button answers, no store leaves [uart_buffer]
    and the cursor stays between 0 and [BUFFER_SIZE - 1].  A turn of the
    loop ends the line exactly when the byte is a line feed, a carriage
    return, or the cursor stands at [BUFFER_SIZE - 1] when the byte
    arrives; it then puts the NUL behind the gathered bytes and hands that
    text to [sscanf].  [BUFFER_SIZE - 1] bytes that are neither LF nor CR
    end no line: they are all stored, the cursor stands at
    [BUFFER_SIZE - 1] and nothing has been called.  It is the byte after
    them, whatever it is, that ends the line: [sscanf] gets the
    [BUFFER_SIZE - 1] bytes and that byte is stored nowhere. *)
Theorem line_buffer_in_bounds :
  forall (B : Z) (bytes : list ascii) (polls : list bool) (st : State),
    1 <= B <= 256 -> framed B st ->
    (overran Uart_buffer (main_loop B bytes polls st) = false
     /\ 0 <= index (state_of (main_loop B bytes polls st)) <= B - 1
     /\ Z.of_nat (List.length (uart_buffer (state_of (main_loop B bytes polls st))))
        = B)
    /\ (forall c,
          line_ends B c st = true
          <-> c = Stdio.LF \/ c = Stdio.CR \/ index st >= B - 1)
    /\ (forall c,
          line_ends B c st = true ->
          exists buf,
            Z.of_nat (List.length buf) = B
            /\ Stdio.cstring buf = line_text st
            /\ main_iteration B c polls st
               = (do (polls, st) <- on_line polls (set_uart_buffer buf st);
                  Done (set_index 0 st) polls))
    /\ (forall l,
          index st = 0 -> Forall plain l ->
          Z.of_nat (List.length l) = B - 1 ->
          exists st',
            main_loop B l polls st = Done st' polls
            /\ flushes B l polls st = 0%nat
            /\ index st' = B - 1
            /\ gathered st' = l
            /\ calls st' = calls st
            /\ forall c,
                 line_ends B c st' = true
                 /\ flushes B (l ++ [c]) polls st = 1%nat
                 /\ exists buf,
                      Stdio.cstring buf = Stdio.cstring l
                      /\ main_loop B (l ++ [c]) polls st
                         = (do (polls, st) <-
                              on_line polls (set_uart_buffer buf st');
                            Done (set_index 0 st) polls)).
Proof.
  intros B bytes polls st HB Hfr. split; [|split; [|split]].
  - destruct (main_loop_framed B bytes polls st HB Hfr) as (Hu & _ & Hlen & Hidx).
    auto.
  - intros c. apply line_ends_spec.
  - intros c Hend. apply main_iteration_flush; assumption.
  - intros l Hi0 Hpl Hlen.
    destruct (feed_plain B l polls st) as (buf & Hlb & Hpre & Hrun);
      try assumption; try lia.
    assert (Hnone : flushes B l polls st = 0%nat)
      by (apply flushes_plain; try assumption; lia).
    set (st' := set_index (index st + Z.of_nat (List.length l))
                  (set_uart_buffer buf st)) in *.
    assert (Hi' : index st' = B - 1) by (subst st'; cbn [index set_index]; lia).
    assert (Hg : gathered st' = l).
    { unfold gathered. rewrite Hi'. subst st'.
      cbn [uart_buffer set_index set_uart_buffer].
      rewrite Hi0 in Hpre. cbn [Z.to_nat Nat.add] in Hpre.
      unfold gathered in Hpre. rewrite Hi0 in Hpre.
      cbn [Z.to_nat firstn app] in Hpre.
      replace (Z.to_nat (B - 1)) with (List.length l) by lia. exact Hpre. }
    assert (Hfr' : framed B st') by (split; [exact Hlb|lia]).
    exists st'. split; [exact Hrun|]. split; [exact Hnone|].
    split; [exact Hi'|]. split; [exact Hg|]. split; [reflexivity|].
    intros c.
    assert (Hend : line_ends B c st' = true)
      by (apply line_ends_spec; right; right; lia).
    split; [exact Hend|]. split.
    + rewrite flushes_app, Hnone, Hrun. cbn [flushes Nat.add]. rewrite Hend.
      destruct (main_iteration B c polls st'); reflexivity.
    + destruct (main_iteration_flush B c polls st' Hfr' Hend)
        as (buf' & _ & Htxt & Hit).
      exists buf'. split.
      * rewrite Htxt. unfold line_text. now rewrite Hg.
      * rewrite main_loop_app, Hrun. cbn [bind main_loop]. rewrite Hit.
        destruct (on_line polls (set_uart_buffer buf' st')); reflexivity.
Qed.

Lemma line_buffer_in_bounds_witness :
  (1 <= 64 <= 256 /\ framed 64 (armed64 0) /\ index (armed64 0) = 0
   /\ Forall plain (repeat "a"%char 63)
   /\ Z.of_nat (List.length (repeat "a"%char 63)) = 64 - 1)
  /\ overran Uart_buffer (main_loop 64 (repeat "a"%char 200) [] (armed64 0))
     = false
  /\ flushes 64 (repeat "a"%char 63) [] (armed64 0) = 0%nat
  /\ flushes 64 (repeat "a"%char 63 ++ ["b"%char]) [] (armed64 0) = 1%nat.
Proof.
  assert (H : 1 <= 64 <= 256 /\ framed 64 (armed64 0) /\ index (armed64 0) = 0
              /\ Forall plain (repeat "a"%char 63)
              /\ Z.of_nat (List.length (repeat "a"%char 63)) = 64 - 1).
  { split; [lia|]. split; [split; [reflexivity|cbn; lia]|].
    split; [reflexivity|]. split; [|reflexivity].
    apply Forall_forall. intros x Hx. apply repeat_spec in Hx. subst x.
    split; discriminate. }
  split; [exact H|].
  destruct H as (HB & Hfr & Hi0 & Hpl & Hlen).
  destruct (line_buffer_in_bounds 64 (repeat "a"%char 200) [] (armed64 0) HB Hfr)
    as ((Hnf & _) & _ & _ & Hfull).
  destruct (Hfull (repeat "a"%char 63) Hi0 Hpl Hlen)
    as (st' & _ & Hnone & _ & _ & _ & Hnext).
  destruct (Hnext "b"%char) as (_ & Hone & _).
  split; [exact Hnf|]. split; [exact Hnone|exact Hone].
Defined.

(** C6, as the claim words it: a buffer of 64 bytes is fed 63 bytes that
    end no line.  No line has been ended: the 63 bytes are in the buffer,
    the cursor stands at 63 and nothing has been called or shown.  The
    line is ended by the 64th byte. *)
Lemma full_buffer_waits_for_next_byte :
  flushes 64 (repeat "a"%char 63) [] (armed64 0) = 0%nat
  /\ (exists st',
         main_loop 64 (repeat "a"%char 63) [] (armed64 0) = Done st' []
         /\ index st' = 63
         /\ gathered st' = repeat "a"%char 63
         /\ calls st' = []
         /\ lcd st' = Board.clear)
  /\ flushes 64 (repeat "a"%char 64) [] (armed64 0) = 1%nat
  /\ calls (state_of (main_loop 64 (repeat "a"%char 64) [] (armed64 0)))
     = mismatch_calls 0.
Proof.
  split; [vm_compute; reflexivity|]. split.
  - eexists. split; [vm_compute; reflexivity|]. repeat split.
  - split; vm_compute; reflexivity.
Qed.

(** ** The alert engine *)

(** C5: a terminated line that [sscanf] does not convert in full never
    stops the loop nor leaves the array.  The turn shows "Loading..." on a
    cleared display, clears the red and the green bit of port D, switches
    the buzzer off and sets the cursor back to 0, so nothing gathered so far
    is read again: the text [sscanf] gets for the next line is made of the
    bytes that arrive from then on. *)
Theorem malformed_line_goes_idle :
  forall (B : Z) (c : ascii) (polls : list bool) (st : State),
    1 <= B <= 256 -> framed B st -> line_ends B c st = true ->
    parses st = false ->
    exists st',
      main_iteration B c polls st = Done st' polls
      /\ lcd st' = Board.mkLCD 10 0 "Loading..." ""
      /\ Z.testbit (GPIOD_DATA st') 0 = false
      /\ Z.testbit (GPIOD_DATA st') 1 = false
      /\ buzzer st' = false
      /\ calls st' = calls st ++ mismatch_calls (GPIOD_DATA st')
      /\ index st' = 0
      /\ gathered st' = []
      /\ framed B st'
      /\ forall l,
           Forall plain l -> Z.of_nat (List.length l) <= B - 1 ->
           exists st'',
             main_loop B l polls st' = Done st'' polls
             /\ gathered st'' = l
             /\ line_text st'' = Stdio.cstring l.
Proof.
  intros B c polls st HB Hfr Hend Hp.
  destruct (main_iteration_mismatch B c polls st Hfr Hend Hp)
    as (buf & got & Hlen & Hrun).
  set (s0 := assign got (set_uart_buffer buf st)) in *.
  assert (Hs0 : uart_buffer s0 = buf /\ calls s0 = calls st
                /\ GPIOD_DATA s0 = GPIOD_DATA st)
    by (subst s0; destruct got as [|p [|ch got]]; repeat split).
  destruct Hs0 as (Hb & Hc & Hg).
  rewrite on_mismatch_eq, Hb, Hc, Hg in Hrun.
  destruct (land_clears_leds (GPIOD_DATA st)) as [H0 H1].
  eexists. split; [exact Hrun|].
  match type of Hrun with _ = Done ?s _ => set (st' := s) in * end.
  assert (Hfr' : framed B st') by (split; [exact Hlen|cbn; lia]).
  repeat (split; [first [reflexivity | assumption]|]).
  intros l Hpl Hroom.
  destruct (feed_plain B l polls st') as (buf' & Hlb & Hpre & Hrun');
    try assumption; try (cbn; lia).
  eexists. split; [exact Hrun'|].
  assert (Hgl : gathered
                  (set_index (index st' + Z.of_nat (List.length l))
                     (set_uart_buffer buf' st')) = l).
  { unfold gathered in *. subst st'.
    cbn [index set_index uart_buffer set_uart_buffer] in *.
    cbn [Z.to_nat Nat.add firstn app Z.add] in Hpre.
    rewrite Z.add_0_l, Nat2Z.id. exact Hpre. }
  split; [exact Hgl|]. unfold line_text. now rewrite Hgl.
Qed.

Lemma malformed_line_goes_idle_witness :
  (1 <= 64 <= 256
   /\ framed 64 (holding64 (list_ascii_of_string "garbage") 70000 0)
   /\ line_ends 64 Stdio.LF (holding64 (list_ascii_of_string "garbage") 70000 0)
      = true
   /\ parses (holding64 (list_ascii_of_string "garbage") 70000 0) = false)
  /\ exists st',
       main_iteration 64 Stdio.LF []
         (holding64 (list_ascii_of_string "garbage") 70000 0) = Done st' []
       /\ lcd st' = Board.mkLCD 10 0 "Loading..." ""
       /\ buzzer st' = false.
Proof.
  assert (H : 1 <= 64 <= 256
              /\ framed 64 (holding64 (list_ascii_of_string "garbage") 70000 0)
              /\ line_ends 64 Stdio.LF
                   (holding64 (list_ascii_of_string "garbage") 70000 0) = true
              /\ parses (holding64 (list_ascii_of_string "garbage") 70000 0)
                 = false).
  { split; [lia|]. split; [split; [reflexivity|cbn; lia]|].
    split; reflexivity. }
  split; [exact H|].
  destruct H as (HB & Hfr & Hend & Hp).
  destruct (malformed_line_goes_idle 64 Stdio.LF []
              (holding64 (list_ascii_of_string "garbage") 70000 0)
              HB Hfr Hend Hp)
    as (st' & Hrun & Hlcd & _ & _ & Hbz & _).
  exists st'. repeat split; assumption.
Defined.




(** C8: a terminated line that parses with a price below the threshold and
    whose text fitted [line2] at line 135, so that the alarm loop is
    entered.  Each turn of the loop clears the display, writes the price -
    "$", its thousands, ",", the remainder on three digits - on row 1 and
    "BUY NOW" on row 2, toggles the red and the green bit of port D and the
    buzzer, and waits 150 ms; it stores no byte and leaves the cursor, the
    price and the threshold alone.  As long as the button reports no press
    the loop goes on, one turn for each poll; at the first press it leaves,
    [Buzzer_Off] is called, and [alarmStopped] is 1 and the buzzer off, also
    at the end of the turn of the main loop. *)
Theorem alarm_runs_until_acknowledged :
  forall (B : Z) (c : ascii) (k : nat) (rest : list bool) (st : State)
         (T R : Z) (shown text : string) (turn : list call),
    framed B st -> line_ends B c st = true -> parses st = true ->
    C32.ltb (parsed_price st) (local_threshold st) = true ->
    T = Z.quot (C32.to_int (parsed_price st)) 1000 ->
    R = Z.rem (C32.to_int (parsed_price st)) 1000 ->
    shown = ("$" ++ Stdio.fmt_d T ++ "," ++ Stdio.fmt_0d 3 R)%string ->
    text = (shown ++ "  " ++ Stdio.fmt_plus_2f (parsed_change st) ++ "%")%string ->
    (String.length text <= 16)%nat ->
    turn = [Ev_LCD_Clear; Ev_LCD_Set_Cursor 0 0; Ev_LCD_Display_String shown;
            Ev_LCD_Set_Cursor 0 1; Ev_LCD_Display_String "BUY NOW";
            Ev_RGB_LED_Flash_Yellow; Ev_Buzzer_Toggle; Ev_DelayMs 150] ->
    (forall s rest',
        C32.ltb (price s) (local_threshold s) = true ->
        exists s',
          alarm_loop T R (false :: true :: rest') s = Done s' rest'
          /\ lcd s' = Board.mkLCD 7 1 shown "BUY NOW"
          /\ GPIOD_DATA s' = Z.lxor (GPIOD_DATA s) 3
          /\ buzzer s' = negb (buzzer s)
          /\ calls s' = calls s ++ turn
          /\ uart_buffer s' = uart_buffer s
          /\ index s' = index s
          /\ price s' = price s
          /\ local_threshold s' = local_threshold s)
    /\ (exists s,
           main_iteration B c (repeat false k) st = Starved s
           /\ calls s = calls st ++ List.concat (repeat turn k)
           /\ GPIOD_DATA s = Nat.iter k (fun d => Z.lxor d 3) (GPIOD_DATA st)
           /\ buzzer s = Nat.iter k negb (buzzer st)
           /\ lcd s = match k with
                      | O => lcd st
                      | S _ => Board.mkLCD 7 1 shown "BUY NOW"
                      end
           /\ price s = parsed_price st
           /\ index s = index st
           /\ alarmStopped s = alarmStopped st)
    /\ (exists s,
           main_iteration B c (repeat false k ++ true :: rest) st = Done s rest
           /\ calls s
              = calls st
                ++ List.concat (repeat turn k)
                ++ [Ev_Buzzer_Off;
                    Ev_LCD_Clear; Ev_LCD_Set_Cursor 0 0;
                    Ev_LCD_Display_String "BTC Price:"; Ev_LCD_Set_Cursor 0 1;
                    Ev_LCD_Display_String text;
                    Ev_RGB_LED_Set_Normal (parsed_change st); Ev_Buzzer_Off]
           /\ alarmStopped s = 1
           /\ buzzer s = false
           /\ index s = 0).
Proof.
  intros B c k rest st T R shown text turn Hfr Hend Hp Hlt HT HR Hshown Htext
         Hlen Hturn.
  assert (Hsp : sprintf_price T R = shown) by (symmetry; exact Hshown).
  assert (Hut : update_text (parsed_price st) (parsed_change st) = text).
  { unfold update_text, thousands_of, remainder_of, sprintf_line2.
    rewrite <- HT, <- HR, Hsp. symmetry. exact Htext. }
  assert (Hfit : fits 17 text = true) by (apply fits_spec; lia).
  assert (Hfits : fits 17 shown = true).
  { apply fits_spec. rewrite Htext, append_length in Hlen. lia. }
  assert (Hac : alarm_calls T R = turn).
  { unfold alarm_calls. rewrite Hsp. symmetry. exact Hturn. }
  assert (Hal : alarm_lcd T R = Board.mkLCD 7 1 shown "BUY NOW").
  { unfold alarm_lcd. rewrite Hsp, (fits_clip shown Hfits). reflexivity. }
  assert (HT' : thousands_of (parsed_price st) = T) by (symmetry; exact HT).
  assert (HR' : remainder_of (parsed_price st) = R) by (symmetry; exact HR).
  split; [|split].
  - intros s rest' Hs.
    change (false :: true :: rest') with (repeat false 1 ++ true :: rest').
    rewrite (alarm_loop_pressed 1 T R s rest')
      by (first [exact Hs | rewrite Hsp; exact Hfits]).
    eexists. split; [reflexivity|].
    rewrite alarm_turns_eq, Hac, Hal.
    cbn [lcd GPIOD_DATA buzzer calls uart_buffer index price local_threshold
         Nat.iter nat_rect repeat List.concat].
    rewrite app_nil_r. repeat split.
  - destruct (main_iteration_parsed B c (repeat false k) st Hfr Hend Hp)
      as (buf & ->).
    rewrite on_update_unacknowledged.
    2: { cbn [price change set_change set_price]. rewrite Hut. exact Hfit. }
    2: { exact Hlt. }
    cbn [bind price change set_change set_price set_uart_buffer].
    rewrite HT', HR', alarm_turns_eq, Hac, Hal.
    eexists. split; [reflexivity|].
    cbn [lcd GPIOD_DATA buzzer calls price index alarmStopped set_line2
         set_change set_price set_uart_buffer].
    repeat split.
  - destruct (main_iteration_parsed B c (repeat false k ++ true :: rest) st
                Hfr Hend Hp) as (buf & ->).
    rewrite on_update_acknowledged.
    2: { cbn [price change set_change set_price]. rewrite Hut. exact Hfit. }
    2: { exact Hlt. }
    cbn [bind price change set_change set_price set_uart_buffer].
    rewrite HT', HR', Hut, render_normal_eq, alarm_turns_eq, Hac.
    eexists. split; [reflexivity|].
    split; [|split; [|split]]; try reflexivity.
    fields. unfold normal_calls. rewrite <- !app_assoc. reflexivity.
Qed.

Lemma alarm_runs_until_acknowledged_witness :
  (framed 64 (holding64 sample_text 70000 0)
   /\ line_ends 64 Stdio.LF (holding64 sample_text 70000 0) = true
   /\ parses (holding64 sample_text 70000 0) = true
   /\ C32.ltb (parsed_price (holding64 sample_text 70000 0))
        (local_threshold (holding64 sample_text 70000 0)) = true
   /\ 63 = Z.quot (C32.to_int (parsed_price (holding64 sample_text 70000 0)))
             1000
   /\ 250 = Z.rem (C32.to_int (parsed_price (holding64 sample_text 70000 0)))
              1000
   /\ "$63,250" = ("$" ++ Stdio.fmt_d 63 ++ "," ++ Stdio.fmt_0d 3 250)%string
   /\ "$63,250  -1.25%"
      = ("$63,250" ++ "  "
         ++ Stdio.fmt_plus_2f (parsed_change (holding64 sample_text 70000 0))
         ++ "%")%string
   /\ (String.length "$63,250  -1.25%" <= 16)%nat)
  /\ (exists s,
         main_iteration 64 Stdio.LF (repeat false 2)
           (holding64 sample_text 70000 0) = Starved s
         /\ calls s
            = [Ev_LCD_Clear; Ev_LCD_Set_Cursor 0 0;
               Ev_LCD_Display_String "$63,250";
               Ev_LCD_Set_Cursor 0 1; Ev_LCD_Display_String "BUY NOW";
               Ev_RGB_LED_Flash_Yellow; Ev_Buzzer_Toggle; Ev_DelayMs 150;
               Ev_LCD_Clear; Ev_LCD_Set_Cursor 0 0;
               Ev_LCD_Display_String "$63,250";
               Ev_LCD_Set_Cursor 0 1; Ev_LCD_Display_String "BUY NOW";
               Ev_RGB_LED_Flash_Yellow; Ev_Buzzer_Toggle; Ev_DelayMs 150]
         /\ lcd s = Board.mkLCD 7 1 "$63,250" "BUY NOW")
  /\ (exists s,
         main_iteration 64 Stdio.LF (repeat false 1 ++ [true; false])
           (holding64 sample_text 70000 0) = Done s [false]
         /\ calls s
            = [Ev_LCD_Clear; Ev_LCD_Set_Cursor 0 0;
               Ev_LCD_Display_String "$63,250";
               Ev_LCD_Set_Cursor 0 1; Ev_LCD_Display_String "BUY NOW";
               Ev_RGB_LED_Flash_Yellow; Ev_Buzzer_Toggle; Ev_DelayMs 150;
               Ev_Buzzer_Off;
               Ev_LCD_Clear; Ev_LCD_Set_Cursor 0 0;
               Ev_LCD_Display_String "BTC Price:"; Ev_LCD_Set_Cursor 0 1;
               Ev_LCD_Display_String "$63,250  -1.25%";
               Ev_RGB_LED_Set_Normal sample_change; Ev_Buzzer_Off]
         /\ alarmStopped s = 1 /\ buzzer s = false).
Proof.
  assert (H : framed 64 (holding64 sample_text 70000 0)
              /\ line_ends 64 Stdio.LF (holding64 sample_text 70000 0) = true
              /\ parses (holding64 sample_text 70000 0) = true
              /\ C32.ltb (parsed_price (holding64 sample_text 70000 0))
                   (local_threshold (holding64 sample_text 70000 0)) = true
              /\ 63 = Z.quot
                        (C32.to_int
                           (parsed_price (holding64 sample_text 70000 0))) 1000
              /\ 250 = Z.rem
                         (C32.to_int
                            (parsed_price (holding64 sample_text 70000 0))) 1000
              /\ "$63,250"
                 = ("$" ++ Stdio.fmt_d 63 ++ "," ++ Stdio.fmt_0d 3 250)%string
              /\ "$63,250  -1.25%"
                 = ("$63,250" ++ "  "
                    ++ Stdio.fmt_plus_2f
                         (parsed_change (holding64 sample_text 70000 0))
                    ++ "%")%string
              /\ (String.length "$63,250  -1.25%" <= 16)%nat).
  { split; [split; [reflexivity|cbn; lia]|].
    repeat split; try (vm_compute; reflexivity). cbn. lia. }
  split; [exact H|].
  destruct H as (Hfr & Hend & Hp & Hlt & HT & HR & Hshown & Htext & Hlen).
  assert (Hch : parsed_change (holding64 sample_text 70000 0) = sample_change)
    by (vm_compute; reflexivity).
  split.
  - destruct (alarm_runs_until_acknowledged 64 Stdio.LF 2 []
                (holding64 sample_text 70000 0) 63 250 "$63,250"
                "$63,250  -1.25%" _
                Hfr Hend Hp Hlt HT HR Hshown Htext Hlen eq_refl)
      as (_ & (s & Hrun & Hcalls & _ & _ & Hlcd & _) & _).
    exists s. repeat split; assumption.
  - destruct (alarm_runs_until_acknowledged 64 Stdio.LF 1 [false]
                (holding64 sample_text 70000 0) 63 250 "$63,250"
                "$63,250  -1.25%" _
                Hfr Hend Hp Hlt HT HR Hshown Htext Hlen eq_refl)
      as (_ & _ & (s & Hrun & Hcalls & Hflag & Hbz & _)).
    exists s. rewrite Hch in Hcalls. repeat split; assumption.
Defined.

(** C1 (the code does otherwise): [alarmStopped] is 1, the threshold is
    70000 and a line with the price 65000 arrives while the button is not
    pressed.  The alarm loop runs again: the turn makes the calls of the
    alarm loop, among them the yellow flash and the buzzer toggle, before
    the calls of the normal display. *)
Theorem latched_alarm_fires_again :
  alarmStopped (armed64 1) = 1
  /\ local_threshold (armed64 1) = C32.of_int 70000
  /\ exists st',
       main_loop 64 (line "BTC Price: $65000.00, 24h Change: -1.25%")
         [false; true] (armed64 1) = Done st' []
       /\ calls st'
          = alarm_calls 65 0
            ++ Ev_Buzzer_Off :: normal_calls "$65,000  -1.25%" sample_change
       /\ In Ev_RGB_LED_Flash_Yellow (calls st')
       /\ In Ev_Buzzer_Toggle (calls st').
Proof.
  split; [reflexivity|]. split; [reflexivity|].
  eexists. split; [vm_compute; reflexivity|].
  split; [reflexivity|]. split; cbn; tauto.
Qed.

(** ** The example line *)

Lemma sample_text_plain : Forall plain sample_text.
Proof.
  unfold sample_text. cbn [list_ascii_of_string].
  repeat (constructor; [split; discriminate|]). constructor.
Qed.

Lemma sample_parses :
  Stdio.sscanf sample_text FORMAT = (2, [sample_price; sample_change]).
Proof. vm_compute. reflexivity. Qed.

Lemma sample_update_text :
  update_text sample_price sample_change = "$63,250  -1.25%".
Proof. vm_compute. reflexivity. Qed.

(** C4: [sscanf] converts both fields of the line
    "BTC Price: $63250.50, 24h Change: -1.25%"; the price is the float
    63250.5 and the change the float -1.25, both exact.  The text made for
    row 2 is "$63,250  -1.25%" (63250 split into 63 and 250, the change with
    its sign and two decimals).  When the line arrives, followed by a line
    feed, in a buffer of at least 41 bytes with the cursor at 0, these
    values are stored in [price], [change] and [line2]; the turn ends
    unless an alarm is left unacknowledged, and when it ends row 2 of the
    display shows that text under "BTC Price:". *)
Theorem sample_line_round_trip :
  Stdio.sscanf sample_text FORMAT = (2, [sample_price; sample_change])
  /\ (exists q, C32.to_Q sample_price = Some q /\ (q == 63250.50)%Q)
  /\ (exists q, C32.to_Q sample_change = Some q /\ (q == -1.25)%Q)
  /\ update_text sample_price sample_change = "$63,250  -1.25%"
  /\ forall (B : Z) (polls : list bool) (st : State),
       41 <= B <= 256 -> framed B st -> index st = 0 ->
       price (state_of (main_loop B (sample_text ++ [Stdio.LF]) polls st))
       = sample_price
       /\ change (state_of (main_loop B (sample_text ++ [Stdio.LF]) polls st))
          = sample_change
       /\ line2 (state_of (main_loop B (sample_text ++ [Stdio.LF]) polls st))
          = "$63,250  -1.25%"
       /\ (finished (main_loop B (sample_text ++ [Stdio.LF]) polls st) = true ->
           Board.row0
             (lcd (state_of (main_loop B (sample_text ++ [Stdio.LF]) polls st)))
           = "BTC Price:"
           /\ Board.row1
                (lcd (state_of (main_loop B (sample_text ++ [Stdio.LF]) polls st)))
              = "$63,250  -1.25%")
       /\ (C32.geb sample_price (local_threshold st) = true ->
           finished (main_loop B (sample_text ++ [Stdio.LF]) polls st) = true).
Proof.
  split; [exact sample_parses|].
  split; [eexists; split; [reflexivity|reflexivity]|].
  split; [eexists; split; [reflexivity|reflexivity]|].
  split; [exact sample_update_text|].
  intros B polls st HB Hfr Hi0.
  destruct (feed_line B sample_text Stdio.LF polls st) as (buf & Hlen & Hcs & ->);
    try assumption; try lia.
  { exact sample_text_plain. }
  { change (Z.of_nat (List.length sample_text)) with 40. lia. }
  { now left. }
  change (Stdio.cstring sample_text) with sample_text in Hcs.
  erewrite on_line_parsed
    by (cbn [uart_buffer set_uart_buffer]; rewrite Hcs; exact sample_parses).
  match goal with
  | |- context [on_update polls ?s] => set (s1 := s) in *
  end.
  assert (Hp : price s1 = sample_price) by reflexivity.
  assert (Hc : change s1 = sample_change) by reflexivity.
  assert (Ht : local_threshold s1 = local_threshold st) by reflexivity.
  clearbody s1.
  assert (Hfit : fits 17 (update_text (price s1) (change s1)) = true)
    by (rewrite Hp, Hc, sample_update_text; reflexivity).
  assert (Hclip : Board.clip Board.COLUMNS "$63,250  -1.25%" = "$63,250  -1.25%")
    by reflexivity.
  destruct (C32.ltb (price s1) (local_threshold s1)) eqn:Hlt.
  - destruct (polls_split polls) as [(k & rest & ->)|(k & ->)].
    + rewrite on_update_acknowledged by (first [exact Hfit | exact Hlt]).
      rewrite render_normal_eq, alarm_turns_eq. cbn [bind].
      fields. rewrite Hp, Hc, sample_update_text, Hclip.
      cbn [Board.row0 Board.row1]. repeat split.
    + rewrite on_update_unacknowledged by (first [exact Hfit | exact Hlt]).
      rewrite alarm_turns_eq. cbn [bind].
      fields. rewrite Hp, Hc, sample_update_text.
      repeat split; try discriminate.
      intros Hge. rewrite <- Ht, <- Hp in Hge. apply ge_not_lt in Hge. congruence.
  - rewrite on_update_normal by (first [exact Hfit | exact Hlt]).
    cbn zeta. rewrite render_normal_eq. cbn [bind].
    destruct (C32.geb (price s1) (local_threshold s1));
      fields; rewrite Hp, Hc, sample_update_text, Hclip;
      cbn [Board.row0 Board.row1]; repeat split.
Qed.

Lemma sample_line_round_trip_witness :
  (41 <= 64 <= 256 /\ framed 64 (armed64 0) /\ index (armed64 0) = 0)
  /\ line2 (state_of (main_loop 64 (sample_text ++ [Stdio.LF]) [true] (armed64 0)))
     = "$63,250  -1.25%".
Proof.
  assert (H : 41 <= 64 <= 256 /\ framed 64 (armed64 0) /\ index (armed64 0) = 0).
  { split; [lia|]. split; [split; [reflexivity|cbn; lia]|reflexivity]. }
  split; [exact H|].
  destruct H as (HB & Hfr & Hi0).
  destruct sample_line_round_trip as (_ & _ & _ & _ & Hrun).
  destruct (Hrun 64 [true] (armed64 0) HB Hfr Hi0) as (_ & _ & Hl2 & _).
  exact Hl2.
Defined.

(** ** Whole runs *)

Lemma threshold_loop_buffer (polls : list bool) :
  forall st,
    uart_buffer (state_of (threshold_loop polls st)) = uart_buffer st
    /\ index (state_of (threshold_loop polls st)) = index st
    /\ faulted (threshold_loop polls st) = false.
Proof.
  induction polls as [|b polls IH]; intros st; simpl;
    destruct (elapsed st <? 4000); try (repeat split; reflexivity).
  destruct (IH (tick (if b then on_press st else st))) as (H1 & H2 & H3).
  rewrite H1, H2, H3. destruct b; repeat split.
Qed.

(** From power-on, with the array of the declared size, the main loop is
    entered with the cursor at 0; no run of [main] leaves [uart_buffer] or
    [priceStr], and the cursor stays inside the buffer. *)
Lemma main_framed (B : Z) (bytes : list ascii) (polls : list bool)
      (boot : State) :
  1 <= B <= 256 -> Z.of_nat (List.length (uart_buffer boot)) = B ->
  overran Uart_buffer (main B bytes polls boot) = false
  /\ overran PriceStr (main B bytes polls boot) = false
  /\ framed B (state_of (main B bytes polls boot)).
Proof.
  intros HB Hlen. unfold main, threshold_phase.
  destruct (threshold_loop_buffer polls (startup boot)) as (H1 & H2 & H3).
  change (uart_buffer (startup boot)) with (uart_buffer boot) in H1.
  change (index (startup boot)) with 0 in H2.
  destruct (threshold_loop polls (startup boot)) as [s p|s|s a];
    cbn [bind faulted state_of] in *; try discriminate H3.
  - apply main_loop_framed; [exact HB|]. split.
    + change (uart_buffer (lock_threshold s)) with (uart_buffer s).
      rewrite H1. exact Hlen.
    + change (index (lock_threshold s)) with (index s). rewrite H2. lia.
  - split; [reflexivity|]. split; [reflexivity|].
    split; [rewrite H1; exact Hlen|rewrite H2; lia].
Qed.

Example sscanf_garbage :
  Stdio.sscanf (list_ascii_of_string "garbage") FORMAT = (0, []).
Proof. vm_compute. reflexivity. Qed.

Example sscanf_empty_line : Stdio.sscanf [] FORMAT = (Stdio.EOF, []).
Proof. vm_compute. reflexivity. Qed.

Example sscanf_price_only :
  Stdio.sscanf (list_ascii_of_string "BTC Price: $5, soon") FORMAT
  = (1, [C32.of_int 5]).
Proof. vm_compute. reflexivity. Qed.

Example sscanf_without_percent :
  fst (Stdio.sscanf (list_ascii_of_string "BTC Price:$7e4,24h Change:+.5")
         FORMAT) = 2.
Proof. vm_compute. reflexivity. Qed.

(** [%f] takes what [strtod] takes: infinities, NaNs and hexadecimal
    numbers as well. *)
Example sscanf_infinite_change :
  Stdio.sscanf (list_ascii_of_string "BTC Price: $63250.50, 24h Change: inf%")
    FORMAT
  = (2, [sample_price; C32.Infinity false]).
Proof. vm_compute. reflexivity. Qed.

Example sscanf_infinity_nan :
  Stdio.sscanf
    (list_ascii_of_string "BTC Price: $-Infinity, 24h Change: -NaN(a_1)%")
    FORMAT
  = (2, [C32.Infinity true; C32.NaN true]).
Proof. vm_compute. reflexivity. Qed.

Example sscanf_hexadecimal :
  Stdio.sscanf
    (list_ascii_of_string "BTC Price: $0xF.8p+12, 24h Change: -0X.Ap1%")
    FORMAT
  = (2, [C32.of_int 63488; sample_change]).
Proof. vm_compute. reflexivity. Qed.

(** Input items that are cut short convert nothing. *)
Example sscanf_hexadecimal_without_digit :
  Stdio.sscanf (list_ascii_of_string "BTC Price: $63250.50, 24h Change: 0x%")
    FORMAT
  = (1, [sample_price]).
Proof. vm_compute. reflexivity. Qed.

Example sscanf_cut_short :
  Stdio.sscanf (list_ascii_of_string "BTC Price: $infi") FORMAT = (0, [])
  /\ Stdio.sscanf (list_ascii_of_string "BTC Price: $nan(1") FORMAT = (0, [])
  /\ Stdio.sscanf (list_ascii_of_string "BTC Price: $na") FORMAT = (0, [])
  /\ Stdio.sscanf (list_ascii_of_string "BTC Price: $0x1p+") FORMAT = (0, [])
  /\ Stdio.sscanf (list_ascii_of_string "BTC Price: $1e") FORMAT = (0, [])
  /\ Stdio.sscanf (list_ascii_of_string "BTC Price: $-.") FORMAT = (0, []).
Proof. repeat split; vm_compute; reflexivity. Qed.

(** What the program shows for them. *)
Example sprintf_infinite_change :
  update_text sample_price (C32.Infinity false) = "$63,250  +inf%"
  /\ update_text sample_price (C32.NaN true) = "$63,250  -nan%"
  /\ update_text (C32.Infinity false) sample_change = "$2147483,647  -1.25%"
  /\ update_text (C32.NaN false) sample_change = "$0,000  -1.25%".
Proof. repeat split; vm_compute; reflexivity. Qed.

(** A line with a change of infinity parses and is shown; one with [0x]
    for its change does not parse. *)
Example main_iteration_infinite_change :
  exists st,
    main_loop 64 (line "BTC Price: $63250.50, 24h Change: inf%") []
      (set_local_threshold (C32.of_int 60000) (armed64 0)) = Done st []
    /\ Board.row1 (lcd st) = "$63,250  +inf%"
    /\ main_loop 64 (line "BTC Price: $63250.50, 24h Change: 0x%") []
         (armed64 0) = Done (state_of
                              (main_loop 64
                                 (line "BTC Price: $63250.50, 24h Change: 0x%")
                                 [] (armed64 0))) []
    /\ lcd (state_of (main_loop 64
                        (line "BTC Price: $63250.50, 24h Change: 0x%") []
                        (armed64 0)))
       = Board.mkLCD 10 0 "Loading..." "".
Proof.
  eexists. split; [vm_compute; reflexivity|].
  split; [vm_compute; reflexivity|].
  split; vm_compute; reflexivity.
Qed.

Example sprintf_small_price :
  update_text (C32.of_int 8713) (C32.of_decimal false 5 (-3))
  = "$8,713  +0.00%".
Proof. vm_compute. reflexivity. Qed.

Example sprintf_below_thousand :
  update_text (C32.of_int 42) (C32.of_decimal false 1234 (-2))
  = "$0,042  +12.34%".
Proof. vm_compute. reflexivity. Qed.

(** Six presses select 70000; the sample line then raises the alarm, which
    the second poll acknowledges; a line that does not parse follows. *)
Example main_run :
  exists st,
    main 64
      (line "BTC Price: $63250.50, 24h Change: -1.25%" ++ line "garbage")
      (repeat true 6 ++ repeat false 39 ++ [false; true]) boot64
    = Done st []
    /\ local_threshold st = C32.of_int 70000
    /\ alarmStopped st = 1
    /\ lcd st = Board.mkLCD 10 0 "Loading..." ""
    /\ index st = 0.
Proof.
  eexists. split; [vm_compute; reflexivity|]. repeat split.
Qed.

(** * Further properties of [main] *)

(** ** The selection phase *)

Lemma threshold_at_closed (i : Z) :
  0 <= i < 12 -> threshold_at i = 10000 * (1 + i) /\ In (threshold_at i) thresholds.
Proof.
  intros H.
  assert (E : i = 0 \/ i = 1 \/ i = 2 \/ i = 3 \/ i = 4 \/ i = 5 \/ i = 6
              \/ i = 7 \/ i = 8 \/ i = 9 \/ i = 10 \/ i = 11) by lia.
  repeat (destruct E as [->|E]; [split; [reflexivity|cbn; tauto]|]).
  subst i. split; [reflexivity|cbn; tauto].
Qed.

(** X1: whatever the operator does, when the selection ends the index is
    inside the menu (line 113 reads [thresholds] in bounds) and the locked
    threshold is the entry reached by the presses sampled:
    10000 * (1 + N mod 12) for N presses. *)
Theorem locked_threshold_from_menu :
  forall (polls rest : list bool) (boot st : State),
    threshold_phase polls boot = Done st rest ->
    exists seen,
      polls = seen ++ rest
      /\ 0 <= adjustable_index st < 12
      /\ adjustable_index st = presses seen mod 12
      /\ In (threshold_at (adjustable_index st)) thresholds
      /\ local_threshold st = C32.of_int (10000 * (1 + presses seen mod 12)).
Proof.
  intros polls rest boot st. unfold threshold_phase.
  destruct (threshold_loop_counts polls (startup boot)) as (seen & Hsplit & Hidx).
  { cbn. lia. }
  rewrite total_thresholds_12 in Hidx.
  change (adjustable_index (startup boot)) with 0 in Hidx. rewrite Z.add_0_l in Hidx.
  destruct (threshold_loop polls (startup boot)) as [s p|s|s];
    cbn [bind state_of unused] in *; intros H; try discriminate H.
  assert (Hs : lock_threshold s = st) by congruence.
  assert (Hp : p = rest) by congruence.
  subst st p. exists seen.
  assert (Hr : 0 <= presses seen mod 12 < 12) by (apply Z.mod_pos_bound; lia).
  rewrite lock_threshold_index, lock_threshold_value, Hidx.
  destruct (threshold_at_closed (presses seen mod 12) Hr) as [Hc Hin].
  split; [exact Hsplit|]. split; [exact Hr|]. split; [reflexivity|].
  split; [exact Hin|]. now rewrite Hc.
Qed.

Lemma locked_threshold_from_menu_witness :
  threshold_phase (repeat true 13 ++ repeat false 39) boot64
  = Done (state_of (threshold_phase (repeat true 13 ++ repeat false 39) boot64))
      []
  /\ local_threshold
       (state_of (threshold_phase (repeat true 13 ++ repeat false 39) boot64))
     = C32.of_int 20000.
Proof.
  assert (E : threshold_phase (repeat true 13 ++ repeat false 39) boot64
              = Done (state_of (threshold_phase
                                  (repeat true 13 ++ repeat false 39) boot64))
                  [])
    by (vm_compute; reflexivity).
  split; [exact E|].
  destruct (locked_threshold_from_menu _ _ _ _ E)
    as (seen & Hsplit & _ & _ & _ & Hthr).
  rewrite app_nil_r in Hsplit. subst seen. exact Hthr.
Defined.

Lemma tick_elapsed_nonneg (st : State) : 0 <= elapsed (tick st).
Proof.
  change (elapsed (tick st)) with ((elapsed st + 100) mod 2 ^ 32).
  apply Z.mod_pos_bound. lia.
Qed.

Lemma idle_polls_finish (n : nat) :
  forall st rest,
    0 <= elapsed st -> 4000 - 100 * Z.of_nat n <= elapsed st ->
    finished (threshold_loop (repeat false n ++ rest) st) = true.
Proof.
  induction n as [|n IH]; intros st rest H0 Hn.
  - cbn [repeat app]. destruct rest; cbn [threshold_loop];
      (replace (elapsed st <? 4000) with false by (symmetry; apply Z.ltb_ge; lia));
      reflexivity.
  - cbn [repeat app threshold_loop].
    destruct (elapsed st <? 4000) eqn:E; [|reflexivity].
    apply Z.ltb_lt in E. apply IH.
    + apply tick_elapsed_nonneg.
    + rewrite tick_elapsed; lia.
Qed.

Lemma any_polls_then_idle (p : list bool) :
  forall st rest,
    0 <= elapsed st ->
    finished (threshold_loop (p ++ repeat false 40 ++ rest) st) = true.
Proof.
  induction p as [|b p IH]; intros st rest H0.
  - apply idle_polls_finish; [exact H0|lia].
  - cbn [app threshold_loop].
    destruct (elapsed st <? 4000); [|reflexivity].
    apply IH. apply tick_elapsed_nonneg.
Qed.

(** X2: the selection always comes to an end: after any history of polls,
    40 polls in a row without a press end the loop at the latest, and the
    threshold is locked. *)
Theorem selection_ends_after_idle_window :
  forall (p rest : list bool) (boot : State),
    finished (threshold_phase (p ++ repeat false 40 ++ rest) boot) = true.
Proof.
  intros p rest boot. unfold threshold_phase.
  pose proof (any_polls_then_idle p (startup boot) rest) as H.
  destruct (threshold_loop (p ++ repeat false 40 ++ rest) (startup boot));
    cbn [bind finished] in *; [reflexivity|apply H; cbn; lia..].
Qed.

Lemma idle_polls_continue (k : nat) :
  forall st more,
    0 <= elapsed st -> elapsed st + 100 * Z.of_nat k <= 4000 ->
    threshold_loop (repeat false k ++ more) st
    = threshold_loop more (Nat.iter k tick st)
    /\ elapsed (Nat.iter k tick st) = elapsed st + 100 * Z.of_nat k
    /\ adjustable_index (Nat.iter k tick st) = adjustable_index st.
Proof.
  induction k as [|k IH]; intros st more H0 Hk.
  - cbn [repeat app Nat.iter]. repeat split. cbn. lia.
  - cbn [repeat app threshold_loop].
    replace (elapsed st <? 4000) with true by (symmetry; apply Z.ltb_lt; lia).
    destruct (IH (tick st) more) as (H1 & H2 & H3).
    + apply tick_elapsed_nonneg.
    + rewrite tick_elapsed; lia.
    + rewrite <- Nat.iter_succ_r in *. rewrite H1, H2, H3.
      rewrite tick_elapsed by lia. repeat split. lia.
Qed.

Lemma pressing_keeps_open (gaps : list nat) :
  forall st,
    0 <= elapsed st <= 100 -> 0 <= adjustable_index st < 12 ->
    Forall (fun k => (k <= 38)%nat) gaps ->
    finished (threshold_loop (press_after gaps) st) = false
    /\ adjustable_index (state_of (threshold_loop (press_after gaps) st))
       = (adjustable_index st + Z.of_nat (List.length gaps)) mod 12.
Proof.
  induction gaps as [|k gaps IH]; intros st He Hi Hall.
  - cbn [press_after flat_map threshold_loop].
    replace (elapsed st <? 4000) with true by (symmetry; apply Z.ltb_lt; lia).
    cbn. rewrite Z.add_0_r, Z.mod_small by lia. auto.
  - apply Forall_cons_iff in Hall. destruct Hall as [Hk Hall].
    unfold press_after. cbn [flat_map]. fold (press_after gaps).
    rewrite <- app_assoc.
    destruct (idle_polls_continue k st ([true] ++ press_after gaps))
      as (H1 & H2 & H3); [lia|lia|].
    rewrite H1. cbn [app threshold_loop].
    replace (elapsed (Nat.iter k tick st) <? 4000) with true
      by (symmetry; apply Z.ltb_lt; lia).
    destruct (IH (tick (on_press (Nat.iter k tick st)))) as [Hf Hidx];
      try assumption.
    + rewrite tick_elapsed; change (elapsed (on_press ?s)) with 0; lia.
    + change (adjustable_index (tick (on_press ?s)))
        with (Z.rem (adjustable_index s + 1) total_thresholds).
      rewrite H3. apply next_index_in_range, Hi.
    + split; [exact Hf|]. rewrite Hidx.
      change (adjustable_index (tick (on_press ?s)))
        with (Z.rem (adjustable_index s + 1) total_thresholds).
      rewrite H3, total_thresholds_12, Z.rem_mod_nonneg by lia.
      rewrite Zplus_mod_idemp_l. f_equal. cbn [List.length]. lia.
Qed.

(** X3: the selection does not end while the operator keeps pressing: as
    long as each press comes after at most 38 polls without one (39 before
    the first press), every press is sampled, the loop is still running
    after the last of them, and the index has advanced once per press. *)
Theorem selection_stays_open_while_pressed :
  forall (first : nat) (gaps : list nat) (boot : State),
    (first <= 39)%nat -> Forall (fun k => (k <= 38)%nat) gaps ->
    finished (threshold_loop (press_after (first :: gaps)) (startup boot))
    = false
    /\ adjustable_index
         (state_of (threshold_loop (press_after (first :: gaps)) (startup boot)))
       = Z.of_nat (S (List.length gaps)) mod 12.
Proof.
  intros first gaps boot Hf Hall.
  unfold press_after. cbn [flat_map]. fold (press_after gaps).
  rewrite <- app_assoc.
  destruct (idle_polls_continue first (startup boot) ([true] ++ press_after gaps))
    as (H1 & H2 & H3).
  { cbn. lia. }
  { change (elapsed (startup boot)) with 0. lia. }
  rewrite H1. cbn [app threshold_loop].
  change (elapsed (startup boot)) with 0 in H2.
  change (adjustable_index (startup boot)) with 0 in H3.
  replace (elapsed (Nat.iter first tick (startup boot)) <? 4000) with true
    by (symmetry; apply Z.ltb_lt; lia).
  destruct (pressing_keeps_open gaps
              (tick (on_press (Nat.iter first tick (startup boot)))))
    as [Hfin Hidx]; try assumption.
  - rewrite tick_elapsed; change (elapsed (on_press ?s)) with 0; lia.
  - change (adjustable_index (tick (on_press ?s)))
      with (Z.rem (adjustable_index s + 1) total_thresholds).
    rewrite H3. apply next_index_in_range. lia.
  - split; [exact Hfin|]. rewrite Hidx.
    change (adjustable_index (tick (on_press ?s)))
      with (Z.rem (adjustable_index s + 1) total_thresholds).
    rewrite H3, total_thresholds_12, Z.rem_mod_nonneg by lia.
    rewrite Zplus_mod_idemp_l. f_equal. lia.
Qed.

Lemma selection_stays_open_while_pressed_witness :
  ((39 <= 39)%nat /\ Forall (fun k => (k <= 38)%nat) [38; 0; 38]%nat)
  /\ finished (threshold_loop (press_after [39; 38; 0; 38]%nat) (startup boot64))
     = false.
Proof.
  assert (H : (39 <= 39)%nat /\ Forall (fun k => (k <= 38)%nat) [38; 0; 38]%nat).
  { split; [lia|]. repeat constructor; lia. }
  split; [exact H|]. destruct H as [H1 H2].
  destruct (selection_stays_open_while_pressed 39 [38; 0; 38]%nat boot64 H1 H2)
    as [Hf _].
  exact Hf.
Defined.

Lemma delay_total_app (a b : list call) :
  delay_total (a ++ b) = delay_total a + delay_total b.
Proof.
  induction a as [|e a IH]; [reflexivity|].
  destruct e; cbn [app delay_total]; rewrite IH; lia.
Qed.

Lemma tick_delay (st : State) :
  delay_total (calls (tick st)) = delay_total (calls st) + 100.
Proof.
  change (calls (tick st)) with (calls st ++ [Ev_DelayMs 100]).
  rewrite delay_total_app. reflexivity.
Qed.

Lemma on_press_delay (st : State) :
  delay_total (calls (on_press st)) = delay_total (calls st) + 300.
Proof.
  change (calls (on_press st))
    with ((((calls st ++ [Ev_LCD_Set_Cursor 0 1])
            ++ [Ev_LCD_Display_String
                  (threshold_text
                     (Z.rem (adjustable_index st + 1) total_thresholds))])
           ++ [Ev_DelayMs 300])).
  rewrite !delay_total_app. cbn [delay_total]. lia.
Qed.

Lemma threshold_loop_delay (polls : list bool) :
  forall st,
    exists seen,
      polls = seen ++ unused (threshold_loop polls st)
      /\ delay_total (calls (state_of (threshold_loop polls st)))
         = delay_total (calls st)
           + 100 * Z.of_nat (List.length seen) + 300 * presses seen.
Proof.
  induction polls as [|b polls IH]; intros st; cbn [threshold_loop];
    destruct (elapsed st <? 4000);
    try (exists []; cbn [app unused state_of List.length]; split;
         [reflexivity|unfold presses; cbn; lia]).
  destruct (IH (tick (if b then on_press st else st))) as (seen & Hsplit & Hd).
  exists (b :: seen). split.
  - cbn [app]. now rewrite <- Hsplit.
  - rewrite Hd, tick_delay, presses_cons. cbn [List.length].
    rewrite Nat2Z.inj_succ.
    destruct b; [rewrite on_press_delay|]; lia.
Qed.

(** X4: the time the selection loop spends in [DelayMs]: 100 ms for each
    poll of the button it makes and 300 ms more for each press, whatever the
    polls are; the start-up before the loop waits for nothing. *)
Theorem selection_delay_accounting :
  forall (polls : list bool) (boot : State),
    exists seen,
      polls = seen ++ unused (threshold_loop polls (startup boot))
      /\ delay_total (calls (state_of (threshold_loop polls (startup boot))))
         = delay_total (calls boot)
           + 100 * Z.of_nat (List.length seen) + 300 * presses seen.
Proof.
  intros polls boot.
  destruct (threshold_loop_delay polls (startup boot)) as (seen & Hsplit & Hd).
  exists seen. split; [exact Hsplit|]. rewrite Hd. f_equal. f_equal.
  change (calls (startup boot))
    with (((((((((((calls boot ++ [Ev_PushButton_Init]) ++ [Ev_RGB_LED_Init])
                  ++ [Ev_Buzzer_Init]) ++ [Ev_LCD_Init]) ++ [Ev_UART1_Init])
               ++ [Ev_LCD_Clear]) ++ [Ev_LCD_Set_Cursor 0 0])
             ++ [Ev_LCD_Display_String "Set min val:"])
            ++ [Ev_LCD_Set_Cursor 0 1])
           ++ [Ev_LCD_Display_String (threshold_text 0)])).
  rewrite !delay_total_app. cbn [delay_total]. lia.
Qed.

(** ** The display during the selection *)

Lemma threshold_text_length (i : Z) :
  0 <= i < 12 -> String.length (threshold_text i) = 8%nat.
Proof.
  intros H.
  assert (E : i = 0 \/ i = 1 \/ i = 2 \/ i = 3 \/ i = 4 \/ i = 5 \/ i = 6
              \/ i = 7 \/ i = 8 \/ i = 9 \/ i = 10 \/ i = 11) by lia.
  repeat (destruct E as [->|E]; [reflexivity|]).
  subst i. reflexivity.
Qed.

(** [threshStr] holds 17 bytes, more than the text of any entry needs. *)
Lemma threshold_text_fits (i : Z) :
  0 <= i < 12 -> fits 17 (threshold_text i) = true.
Proof.
  intros H. apply fits_spec. rewrite threshold_text_length by exact H. lia.
Qed.

Lemma drop_all (s : string) :
  forall n, (String.length s <= n)%nat -> Board.drop n s = "".
Proof.
  induction s as [|c s IH]; intros n H.
  - now destruct n.
  - destruct n as [|n]; cbn [String.length] in H; [lia|].
    cbn [Board.drop]. apply IH. lia.
Qed.

Lemma overlay_covers (s row : string) :
  (String.length row <= String.length s)%nat -> Board.overlay 0 s row = s.
Proof.
  intros H. cbn [Board.overlay]. rewrite drop_all by lia. apply append_empty.
Qed.

Lemma show_threshold_eq (st : State) :
  show_threshold st
  = mkState (uart_buffer st) (index st) (price st) (change st) (line2 st)
      (adjustable_index st) (threshold_text (adjustable_index st)) (elapsed st)
      (local_threshold st) (alarmStopped st) (GPIOD_DATA st) (buzzer st)
      (Board.display (threshold_text (adjustable_index st))
         (Board.set_cursor 0 1 (lcd st)))
      (calls st
       ++ [Ev_LCD_Set_Cursor 0 1;
           Ev_LCD_Display_String (threshold_text (adjustable_index st))]).
Proof.
  unfold show_threshold. run_calls st. rewrite <- app_assoc. reflexivity.
Qed.

Lemma on_press_eq (st : State) :
  on_press st
  = set_elapsed 0
      (log (Ev_DelayMs 300)
         (show_threshold
            (set_adjustable_index
               (Z.rem (adjustable_index st + 1) total_thresholds) st))).
Proof.
  unfold on_press. destruct st. reflexivity.
Qed.

Lemma tick_eq (st : State) :
  tick st = set_elapsed ((elapsed st + 100) mod 2 ^ 32) (log (Ev_DelayMs 100) st).
Proof. reflexivity. Qed.

Lemma menu_shown_wait (v ms : Z) (st : State) :
  menu_shown st -> menu_shown (set_elapsed v (log (Ev_DelayMs ms) st)).
Proof. exact (fun H => H). Qed.

Lemma show_threshold_shown (st : State) :
  0 <= adjustable_index st < 12 ->
  Board.row0 (lcd st) = "Set min val:" ->
  (String.length (Board.row1 (lcd st)) <= 8)%nat ->
  menu_shown (show_threshold st).
Proof.
  intros Hi H0 H1. rewrite show_threshold_eq. unfold menu_shown.
  cbn [adjustable_index threshStr lcd].
  unfold Board.display, Board.set_cursor.
  cbn [Board.cur_row Board.cur_col Board.row0 Board.row1 Z.eqb Z.to_nat].
  rewrite overlay_covers by (rewrite threshold_text_length by exact Hi; exact H1).
  rewrite clip_short
    by (rewrite threshold_text_length by exact Hi; unfold Board.COLUMNS; lia).
  auto.
Qed.

Lemma on_press_shown (st : State) : menu_shown st -> menu_shown (on_press st).
Proof.
  intros (Hi & Hs & H0 & H1). rewrite on_press_eq.
  apply menu_shown_wait, show_threshold_shown.
  - apply next_index_in_range, Hi.
  - exact H0.
  - cbn [lcd set_adjustable_index].
    rewrite H1, Hs, threshold_text_length by exact Hi. lia.
Qed.

Lemma tick_shown (st : State) : menu_shown st -> menu_shown (tick st).
Proof.
  rewrite tick_eq. apply menu_shown_wait.
Qed.

Lemma threshold_loop_shown (polls : list bool) :
  forall st, menu_shown st -> menu_shown (state_of (threshold_loop polls st)).
Proof.
  induction polls as [|b polls IH]; intros st H; cbn [threshold_loop];
    destruct (elapsed st <? 4000); try exact H.
  apply IH, tick_shown. destruct b; [apply on_press_shown|]; exact H.
Qed.

Lemma startup_shown (boot : State) : menu_shown (startup boot).
Proof.
  unfold startup. apply show_threshold_shown.
  - cbn [adjustable_index LCD_Display_String LCD_Set_Cursor LCD_Clear UART1_Init
           LCD_Init Buzzer_Init RGB_LED_Init PushButton_Init log set_lcd
           set_elapsed set_threshStr set_adjustable_index]. lia.
  - reflexivity.
  - cbn [lcd LCD_Display_String LCD_Set_Cursor LCD_Clear log set_lcd
           Board.display Board.set_cursor Board.clear Board.cur_row
           Board.cur_col Board.row0 Board.row1 Z.eqb String.length]. lia.
Qed.

(** X5: all through the selection, whatever the polls, row 1 of the display
    reads "Set min val:" and row 2 is the text of the entry selected at that
    moment, "$" and the value padded to 7 columns: every entry of the menu
    makes 8 characters, so a redraw leaves nothing of the text before. *)
Theorem selection_display_shows_selected_entry :
  forall (polls : list bool) (boot : State),
    Board.row0 (lcd (state_of (threshold_loop polls (startup boot))))
    = "Set min val:"
    /\ Board.row1 (lcd (state_of (threshold_loop polls (startup boot))))
       = threshold_text
           (adjustable_index (state_of (threshold_loop polls (startup boot))))
    /\ String.length
         (Board.row1 (lcd (state_of (threshold_loop polls (startup boot)))))
       = 8%nat.
Proof.
  intros polls boot.
  destruct (threshold_loop_shown polls (startup boot) (startup_shown boot))
    as (Hi & Hs & H0 & H1).
  split; [exact H0|]. rewrite H1, Hs.
  split; [reflexivity|]. apply threshold_text_length, Hi.
Qed.

(** ** The main loop: lines at the edges *)

Lemma empty_buffer_fails (st : State) : index st = 0 -> parses st = false.
Proof.
  intros H. unfold parses, line_text, gathered. rewrite H.
  change (Z.to_nat 0) with 0%nat. cbn [firstn Stdio.cstring]. reflexivity.
Qed.

Lemma main_iteration_idle (B : Z) (c : ascii) (polls : list bool) (st : State) :
  framed B st -> line_ends B c st = true -> parses st = false ->
  exists st',
    main_iteration B c polls st = Done st' polls
    /\ lcd st' = Board.mkLCD 10 0 "Loading..." ""
    /\ buzzer st' = false
    /\ calls st'
       = calls st
         ++ mismatch_calls (Z.land (GPIOD_DATA st) (Z.lnot 3 mod 2 ^ 32))
    /\ index st' = 0
    /\ local_threshold st' = local_threshold st
    /\ alarmStopped st' = alarmStopped st.
Proof.
  intros Hfr Hend Hp.
  destruct (main_iteration_mismatch B c polls st Hfr Hend Hp)
    as (buf & got & Hlen & ->).
  rewrite on_mismatch_eq. eexists. split; [reflexivity|].
  cbn [lcd buzzer calls index set_index local_threshold alarmStopped].
  destruct got as [|p [|ch got]]; repeat split.
Qed.

(** X6: a line feed or carriage return that arrives while the buffer is
    empty is an empty line, which [sscanf] does not convert: the display
    goes to "Loading..." and the buzzer off.  So when lines end in CR LF,
    the LF wipes what the line before it CR has just put on the display,
    whatever that line was. *)
Theorem empty_line_goes_idle :
  forall (B : Z) (c : ascii) (l : list ascii) (polls : list bool) (st : State),
    1 <= B <= 256 -> framed B st -> index st = 0 ->
    c = Stdio.LF \/ c = Stdio.CR ->
    (exists st',
        main_iteration B c polls st = Done st' polls
        /\ lcd st' = Board.mkLCD 10 0 "Loading..." ""
        /\ buzzer st' = false
        /\ calls st'
           = calls st
             ++ mismatch_calls (Z.land (GPIOD_DATA st) (Z.lnot 3 mod 2 ^ 32)))
    /\ (Forall plain l -> Z.of_nat (List.length l) <= B - 1 ->
        finished (main_loop B (l ++ [Stdio.CR]) polls st) = true ->
        finished (main_loop B (l ++ [Stdio.CR; Stdio.LF]) polls st) = true
        /\ lcd (state_of (main_loop B (l ++ [Stdio.CR; Stdio.LF]) polls st))
           = Board.mkLCD 10 0 "Loading..." "").
Proof.
  intros B c l polls st HB Hfr Hi0 Hc. split.
  - destruct (main_iteration_idle B c polls st Hfr) as (st' & H1 & H2 & H3 & H4 & _).
    + apply line_ends_spec. tauto.
    + apply empty_buffer_fails, Hi0.
    + exists st'. auto.
  - intros Hpl Hroom Hfin.
    change (l ++ [Stdio.CR; Stdio.LF]) with (l ++ [Stdio.CR] ++ [Stdio.LF]).
    rewrite app_assoc, main_loop_app.
    destruct (main_loop_framed B (l ++ [Stdio.CR]) polls st HB Hfr)
      as (_ & _ & Hfr1).
    destruct (feed_line B l Stdio.CR polls st) as (buf & _ & _ & Hrun);
      try assumption; [now right|].
    rewrite Hrun in *.
    destruct (on_line polls _) as [s p|s|s]; cbn [bind finished state_of] in *;
      try discriminate Hfin.
    cbn [main_loop].
    destruct (main_iteration_idle B Stdio.LF p (set_index 0 s) Hfr1)
      as (st' & -> & Hlcd & _).
    + apply line_ends_spec. now left.
    + apply empty_buffer_fails. reflexivity.
    + cbn [bind finished state_of]. auto.
Qed.

Lemma empty_line_goes_idle_witness :
  (1 <= 64 <= 256 /\ framed 64 (armed64 0) /\ index (armed64 0) = 0
   /\ (Stdio.LF = Stdio.LF \/ Stdio.LF = Stdio.CR))
  /\ exists st',
       main_iteration 64 Stdio.LF [] (armed64 0) = Done st' []
       /\ lcd st' = Board.mkLCD 10 0 "Loading..." "".
Proof.
  assert (H : 1 <= 64 <= 256 /\ framed 64 (armed64 0) /\ index (armed64 0) = 0
              /\ (Stdio.LF = Stdio.LF \/ Stdio.LF = Stdio.CR)).
  { split; [lia|]. split; [split; [reflexivity|cbn; lia]|].
    split; [reflexivity|now left]. }
  split; [exact H|]. destruct H as (HB & Hfr & Hi0 & Hc).
  destruct (empty_line_goes_idle 64 Stdio.LF [] [] (armed64 0) HB Hfr Hi0 Hc)
    as ((st' & Hrun & Hlcd & _) & _).
  exists st'. split; assumption.
Defined.

(** X7: the byte that arrives when the buffer is full ends the line and
    is itself thrown away: after [BUFFER_SIZE - 1] bytes without a line end,
    the run is the same whatever the next byte is. *)
Theorem forced_flush_drops_byte :
  forall (B : Z) (l rest : list ascii) (c1 c2 : ascii) (polls : list bool)
         (st : State),
    1 <= B <= 256 -> framed B st -> index st = 0 -> Forall plain l ->
    Z.of_nat (List.length l) = B - 1 ->
    main_loop B (l ++ c1 :: rest) polls st
    = main_loop B (l ++ c2 :: rest) polls st.
Proof.
  intros B l rest c1 c2 polls st HB Hfr Hi0 Hpl Hlen.
  rewrite !main_loop_app.
  destruct (feed_plain B l polls st) as (buf & _ & _ & ->);
    try assumption; try lia.
  cbn [bind main_loop]. f_equal.
  unfold main_iteration.
  replace (line_ends B c1 _) with true
    by (symmetry; apply line_ends_spec; right; right; cbn [index set_index]; lia).
  replace (line_ends B c2 _) with true
    by (symmetry; apply line_ends_spec; right; right; cbn [index set_index]; lia).
  reflexivity.
Qed.

Lemma forced_flush_drops_byte_witness :
  (1 <= 4 <= 256
   /\ framed 4 (set_uart_buffer (repeat "x"%char 4) (armed64 0))
   /\ index (set_uart_buffer (repeat "x"%char 4) (armed64 0)) = 0
   /\ Forall plain (list_ascii_of_string "abc")
   /\ Z.of_nat (List.length (list_ascii_of_string "abc")) = 4 - 1)
  /\ main_loop 4 (list_ascii_of_string "abc" ++ "d"%char :: [])
       [] (set_uart_buffer (repeat "x"%char 4) (armed64 0))
     = main_loop 4 (list_ascii_of_string "abc" ++ Stdio.LF :: [])
         [] (set_uart_buffer (repeat "x"%char 4) (armed64 0)).
Proof.
  assert (H : 1 <= 4 <= 256
              /\ framed 4 (set_uart_buffer (repeat "x"%char 4) (armed64 0))
              /\ index (set_uart_buffer (repeat "x"%char 4) (armed64 0)) = 0
              /\ Forall plain (list_ascii_of_string "abc")
              /\ Z.of_nat (List.length (list_ascii_of_string "abc")) = 4 - 1).
  { split; [lia|]. split; [split; [reflexivity|cbn; lia]|].
    split; [reflexivity|]. split; [|reflexivity].
    repeat (constructor; [split; discriminate|]). constructor. }
  split; [exact H|]. destruct H as (HB & Hfr & Hi0 & Hpl & Hlen).
  exact (forced_flush_drops_byte 4 (list_ascii_of_string "abc") []
           "d"%char Stdio.LF [] _ HB Hfr Hi0 Hpl Hlen).
Defined.

(** X8: a NUL byte inside a line cuts it: the bytes stored behind it are
    in the buffer but [sscanf] reads the text in front of it only, so
    whether the line parses is decided by that text. *)
Theorem nul_byte_cuts_line :
  forall (B : Z) (l1 l2 : list ascii) (polls : list bool) (st : State),
    1 <= B <= 256 -> framed B st -> index st = 0 ->
    Forall plain l1 -> Forall plain l2 ->
    Z.of_nat (List.length (l1 ++ Stdio.NUL :: l2)) <= B - 1 ->
    exists st',
      main_loop B (l1 ++ Stdio.NUL :: l2) polls st = Done st' polls
      /\ gathered st' = l1 ++ Stdio.NUL :: l2
      /\ line_text st' = Stdio.cstring l1
      /\ parses st' = (fst (Stdio.sscanf (Stdio.cstring l1) FORMAT) =? 2).
Proof.
  intros B l1 l2 polls st HB Hfr Hi0 Hp1 Hp2 Hroom.
  destruct (feed_plain B (l1 ++ Stdio.NUL :: l2) polls st)
    as (buf & Hlen & Hpre & ->); try assumption; try lia.
  { apply Forall_app. split; [exact Hp1|].
    constructor; [split; discriminate|exact Hp2]. }
  eexists. split; [reflexivity|].
  assert (Hg : gathered
                 (set_index
                    (index st + Z.of_nat (List.length (l1 ++ Stdio.NUL :: l2)))
                    (set_uart_buffer buf st))
               = l1 ++ Stdio.NUL :: l2).
  { unfold gathered in *. cbn [index set_index uart_buffer set_uart_buffer].
    rewrite Hi0 in *. cbn [Z.to_nat Nat.add firstn app] in Hpre.
    rewrite Z.add_0_l, Nat2Z.id. exact Hpre. }
  split; [exact Hg|].
  assert (Ht : line_text
                 (set_index
                    (index st + Z.of_nat (List.length (l1 ++ Stdio.NUL :: l2)))
                    (set_uart_buffer buf st))
               = Stdio.cstring l1).
  { unfold line_text. rewrite Hg. apply cstring_before_NUL. }
  split; [exact Ht|]. unfold parses. rewrite Ht. reflexivity.
Qed.

Lemma nul_byte_cuts_line_witness :
  (1 <= 64 <= 256 /\ framed 64 (armed64 0) /\ index (armed64 0) = 0
   /\ Forall plain sample_text /\ Forall plain (list_ascii_of_string "junk")
   /\ Z.of_nat (List.length
                  (sample_text ++ Stdio.NUL :: list_ascii_of_string "junk"))
      <= 64 - 1)
  /\ exists st',
       main_loop 64 (sample_text ++ Stdio.NUL :: list_ascii_of_string "junk")
         [] (armed64 0) = Done st' []
       /\ line_text st' = Stdio.cstring sample_text.
Proof.
  assert (H : 1 <= 64 <= 256 /\ framed 64 (armed64 0) /\ index (armed64 0) = 0
              /\ Forall plain sample_text
              /\ Forall plain (list_ascii_of_string "junk")
              /\ Z.of_nat (List.length
                             (sample_text
                              ++ Stdio.NUL :: list_ascii_of_string "junk"))
                 <= 64 - 1).
  { split; [lia|]. split; [split; [reflexivity|cbn; lia]|].
    split; [reflexivity|]. split; [exact sample_text_plain|].
    split; [|cbn; lia].
    repeat (constructor; [split; discriminate|]). constructor. }
  split; [exact H|]. destruct H as (HB & Hfr & Hi0 & Hp1 & Hp2 & Hroom).
  destruct (nul_byte_cuts_line 64 sample_text (list_ascii_of_string "junk") []
              (armed64 0) HB Hfr Hi0 Hp1 Hp2 Hroom)
    as (st' & Hrun & _ & Ht & _).
  exists st'. split; assumption.
Defined.

(** ** Where the loop can wait *)

Lemma on_update_starved (polls : list bool) (st s : State) :
  on_update polls st = Starved s ->
  C32.ltb (price s) (local_threshold s) = true
  /\ Forall (fun b => b = false) polls
  /\ alarmStopped s = alarmStopped st
  /\ index s = index st.
Proof.
  intros H.
  destruct (on_update_cases polls st)
    as [(_ & E)|[(_ & _ & E)|[(_ & _ & k & rest & _ & E)|(_ & Hlt & k & -> & E)]]];
    rewrite E in H; try discriminate H.
  assert (Hs : s = alarm_turns k (thousands_of (price st))
                     (remainder_of (price st))
                     (set_line2 (update_text (price st) (change st)) st))
    by congruence.
  subst s. rewrite alarm_turns_eq.
  cbn [price local_threshold alarmStopped index set_line2].
  split; [exact Hlt|]. split; [|split; reflexivity].
  apply Forall_forall. intros b Hb. now apply repeat_spec in Hb.
Qed.

Lemma main_iteration_starved (B : Z) (c : ascii) (polls : list bool)
      (st s : State) :
  main_iteration B c polls st = Starved s ->
  C32.ltb (price s) (local_threshold s) = true
  /\ Forall (fun b => b = false) polls
  /\ index s = index st.
Proof.
  unfold main_iteration.
  destruct (line_ends B c st).
  - destruct (store (uart_buffer st) (index st) Stdio.NUL) as [buf|];
      [|discriminate].
    unfold on_line.
    destruct (Stdio.sscanf _ FORMAT) as [n got].
    destruct (n =? 2); [|discriminate].
    destruct (on_update polls (assign got (set_uart_buffer buf st)))
      as [s1 p1|s1|s1 a1] eqn:E; cbn [bind]; try discriminate.
    intros H. assert (Hs : s1 = s) by congruence. subst s1.
    apply on_update_starved in E. destruct E as (H1 & H2 & _ & H4).
    split; [exact H1|]. split; [exact H2|]. rewrite H4.
    destruct (assign_frame got (set_uart_buffer buf st)) as (_ & Hi & _).
    exact Hi.
  - destruct (store (uart_buffer st) (index st) c); discriminate.
Qed.

(** X9: the only place where the main loop waits for the button is the
    alarm loop.  A run that stops short of its bytes for want of a button
    answer is inside the alarm loop of a line whose price is below the
    threshold. *)
Theorem main_loop_waits_only_in_alarm :
  forall (B : Z) (bytes : list ascii) (polls : list bool) (st s : State),
    main_loop B bytes polls st = Starved s ->
    C32.ltb (price s) (local_threshold s) = true.
Proof.
  intros B bytes. induction bytes as [|c bytes IH]; intros polls st s H.
  - discriminate H.
  - cbn [main_loop] in H.
    destruct (main_iteration B c polls st) as [s1 p1|s1|s1 a1] eqn:E;
      cbn [bind] in *; try discriminate H.
    + exact (IH p1 s1 s H).
    + assert (Hs : s1 = s) by congruence. subst s1.
      apply main_iteration_starved in E. tauto.
Qed.

Lemma main_loop_waits_only_in_alarm_witness :
  main_loop 64 (sample_text ++ [Stdio.LF]) [false; false] (armed64 0)
  = Starved (state_of (main_loop 64 (sample_text ++ [Stdio.LF]) [false; false]
                         (armed64 0)))
  /\ C32.ltb
       (price (state_of (main_loop 64 (sample_text ++ [Stdio.LF]) [false; false]
                           (armed64 0))))
       (local_threshold
          (state_of (main_loop 64 (sample_text ++ [Stdio.LF]) [false; false]
                       (armed64 0)))) = true.
Proof.
  assert (E : main_loop 64 (sample_text ++ [Stdio.LF]) [false; false] (armed64 0)
              = Starved (state_of (main_loop 64 (sample_text ++ [Stdio.LF])
                                     [false; false] (armed64 0))))
    by (vm_compute; reflexivity).
  split; [exact E|].
  exact (main_loop_waits_only_in_alarm _ _ _ _ _ E).
Defined.

(** ** Nothing is carried from one line to the next *)

Lemma scrub_set (s1 s2 : State) :
  scrub s1 = scrub s2 ->
  s2 = set_line2 (line2 s2) (set_change (change s2) (set_price (price s2) s1)).
Proof.
  destruct s1, s2. unfold scrub, set_line2, set_change, set_price. cbn.
  intros H. injection H as <- <- <- <- <- <- <- <- <- <- <-.
  reflexivity.
Qed.

Lemma on_update_line2 (v : string) (polls : list bool) (st : State) :
  scratch_alike (on_update polls st) (on_update polls (set_line2 v st)).
Proof.
  unfold scratch_alike, on_update. destruct st.
  cbn [price change set_line2].
  match goal with
  | |- context [if fits 17 ?t then _ else _] => destruct (fits 17 t)
  end; reflexivity.
Qed.

Lemma on_line_scratch (p c : float) (l : string) (polls : list bool)
      (st : State) :
  scratch_alike (on_line polls st)
    (on_line polls (set_line2 l (set_change c (set_price p st)))).
Proof.
  unfold on_line.
  change (uart_buffer (set_line2 l (set_change c (set_price p st))))
    with (uart_buffer st).
  destruct (Stdio.sscanf (Stdio.cstring (uart_buffer st)) FORMAT) as [n got] eqn:E.
  destruct (n =? 2) eqn:En.
  - apply Z.eqb_eq in En.
    destruct (sscanf_two (Stdio.cstring (uart_buffer st)) FORMAT) as (p' & c' & E').
    { rewrite E. exact En. }
    assert (Hg : got = [p'; c']) by congruence. subst got.
    replace (assign [p'; c'] (set_line2 l (set_change c (set_price p st))))
      with (set_line2 l (assign [p'; c'] st)) by (destruct st; reflexivity).
    apply on_update_line2.
  - unfold scratch_alike. cbn [map_outcome]. f_equal.
    rewrite !on_mismatch_eq.
    destruct got as [|a [|b got]]; destruct st; reflexivity.
Qed.

Lemma main_iteration_scratch (B : Z) (p c : float) (l : string) (b : ascii)
      (polls : list bool) (st : State) :
  scratch_alike (main_iteration B b polls st)
    (main_iteration B b polls (set_line2 l (set_change c (set_price p st)))).
Proof.
  unfold main_iteration.
  change (line_ends B b (set_line2 l (set_change c (set_price p st))))
    with (line_ends B b st).
  change (uart_buffer (set_line2 l (set_change c (set_price p st))))
    with (uart_buffer st).
  change (index (set_line2 l (set_change c (set_price p st)))) with (index st).
  destruct (line_ends B b st).
  - destruct (store (uart_buffer st) (index st) Stdio.NUL) as [buf|];
      [|reflexivity].
    pose proof (on_line_scratch p c l polls (set_uart_buffer buf st)) as H.
    change (set_uart_buffer buf (set_line2 l (set_change c (set_price p st))))
      with (set_line2 l (set_change c (set_price p (set_uart_buffer buf st)))).
    unfold scratch_alike in *.
    destruct (on_line polls (set_uart_buffer buf st)) as [t1 p1|t1|t1],
             (on_line polls
                (set_line2 l (set_change c (set_price p (set_uart_buffer buf st)))))
               as [t2 p2|t2|t2];
      cbn [map_outcome bind] in *; try discriminate H; try exact H.
    assert (Hp : p1 = p2) by congruence.
    assert (Hs : scrub t1 = scrub t2) by congruence.
    rewrite Hp. f_equal.
    apply (f_equal (set_index 0)) in Hs. exact Hs.
  - destruct (store (uart_buffer st) (index st) b); reflexivity.
Qed.

Lemma main_loop_scratch (B : Z) (bytes : list ascii) :
  forall polls s1 s2,
    scrub s1 = scrub s2 ->
    scratch_alike (main_loop B bytes polls s1) (main_loop B bytes polls s2).
Proof.
  induction bytes as [|b bytes IH]; intros polls s1 s2 H.
  - unfold scratch_alike. cbn [main_loop map_outcome]. f_equal. exact H.
  - cbn [main_loop]. rewrite (scrub_set s1 s2 H).
    pose proof (main_iteration_scratch B (price s2) (change s2) (line2 s2)
                  b polls s1) as Hstep.
    destruct (main_iteration B b polls s1) as [t1 p1|t1|t1],
             (main_iteration B b polls
                (set_line2 (line2 s2)
                   (set_change (change s2) (set_price (price s2) s1))))
               as [t2 p2|t2|t2];
      unfold scratch_alike in Hstep; cbn [map_outcome bind] in *;
      try discriminate Hstep; try exact Hstep.
    assert (Hp : p1 = p2) by congruence.
    assert (Hs : scrub t1 = scrub t2) by congruence.
    rewrite Hp. apply IH. exact Hs.
Qed.

(** X10: [price], [change] and [line2] carry nothing from one line to the
    next.  Runs of the main loop from states that differ at most in these
    three, on the same bytes and polls, make the same calls, leave the same
    display, LED port, buzzer, [alarmStopped] and buffer, and stop the same
    way: a line that fails after [sscanf] has stored a price, or a value
    left by an earlier line, never reaches the display. *)
Theorem scratch_locals_carry_nothing :
  forall (B : Z) (bytes : list ascii) (polls : list bool) (s1 s2 : State),
    scrub s1 = scrub s2 ->
    calls (state_of (main_loop B bytes polls s1))
    = calls (state_of (main_loop B bytes polls s2))
    /\ lcd (state_of (main_loop B bytes polls s1))
       = lcd (state_of (main_loop B bytes polls s2))
    /\ GPIOD_DATA (state_of (main_loop B bytes polls s1))
       = GPIOD_DATA (state_of (main_loop B bytes polls s2))
    /\ buzzer (state_of (main_loop B bytes polls s1))
       = buzzer (state_of (main_loop B bytes polls s2))
    /\ alarmStopped (state_of (main_loop B bytes polls s1))
       = alarmStopped (state_of (main_loop B bytes polls s2))
    /\ uart_buffer (state_of (main_loop B bytes polls s1))
       = uart_buffer (state_of (main_loop B bytes polls s2))
    /\ index (state_of (main_loop B bytes polls s1))
       = index (state_of (main_loop B bytes polls s2))
    /\ unused (main_loop B bytes polls s1) = unused (main_loop B bytes polls s2)
    /\ finished (main_loop B bytes polls s1)
       = finished (main_loop B bytes polls s2).
Proof.
  intros B bytes polls s1 s2 H.
  pose proof (main_loop_scratch B bytes polls s1 s2 H) as Ha.
  unfold scratch_alike in Ha.
  assert (Hs : scrub (state_of (main_loop B bytes polls s1))
               = scrub (state_of (main_loop B bytes polls s2))
               /\ unused (main_loop B bytes polls s1)
                  = unused (main_loop B bytes polls s2)
               /\ finished (main_loop B bytes polls s1)
                  = finished (main_loop B bytes polls s2)).
  { destruct (main_loop B bytes polls s1) as [t1 p1|t1|t1],
             (main_loop B bytes polls s2) as [t2 p2|t2|t2];
      cbn [map_outcome state_of unused finished] in *; try discriminate Ha;
      repeat split; congruence. }
  destruct Hs as (Hs & Hu & Hf).
  repeat split; try assumption.
  - apply (f_equal calls) in Hs. exact Hs.
  - apply (f_equal lcd) in Hs. exact Hs.
  - apply (f_equal GPIOD_DATA) in Hs. exact Hs.
  - apply (f_equal buzzer) in Hs. exact Hs.
  - apply (f_equal alarmStopped) in Hs. exact Hs.
  - apply (f_equal uart_buffer) in Hs. exact Hs.
  - apply (f_equal index) in Hs. exact Hs.
Qed.

Lemma scratch_locals_carry_nothing_witness :
  scrub (armed64 0)
  = scrub (set_line2 "$1,000  +9.99%"
             (set_change (C32.of_int 9) (set_price (C32.of_int 1000) (armed64 0))))
  /\ calls (state_of (main_loop 64 (line "BTC Price: $80000, soon") []
                        (armed64 0)))
     = calls (state_of (main_loop 64 (line "BTC Price: $80000, soon") []
                          (set_line2 "$1,000  +9.99%"
                             (set_change (C32.of_int 9)
                                (set_price (C32.of_int 1000) (armed64 0)))))).
Proof.
  assert (H : scrub (armed64 0)
              = scrub (set_line2 "$1,000  +9.99%"
                         (set_change (C32.of_int 9)
                            (set_price (C32.of_int 1000) (armed64 0)))))
    by reflexivity.
  split; [exact H|].
  destruct (scratch_locals_carry_nothing 64 (line "BTC Price: $80000, soon") []
              _ _ H) as (Hc & _).
  exact Hc.
Defined.

(** ** What the format of line 129 checks *)

Lemma FORMAT_directives :
  Stdio.directives (list_ascii_of_string FORMAT)
  = Stdio.directives (list_ascii_of_string FORMAT_numbers) ++ [Stdio.D_percent].
Proof. reflexivity. Qed.

Lemma FORMAT_numbers_conversions :
  conversions (Stdio.directives (list_ascii_of_string FORMAT_numbers)) = 2%nat.
Proof. reflexivity. Qed.

(** A [%%] at the end of a format changes neither the values stored nor,
    when the directives before it fail, the way they fail. *)
Lemma scan_percent_last (ds : list Stdio.directive) :
  forall inp got,
    fst (Stdio.scan (ds ++ [Stdio.D_percent]) inp got)
    = fst (Stdio.scan ds inp got)
    /\ (snd (Stdio.scan ds inp got) <> Stdio.Completed ->
        snd (Stdio.scan (ds ++ [Stdio.D_percent]) inp got)
        = snd (Stdio.scan ds inp got)).
Proof.
  induction ds as [|d ds IH]; intros inp got.
  - cbn [app Stdio.scan fst snd]. split; [|congruence].
    destruct (Stdio.skip_ws inp) as [|x inp']; [reflexivity|].
    destruct (Ascii.eqb x "%"%char); reflexivity.
  - destruct d; cbn [app Stdio.scan].
    + apply IH.
    + destruct inp as [|x inp']; [split; reflexivity|].
      destruct (Ascii.eqb x c); [apply IH|split; reflexivity].
    + destruct (Stdio.skip_ws inp) as [|x i1]; [split; reflexivity|].
      destruct (Stdio.read_float (x :: i1)) as [[v rest]|];
        [apply IH|split; reflexivity].
    + destruct (Stdio.skip_ws inp) as [|x inp']; [split; reflexivity|].
      destruct (Ascii.eqb x "%"%char); [apply IH|split; reflexivity].
Qed.

(** Directives that run to their end store one value for each [%f]. *)
Lemma scan_completed_count (ds : list Stdio.directive) :
  forall inp got g,
    Stdio.scan ds inp got = (g, Stdio.Completed) ->
    List.length g = (List.length got + conversions ds)%nat.
Proof.
  induction ds as [|d ds IH]; intros inp got g H.
  - cbn in H. injection H as <-. cbn. lia.
  - destruct d; cbn [Stdio.scan conversions] in *.
    + exact (IH _ _ _ H).
    + destruct inp as [|x inp']; [discriminate H|].
      destruct (Ascii.eqb x c); [exact (IH _ _ _ H)|discriminate H].
    + destruct (Stdio.skip_ws inp) as [|x i1]; [discriminate H|].
      destruct (Stdio.read_float (x :: i1)) as [[v rest]|]; [|discriminate H].
      rewrite (IH _ _ _ H), length_app. cbn [List.length]. lia.
    + destruct (Stdio.skip_ws inp) as [|x inp']; [discriminate H|].
      destruct (Ascii.eqb x "%"%char); [exact (IH _ _ _ H)|discriminate H].
Qed.

(** X11: the [%%] that ends the format of line 129 decides nothing.  For
    every text, [sscanf] returns the same count and the same values with
    and without it: once the second number is read the line counts as
    parsed, whether a percent sign, something else or nothing follows. *)
Theorem trailing_percent_is_not_checked :
  forall s : list ascii,
    Stdio.sscanf s FORMAT = Stdio.sscanf s FORMAT_numbers.
Proof.
  intros s. unfold Stdio.sscanf. rewrite FORMAT_directives.
  pose proof FORMAT_numbers_conversions as Hn.
  set (D := Stdio.directives (list_ascii_of_string FORMAT_numbers)) in *.
  destruct (scan_percent_last D s []) as [H1 H2].
  pose proof (scan_completed_count D s []) as H3.
  destruct (Stdio.scan D s []) as [g e].
  destruct (Stdio.scan (D ++ [Stdio.D_percent]) s []) as [g' e'].
  cbn [fst snd] in *. subst g'.
  destruct e.
  - specialize (H3 g eq_refl). rewrite Hn in H3.
    destruct g as [|a g]; [cbn in H3; lia|reflexivity].
  - rewrite H2 by discriminate. reflexivity.
  - rewrite H2 by discriminate. reflexivity.
Qed.

(** ** The whole program *)

(** A run of the main loop that leaves an array leaves [line2], with the
    text of the price and change it has just parsed. *)
Lemma on_line_fault (polls : list bool) (st s : State) (a : array) :
  on_line polls st = Fault s a ->
  a = Line2 /\ fits 17 (update_text (price s) (change s)) = false.
Proof.
  unfold on_line.
  destruct (Stdio.sscanf (Stdio.cstring (uart_buffer st)) FORMAT) as [n got].
  destruct (n =? 2); [|discriminate].
  destruct (on_update_cases polls (assign got st))
    as [(Hfit & ->)|[(_ & _ & ->)|[(_ & _ & k & rest & _ & ->)|(_ & _ & k & _ & ->)]]];
    intros H; try discriminate H.
  assert (Hs : assign got st = s) by congruence.
  assert (Ha : Line2 = a) by congruence.
  subst s a. split; [reflexivity|exact Hfit].
Qed.

Lemma main_iteration_fault (B : Z) (c : ascii) (polls : list bool)
      (st s : State) (a : array) :
  1 <= B <= 256 -> framed B st ->
  main_iteration B c polls st = Fault s a ->
  a = Line2 /\ fits 17 (update_text (price s) (change s)) = false.
Proof.
  intros HB Hfr. destruct (line_ends B c st) eqn:Hend.
  - destruct (main_iteration_flush B c polls st Hfr Hend) as (buf & _ & _ & ->).
    destruct (on_line polls (set_uart_buffer buf st)) as [s1 p1|s1|s1 a1] eqn:E;
      cbn [bind]; intros H; try discriminate H.
    assert (Hs : s1 = s) by congruence.
    assert (Ha : a1 = a) by congruence.
    subst s1 a1. exact (on_line_fault _ _ _ _ E).
  - destruct (main_iteration_append B c polls st) as (buf & _ & _ & ->);
      try assumption; try lia.
    discriminate.
Qed.

Lemma main_loop_fault (B : Z) (bytes : list ascii) :
  forall polls st s a,
    1 <= B <= 256 -> framed B st ->
    main_loop B bytes polls st = Fault s a ->
    a = Line2 /\ fits 17 (update_text (price s) (change s)) = false.
Proof.
  induction bytes as [|c bytes IH]; intros polls st s a HB Hfr H.
  - discriminate H.
  - cbn [main_loop] in H.
    destruct (main_iteration_framed B c polls st HB Hfr) as (_ & _ & Hfr').
    destruct (main_iteration B c polls st) as [s1 p1|s1|s1 a1] eqn:E;
      cbn [bind state_of] in *; try discriminate H.
    + exact (IH p1 s1 s a HB Hfr' H).
    + assert (Hs : s1 = s) by congruence.
      assert (Ha : a1 = a) by congruence.
      subst s1 a1. exact (main_iteration_fault B c polls st s a HB Hfr E).
Qed.

(** X12: from power-on, with [uart_buffer] of its declared size (1 to 256
    bytes), no run of [main] - start-up, selection and main loop, whatever
    the bytes and the button do - stores outside [uart_buffer] or
    [priceStr], and wherever the run stands the cursor points into the
    buffer.  The one store that can leave its array is the [sprintf] of
    line 135: a run that ends there has parsed a price and a change whose
    text has more than 16 characters. *)
Theorem main_stays_in_bounds :
  forall (B : Z) (bytes : list ascii) (polls : list bool) (boot : State),
    1 <= B <= 256 -> Z.of_nat (List.length (uart_buffer boot)) = B ->
    overran Uart_buffer (main B bytes polls boot) = false
    /\ overran PriceStr (main B bytes polls boot) = false
    /\ Z.of_nat (List.length (uart_buffer (state_of (main B bytes polls boot))))
       = B
    /\ 0 <= index (state_of (main B bytes polls boot)) <= B - 1
    /\ (forall s a,
          main B bytes polls boot = Fault s a ->
          a = Line2
          /\ (16 < String.length (update_text (price s) (change s)))%nat).
Proof.
  intros B bytes polls boot HB Hlen.
  destruct (main_framed B bytes polls boot HB Hlen) as (Hu & Hp & Hl & Hi).
  split; [exact Hu|]. split; [exact Hp|]. split; [exact Hl|].
  split; [exact Hi|].
  intros s a. unfold main, threshold_phase.
  destruct (threshold_loop_buffer polls (startup boot)) as (H1 & H2 & H3).
  change (uart_buffer (startup boot)) with (uart_buffer boot) in H1.
  change (index (startup boot)) with 0 in H2.
  destruct (threshold_loop polls (startup boot)) as [s1 p1|s1|s1 a1];
    cbn [bind faulted state_of] in *; try discriminate H3; try discriminate.
  intros H.
  destruct (main_loop_fault B bytes p1 (lock_threshold s1) s a HB) as [Ha Hfit];
    [|exact H|].
  - split.
    + change (uart_buffer (lock_threshold s1)) with (uart_buffer s1).
      rewrite H1. exact Hlen.
    + change (index (lock_threshold s1)) with (index s1). rewrite H2. lia.
  - split; [exact Ha|].
    unfold fits in Hfit. apply Nat.ltb_ge in Hfit. lia.
Qed.

Lemma main_stays_in_bounds_witness :
  (1 <= 64 <= 256 /\ Z.of_nat (List.length (uart_buffer boot64)) = 64)
  /\ overran Uart_buffer
       (main 64 (repeat "a"%char 64 ++ sample_text ++ [Stdio.LF])
          (repeat false 40) boot64) = false
  /\ index (state_of (main 64 (repeat "a"%char 64 ++ sample_text ++ [Stdio.LF])
                        (repeat false 40) boot64)) <= 64 - 1
  /\ flushes 64 (repeat "a"%char 64 ++ sample_text ++ [Stdio.LF]) []
       (state_of (threshold_phase (repeat false 40) boot64)) = 2%nat
  /\ exists st,
       main 64 (repeat "a"%char 64 ++ sample_text ++ [Stdio.LF])
         (repeat false 40) boot64 = Done st []
       /\ Board.row1 (lcd st) = "$63,250  -1.25%".
Proof.
  assert (H : 1 <= 64 <= 256 /\ Z.of_nat (List.length (uart_buffer boot64)) = 64)
    by (split; [lia|reflexivity]).
  split; [exact H|]. destruct H as [HB Hlen].
  destruct (main_stays_in_bounds 64
              (repeat "a"%char 64 ++ sample_text ++ [Stdio.LF])
              (repeat false 40) boot64 HB Hlen) as (Hu & _ & _ & [_ Hi] & _).
  split; [exact Hu|]. split; [exact Hi|].
  split; [vm_compute; reflexivity|].
  eexists. split; [vm_compute; reflexivity|]. reflexivity.
Defined.

(** X15: a terminated line that parses and whose text for row 2 has more
    than 16 characters: the [sprintf] of line 135 stores past the end of
    [line2], whatever the threshold is.  The two values are in [price] and
    [change]; nothing has been called, shown or polled, and the cursor has
    not been set back. *)
Theorem long_text_ends_the_run :
  forall (B : Z) (c : ascii) (polls : list bool) (st : State)
         (T R : Z) (text : string),
    framed B st -> line_ends B c st = true -> parses st = true ->
    T = Z.quot (C32.to_int (parsed_price st)) 1000 ->
    R = Z.rem (C32.to_int (parsed_price st)) 1000 ->
    text = ("$" ++ Stdio.fmt_d T ++ "," ++ Stdio.fmt_0d 3 R ++ "  "
            ++ Stdio.fmt_plus_2f (parsed_change st) ++ "%")%string ->
    (16 < String.length text)%nat ->
    exists s,
      main_iteration B c polls st = Fault s Line2
      /\ price s = parsed_price st
      /\ change s = parsed_change st
      /\ line2 s = line2 st
      /\ calls s = calls st
      /\ lcd s = lcd st
      /\ GPIOD_DATA s = GPIOD_DATA st
      /\ buzzer s = buzzer st
      /\ alarmStopped s = alarmStopped st
      /\ index s = index st.
Proof.
  intros B c polls st T R text Hfr Hend Hp HT HR Htext Hlen.
  assert (Hut : update_text (parsed_price st) (parsed_change st) = text).
  { unfold update_text, thousands_of, remainder_of.
    rewrite sprintf_line2_pieces, <- HT, <- HR. symmetry. exact Htext. }
  assert (Hfit : fits 17 text = false)
    by (unfold fits; apply Nat.ltb_ge; lia).
  destruct (main_iteration_parsed B c polls st Hfr Hend Hp) as (buf & ->).
  rewrite on_update_overrun.
  2: { cbn [price change set_change set_price]. rewrite Hut. exact Hfit. }
  cbn [bind]. eexists. split; [reflexivity|]. repeat split.
Qed.

Lemma long_text_ends_the_run_witness :
  (framed 64 (holding64 long_text 120000 0)
   /\ line_ends 64 Stdio.LF (holding64 long_text 120000 0) = true
   /\ parses (holding64 long_text 120000 0) = true
   /\ 100 = Z.quot (C32.to_int (parsed_price (holding64 long_text 120000 0)))
              1000
   /\ 0 = Z.rem (C32.to_int (parsed_price (holding64 long_text 120000 0))) 1000
   /\ "$100,000  +10.00%"
      = ("$" ++ Stdio.fmt_d 100 ++ "," ++ Stdio.fmt_0d 3 0 ++ "  "
         ++ Stdio.fmt_plus_2f (parsed_change (holding64 long_text 120000 0))
         ++ "%")%string
   /\ (16 < String.length "$100,000  +10.00%")%nat)
  /\ exists s,
       main_iteration 64 Stdio.LF [false; true] (holding64 long_text 120000 0)
       = Fault s Line2
       /\ calls s = [].
Proof.
  assert (H : framed 64 (holding64 long_text 120000 0)
              /\ line_ends 64 Stdio.LF (holding64 long_text 120000 0) = true
              /\ parses (holding64 long_text 120000 0) = true
              /\ 100 = Z.quot
                         (C32.to_int
                            (parsed_price (holding64 long_text 120000 0))) 1000
              /\ 0 = Z.rem
                       (C32.to_int
                          (parsed_price (holding64 long_text 120000 0))) 1000
              /\ "$100,000  +10.00%"
                 = ("$" ++ Stdio.fmt_d 100 ++ "," ++ Stdio.fmt_0d 3 0 ++ "  "
                    ++ Stdio.fmt_plus_2f
                         (parsed_change (holding64 long_text 120000 0))
                    ++ "%")%string
              /\ (16 < String.length "$100,000  +10.00%")%nat).
  { split; [split; [reflexivity|cbn; lia]|].
    split; [vm_compute; reflexivity|]. split; [vm_compute; reflexivity|].
    split; [vm_compute; reflexivity|]. split; [vm_compute; reflexivity|].
    split; [vm_compute; reflexivity|]. cbn. lia. }
  split; [exact H|].
  destruct H as (Hfr & Hend & Hp & HT & HR & Htext & Hlen).
  destruct (long_text_ends_the_run 64 Stdio.LF [false; true]
              (holding64 long_text 120000 0) 100 0 "$100,000  +10.00%"
              Hfr Hend Hp HT HR Htext Hlen)
    as (s & Hrun & _ & _ & _ & Hcalls & _).
  exists s. split; assumption.
Defined.

(** A run of [main] that ends at line 135: the threshold is 10000, and the
    text of the line has 17 characters. *)
Example main_overruns_line2 :
  exists s,
    main 64 (long_text ++ [Stdio.LF]) (repeat false 40) boot64 = Fault s Line2
    /\ price s = C32.of_int 100000
    /\ update_text (price s) (change s) = "$100,000  +10.00%".
Proof.
  eexists. split; [vm_compute; reflexivity|].
  split; vm_compute; reflexivity.
Qed.

(** ** Port D in the idle branch *)

Lemma led_mask_bits (n : Z) :
  0 <= n -> Z.testbit (Z.lnot 3 mod 2 ^ 32) n = (2 <=? n) && (n <? 32).
Proof.
  intros Hn.
  change (Z.lnot 3 mod 2 ^ 32) with (Z.shiftl (Z.ones 30) 2).
  destruct (Z.leb_spec 2 n) as [H2|H2].
  - rewrite Z.shiftl_spec by lia.
    destruct (Z.ltb_spec n 32) as [H32|H32]; cbn [andb].
    + apply Z.ones_spec_low. lia.
    + apply Z.ones_spec_high. lia.
  - rewrite Z.shiftl_spec_low by lia. reflexivity.
Qed.

(** X13: the write to port D of line 172 clears the two LED pins and
    nothing else: every other pin of the 32-bit register keeps its value,
    and the value written is again a 32-bit one. *)
Theorem idle_branch_touches_led_pins_only :
  forall (st : State) (n : Z),
    0 <= n ->
    Z.testbit (GPIOD_DATA (on_mismatch st)) n
    = (if (2 <=? n) && (n <? 32) then Z.testbit (GPIOD_DATA st) n else false).
Proof.
  intros st n Hn. rewrite on_mismatch_eq. cbn [GPIOD_DATA].
  rewrite Z.land_spec, led_mask_bits by exact Hn.
  destruct ((2 <=? n) && (n <? 32)); [apply andb_true_r|apply andb_false_r].
Qed.

Lemma idle_branch_touches_led_pins_only_witness :
  0 <= 5
  /\ Z.testbit (GPIOD_DATA (on_mismatch (set_GPIOD_DATA 35 (armed64 0)))) 5
     = true.
Proof.
  split; [lia|].
  rewrite (idle_branch_touches_led_pins_only (set_GPIOD_DATA 35 (armed64 0)) 5)
    by lia.
  reflexivity.
Defined.

(** ** How long the selection lasts at least *)

Lemma threshold_loop_waits (polls : list bool) :
  forall st d,
    0 <= elapsed st <= delay_total (calls st) - d ->
    finished (threshold_loop polls st) = true ->
    4000 <= delay_total (calls (state_of (threshold_loop polls st))) - d.
Proof.
  induction polls as [|b polls IH]; intros st d He Hf; cbn [threshold_loop] in *;
    destruct (elapsed st <? 4000) eqn:E; try discriminate Hf;
    try (apply Z.ltb_ge in E; cbn [state_of]; lia).
  apply Z.ltb_lt in E. apply IH; [|exact Hf].
  destruct b.
  - rewrite tick_elapsed by (change (elapsed (on_press st)) with 0; lia).
    change (elapsed (on_press st)) with 0.
    rewrite tick_delay, on_press_delay. lia.
  - rewrite tick_elapsed, tick_delay by lia. lia.
Qed.

(** X14: the threshold is never locked in a hurry: when the selection loop
    ends, it has spent at least 4000 ms in [DelayMs], whatever the presses
    were, and the announcement adds its 3000 ms before the main loop. *)
Theorem selection_lasts_at_least_the_window :
  forall (polls rest : list bool) (boot st : State),
    threshold_phase polls boot = Done st rest ->
    7000 <= delay_total (calls st) - delay_total (calls boot).
Proof.
  intros polls rest boot st. unfold threshold_phase.
  pose proof (threshold_loop_waits polls (startup boot)
                (delay_total (calls boot))) as H.
  destruct (threshold_loop polls (startup boot)) as [s p|s|s];
    cbn [bind finished state_of] in *; intros E; try discriminate E.
  assert (Hs : lock_threshold s = st) by congruence. subst st.
  assert (H0 : delay_total (calls (startup boot)) = delay_total (calls boot)).
  { change (calls (startup boot))
      with (((((((((((calls boot ++ [Ev_PushButton_Init]) ++ [Ev_RGB_LED_Init])
                    ++ [Ev_Buzzer_Init]) ++ [Ev_LCD_Init]) ++ [Ev_UART1_Init])
                 ++ [Ev_LCD_Clear]) ++ [Ev_LCD_Set_Cursor 0 0])
               ++ [Ev_LCD_Display_String "Set min val:"])
              ++ [Ev_LCD_Set_Cursor 0 1])
             ++ [Ev_LCD_Display_String (threshold_text 0)])).
    rewrite !delay_total_app. cbn [delay_total]. lia. }
  assert (H1 : 4000 <= delay_total (calls s) - delay_total (calls boot)).
  { apply H; [|reflexivity]. change (elapsed (startup boot)) with 0. lia. }
  change (calls (lock_threshold s))
    with (((((calls s ++ [Ev_LCD_Clear]) ++ [Ev_LCD_Set_Cursor 0 0])
            ++ [Ev_LCD_Display_String "Threshold Saved"])
           ++ [Ev_DelayMs 3000]) ++ [Ev_LCD_Clear]).
  rewrite !delay_total_app. cbn [delay_total]. lia.
Qed.

Lemma selection_lasts_at_least_the_window_witness :
  threshold_phase (true :: repeat false 39) boot64
  = Done (state_of (threshold_phase (true :: repeat false 39) boot64)) []
  /\ 7000 <= delay_total
               (calls (state_of (threshold_phase (true :: repeat false 39)
                                   boot64)))
             - delay_total (calls boot64).
Proof.
  assert (E : threshold_phase (true :: repeat false 39) boot64
              = Done (state_of (threshold_phase (true :: repeat false 39) boot64))
                  [])
    by (vm_compute; reflexivity).
  split; [exact E|].
  exact (selection_lasts_at_least_the_window _ _ _ _ E).
Defined.
